(** * homebridge-qingping-air-monitor: a shallow embedding and its properties

    The development follows the layout of the plugin:
    - [Qingping]   : src/qingping/client.ts   (OAuth access, device cache)
    - [Accessory]  : src/platform-accessory.ts (characteristic handlers)
    - [Platform]   : src/platform.ts           (device discovery)

    JavaScript numbers that carry sensor readings are IEEE 754 binary64
    values, so they are embedded as primitive floats.  Epoch timestamps in
    milliseconds and token lifetimes in seconds are integral and far below
    2^53, so they are embedded as [Z]. *)

From Stdlib Require Import ZArith List String Bool Floats Lia.
From Stdlib Require Import DecimalString.
Import ListNotations.

Set Warnings "-inexact-float".
Local Open Scope string_scope.
Local Open Scope list_scope.
Local Open Scope Z_scope.

(* ================================================================== *)
(** * Effects: state, exceptions and the things a run leaves behind *)

(** What a thrown exception (or a rejected promise) carries. *)
Inductive Exn : Type :=
| RequestError (url : string)
| TypeError (msg : string).

Inductive Outcome (A : Type) : Type :=
| Returned (a : A)
| Thrown (e : Exn).
Arguments Returned {A} a.
Arguments Thrown {A} e.

(** A computation over a mutable state [S] that returns or throws.  Writes to
    the state made before a throw stay visible, as in JavaScript. *)
Definition M (S A : Type) : Type := S -> Outcome A * S.

Definition ret {S A} (a : A) : M S A := fun s => (Returned a, s).

Definition bind {S A B} (m : M S A) (k : A -> M S B) : M S B :=
  fun s =>
    match m s with
    | (Returned a, s') => k a s'
    | (Thrown e, s') => (Thrown e, s')
    end.

(** [try { body } catch (e) { handler e }] *)
Definition try_catch {S A} (body : M S A) (handler : Exn -> M S A) : M S A :=
  fun s =>
    match body s with
    | (Returned a, s') => (Returned a, s')
    | (Thrown e, s') => handler e s'
    end.

Definition modify {S} (f : S -> S) : M S unit := fun s => (Returned tt, f s).

Declare Scope js_scope.
Delimit Scope js_scope with js.
Notation "x <- m ;; k" := (bind m (fun x => k))
  (at level 100, m at next level, right associativity) : js_scope.
Notation "m ;; k" := (bind m (fun _ => k))
  (at level 100, right associativity) : js_scope.

(** Run a computation on the first component of a pair of states. *)
Definition on_fst {S T A} (m : M S A) : M (S * T) A :=
  fun st => let '(r, s') := m (fst st) in (r, (s', snd st)).

(** Run a computation on the second component of a pair of states. *)
Definition on_snd {S T A} (m : M T A) : M (S * T) A :=
  fun st => let '(r, t') := m (snd st) in (r, (fst st, t')).

(* ================================================================== *)
(** * JavaScript numbers *)

Module Number.

(** [!value] for a number: [0], [-0] and [NaN] are falsy. *)
Definition falsy (x : float) : bool :=
  (PrimFloat.eqb x 0 || negb (PrimFloat.eqb x x))%bool.

(** [a < b] and [a > b] *)
Definition lt (a b : float) : bool := PrimFloat.ltb a b.
Definition gt (a b : float) : bool := PrimFloat.ltb b a.
Definition le (a b : float) : bool := PrimFloat.leb a b.

(** [String(n)] for a length and for an integer. *)
Definition of_length (n : nat) : string :=
  NilZero.string_of_uint (Nat.to_uint n).

Definition of_Z (n : Z) : string :=
  NilZero.string_of_int (Z.to_int n).

End Number.

(* ================================================================== *)
(** * src/qingping/client.ts: data model *)

Module Qingping.

Record OauthAccess : Type := {
  access_token : string;
  expires_in : Z;
  scope : string;
  token_type : string
}.

(** [enum DeviceProductId { AirMonitor = 1201 }].  A numeric TypeScript enum
    compiles to an object that maps the name to the number and the number
    back to the name, so [Object.values] yields both. *)
Module DeviceProductId.
Definition AirMonitor : Z := 1201.

Inductive EnumValue : Type :=
| EnumName (s : string)
| EnumNumber (n : Z).

Definition values : list EnumValue :=
  [EnumName "AirMonitor"; EnumNumber AirMonitor].

(** [values.includes(id)] for a numeric [id] (SameValueZero never
    identifies a number with a string). *)
Definition includes (vals : list EnumValue) (id : Z) : bool :=
  existsb (fun v => match v with
                    | EnumNumber n => n =? id
                    | EnumName _ => false
                    end) vals.
End DeviceProductId.

Record Product : Type := {
  id : Z;
  product_name : string;
  en_name : string
}.

Record Status : Type := { offline : bool }.

Record DeviceInfo : Type := {
  mac : string;
  product : Product;
  name : string;
  version : string;
  created_at : Z;
  group_id : Z;
  group_name : string;
  status : Status
}.

(** [type DeviceDataKey] *)
Module Key.
Inductive t : Type :=
| timestamp | battery | temperature | humidity | tvoc | co2 | pm25.

Definition to_string (k : t) : string :=
  match k with
  | timestamp => "timestamp"
  | battery => "battery"
  | temperature => "temperature"
  | humidity => "humidity"
  | tvoc => "tvoc"
  | co2 => "co2"
  | pm25 => "pm25"
  end.
End Key.

(** [{ value: number }] *)
Record Reading : Type := { value : float }.

(** [DeviceData]: one optional reading per key; a device model without a
    given sensor leaves the key out of the object. *)
Record DeviceData : Type := {
  timestamp : option Reading;
  battery : option Reading;
  temperature : option Reading;
  humidity : option Reading;
  tvoc : option Reading;
  co2 : option Reading;
  pm25 : option Reading
}.

(** [data[key]] *)
Definition data_get (d : DeviceData) (k : Key.t) : option Reading :=
  match k with
  | Key.timestamp => timestamp d
  | Key.battery => battery d
  | Key.temperature => temperature d
  | Key.humidity => humidity d
  | Key.tvoc => tvoc d
  | Key.co2 => co2 d
  | Key.pm25 => pm25 d
  end.

Record Device : Type := {
  info : DeviceInfo;
  data : DeviceData
}.

(** The [devices] field of a parsed response body, before it is known to
    be an array. *)
Inductive DevicesField : Type :=
| FUndefined
| FNull
| FBoolean (b : bool)
| FNumber (n : float)
| FString (s : string)
| FObject
| FArray (l : list Device).

(** [Array.isArray] *)
Definition isArray (f : DevicesField) : bool :=
  match f with FArray _ => true | _ => false end.

Record GetDevicesResponse : Type := {
  total : Z;
  devices_field : DevicesField
}.

End Qingping.

(* ================================================================== *)
(** * The host (homebridge / HAP) as the plugin sees it *)

Module Homebridge.

(** The service types the plugin asks an accessory for. *)
Inductive Service : Type :=
| AccessoryInformation
| BatteryService
| TemperatureSensor
| HumiditySensor
| AirQualitySensor
| CarbonDioxideSensor.

Definition Service_eqb (a b : Service) : bool :=
  match a, b with
  | AccessoryInformation, AccessoryInformation
  | BatteryService, BatteryService
  | TemperatureSensor, TemperatureSensor
  | HumiditySensor, HumiditySensor
  | AirQualitySensor, AirQualitySensor
  | CarbonDioxideSensor, CarbonDioxideSensor => true
  | _, _ => false
  end.

(** [Characteristic.AirQuality.*] *)
Module AirQuality.
Inductive t : Type := UNKNOWN | EXCELLENT | GOOD | FAIR | INFERIOR | POOR.
End AirQuality.

(** [Characteristic.StatusLowBattery.*] *)
Module StatusLowBattery.
Inductive t : Type := BATTERY_LEVEL_NORMAL | BATTERY_LEVEL_LOW.
End StatusLowBattery.

(** [Characteristic.CarbonDioxideDetected.*] *)
Module CarbonDioxideDetected.
Inductive t : Type := CO2_LEVELS_NORMAL | CO2_LEVELS_ABNORMAL.
End CarbonDioxideDetected.

(** A [PlatformAccessory]: its identity, the device stored in
    [accessory.context.device] and the services attached to it. *)
Record PlatformAccessory : Type := {
  displayName : string;
  UUID : string;
  context_device : Qingping.Device;
  services : list Service
}.

(** [new api.platformAccessory(name, uuid)] followed by
    [accessory.context.device = device]; a fresh accessory carries the
    information service only.  The host's constructor throws on an empty
    [name]; the accessory is built here all the same, and [has_displayName]
    below is the condition under which the two agree. *)
Definition platformAccessory (name uuid : string) (device : Qingping.Device)
  : PlatformAccessory :=
  {| displayName := name; UUID := uuid; context_device := device;
     services := [AccessoryInformation] |}.

(** [accessory.getService(s) ?? accessory.addService(s)] *)
Definition getService_or_addService (s : Service) (a : PlatformAccessory)
  : PlatformAccessory :=
  if existsb (Service_eqb s) (services a) then a
  else {| displayName := displayName a; UUID := UUID a;
          context_device := context_device a;
          services := services a ++ [s] |}.

(** What the handler of a ['get'] event hands to its callback:
    [callback(error)] or [callback(null, value)]. *)
Inductive Callback (A : Type) : Type :=
| callback_error (message : string)
| callback_value (v : A).
Arguments callback_error {A} message.
Arguments callback_value {A} v.

End Homebridge.

(* ================================================================== *)
(** * The world outside the plugin *)

Inductive LogLevel : Type := info | warn | error | debug.

(** Everything a run does that is visible from outside, in order. *)
Inductive Event : Type :=
| HttpPost (url : string) (appKey appSecret : string)
| HttpGet (url : string) (timestamp : Z)
| Log (level : LogLevel) (message : string)
| LogExn (level : LogLevel) (e : Exn)
| SetInterval (milliseconds : Z)
| RegisterPlatformAccessories
    (plugin platform : string) (accessories : list Homebridge.PlatformAccessory)
| UnregisterPlatformAccessories
    (plugin platform : string) (accessories : list Homebridge.PlatformAccessory).

(** The answer a server will give to the next request: how long it takes and
    the parsed JSON body, or [None] when the request fails (no connection, a
    non-2xx status, a body that does not parse). *)
Record Reply (A : Type) : Type := {
  latency : Z;
  body : option A
}.
Arguments latency {A} r.
Arguments body {A} r.

(** The clock, the answers the two endpoints hold ready, and the trace of
    what was done so far.  An endpoint with no answer left is unreachable. *)
Record World : Type := {
  clock : Z;
  token_endpoint : list (Reply Qingping.OauthAccess);
  devices_endpoint : list (Reply Qingping.GetDevicesResponse);
  events : list Event
}.

(** [Date.now()] *)
Definition Date_now : M World Z := fun w => (Returned (clock w), w).

(** The world once [e] has happened in it. *)
Definition record (w : World) (e : Event) : World :=
  {| clock := clock w;
     token_endpoint := token_endpoint w;
     devices_endpoint := devices_endpoint w;
     events := events w ++ [e] |}.

Definition emit (e : Event) : M World unit := modify (fun w => record w e).

Definition token_url : string := "https://oauth.cleargrass.com/oauth2/token".
Definition devices_url : string := "https://apis.cleargrass.com/v1/apis/devices".

(** [await got.post(token_url, ...)]: the request goes out, time passes, the
    answer arrives or the promise rejects. *)
Definition post_token (appKey appSecret : string) : M World Qingping.OauthAccess :=
  fun w =>
    let sent := events w ++ [HttpPost token_url appKey appSecret] in
    match token_endpoint w with
    | [] =>
        (Thrown (RequestError token_url),
         {| clock := clock w; token_endpoint := [];
            devices_endpoint := devices_endpoint w; events := sent |})
    | r :: rest =>
        let w' := {| clock := clock w + latency r; token_endpoint := rest;
                     devices_endpoint := devices_endpoint w; events := sent |} in
        match body r with
        | Some a => (Returned a, w')
        | None => (Thrown (RequestError token_url), w')
        end
    end.

(** [await got.get(devices_url, { searchParams: { timestamp } })].  One call
    is one request here; got may repeat a device request that failed before
    the promise settles, which is not shown. *)
Definition get_devices (timestamp : Z) : M World Qingping.GetDevicesResponse :=
  fun w =>
    let sent := events w ++ [HttpGet devices_url timestamp] in
    match devices_endpoint w with
    | [] =>
        (Thrown (RequestError devices_url),
         {| clock := clock w; token_endpoint := token_endpoint w;
            devices_endpoint := []; events := sent |})
    | r :: rest =>
        let w' := {| clock := clock w + latency r;
                     token_endpoint := token_endpoint w;
                     devices_endpoint := rest; events := sent |} in
        match body r with
        | Some b => (Returned b, w')
        | None => (Thrown (RequestError devices_url), w')
        end
    end.

(* ================================================================== *)
(** * src/qingping/client.ts: [class Client] *)

Module Client.

Definition DEFAULT_INTERVAL : Z := 5000.

(** The fields of [this]. *)
Record t : Type := {
  appKey : string;
  appSecret : string;
  interval : Z;
  accessUpdatedAt : Z;
  access : option Qingping.OauthAccess;
  devices : list Qingping.Device
}.

(** [new Client(appKey, appSecret)] *)
Definition new (appKey appSecret : string) : t :=
  {| appKey := appKey; appSecret := appSecret; interval := DEFAULT_INTERVAL;
     accessUpdatedAt := -1; access := None; devices := [] |}.

Definition set_accessUpdatedAt (v : Z) (c : t) : t :=
  {| appKey := appKey c; appSecret := appSecret c; interval := interval c;
     accessUpdatedAt := v; access := access c; devices := devices c |}.

Definition set_access (v : option Qingping.OauthAccess) (c : t) : t :=
  {| appKey := appKey c; appSecret := appSecret c; interval := interval c;
     accessUpdatedAt := accessUpdatedAt c; access := v; devices := devices c |}.

Definition set_devices (v : list Qingping.Device) (c : t) : t :=
  {| appKey := appKey c; appSecret := appSecret c; interval := interval c;
     accessUpdatedAt := accessUpdatedAt c; access := access c; devices := v |}.

(** A method body runs on [this] and the world. *)
Definition Method (A : Type) : Type := M (t * World) A.

Definition this : Method t := fun st => (Returned (fst st), st).

(** [get refreshBefore()] *)
Definition refreshBefore : Method (option Z) :=
  (c <- this;;
   match access c with
   | None => ret None
   | Some a => now <- on_snd Date_now;;
               ret (Some (now + Qingping.expires_in a * 990))
   end)%js.

(** [async refreshToken()] *)
Definition refreshToken : Method Qingping.OauthAccess :=
  (c <- this;;
   response <- on_snd (post_token (appKey c) (appSecret c));;
   now <- on_snd Date_now;;
   on_fst (modify (set_accessUpdatedAt now));;
   on_fst (modify (set_access (Some response)));;
   ret response)%js.

(** The test that guards the refresh in [updateDevices]:
    [!this.access || this.accessUpdatedAt + this.access.expires_in * 1000 > Date.now()] *)
Definition refresh_condition (c : t) (now : Z) : bool :=
  match access c with
  | None => true
  | Some a => accessUpdatedAt c + Qingping.expires_in a * 1000 >? now
  end.

(** [async updateDevices()] *)
Definition updateDevices : Method unit :=
  (c <- this;;
   now <- on_snd Date_now;;
   (if refresh_condition c now
    then (_ <- refreshToken;; ret tt)
    else ret tt);;
   timestamp <- on_snd Date_now;;
   response <- on_snd (get_devices timestamp);;
   match Qingping.devices_field response with
   | Qingping.FArray l => on_fst (modify (set_devices l))
   | _ => ret tt
   end)%js.

End Client.

(* ================================================================== *)
(** * src/platform-accessory.ts: [class QingpingAirMonitorAccessory] *)

Module Accessory.

Import Homebridge.

(** The options of [QingpingHomebridgePlatformConfig] the plugin reads. *)
Record Config : Type := {
  appKey : string;
  appSecret : string;
  interval : option Z;
  temperatureName : option string;
  humidityName : option string;
  co2Name : option string;
  aqiName : option string;
  tvocUnit : option string
}.

Definition undefined_value : Exn :=
  TypeError "Cannot read property 'value' of undefined".

(** [getBatteryService()]: the service exists only for a device that reports
    a battery reading. *)
Definition getBatteryService (a : PlatformAccessory) : PlatformAccessory :=
  match Qingping.battery (Qingping.data (context_device a)) with
  | None => a
  | Some _ => getService_or_addService BatteryService a
  end.

(** The constructor, as far as the set of services goes. *)
Definition new (a : PlatformAccessory) : PlatformAccessory :=
  let a := getBatteryService a in
  let a := getService_or_addService TemperatureSensor a in
  let a := getService_or_addService HumiditySensor a in
  let a := getService_or_addService AirQualitySensor a in
  getService_or_addService CarbonDioxideSensor a.

(** The ['get'] handler of [BatteryLevel] in the revision that maps the level
    to [StatusLowBattery]. *)
Definition BatteryLevel_get (data : Qingping.DeviceData)
  : Outcome StatusLowBattery.t :=
  match Qingping.battery data with
  | None => Thrown undefined_value
  | Some r =>
      let batteryPercentage := Qingping.value r in
      if Number.gt batteryPercentage 20
      then Returned StatusLowBattery.BATTERY_LEVEL_NORMAL
      else Returned StatusLowBattery.BATTERY_LEVEL_LOW
  end.

(** [onCharacteristicGetValue(field, callback)]: [value] is
    [this.data[field]?.value], and [!value] holds for [undefined] and for a
    falsy number. *)
Definition onCharacteristicGetValue
  (data : Qingping.DeviceData) (field : Qingping.Key.t) : Callback float :=
  let value := option_map Qingping.value (Qingping.data_get data field) in
  let failure :=
    callback_error
      ("Undefined characteristic value for " ++ Qingping.Key.to_string field)%string in
  match value with
  | None => failure
  | Some v => if Number.falsy v then failure else callback_value v
  end.

Inductive LevelKey : Type := under | over.

(** [AirQualityLevel]: the condition lists its entries in the order
    [Object.entries] yields them. *)
Record AirQualityLevel : Type := {
  key : LevelKey;
  condition : list (Qingping.Key.t * float);
  airQuality : AirQuality.t
}.

Definition levels : list AirQualityLevel :=
  [ {| key := under;
       condition := [(Qingping.Key.pm25, 12); (Qingping.Key.tvoc, 65);
                     (Qingping.Key.co2, 1000)]%float;
       airQuality := AirQuality.EXCELLENT |};
    {| key := under;
       condition := [(Qingping.Key.pm25, 35); (Qingping.Key.tvoc, 220);
                     (Qingping.Key.co2, 1250)]%float;
       airQuality := AirQuality.GOOD |};
    {| key := under;
       condition := [(Qingping.Key.pm25, 55); (Qingping.Key.tvoc, 660);
                     (Qingping.Key.co2, 1500)]%float;
       airQuality := AirQuality.FAIR |};
    {| key := under;
       condition := [(Qingping.Key.pm25, 150); (Qingping.Key.tvoc, 2000);
                     (Qingping.Key.co2, 2000)]%float;
       airQuality := AirQuality.INFERIOR |};
    {| key := over;
       condition := [(Qingping.Key.pm25, 150); (Qingping.Key.tvoc, 2000);
                     (Qingping.Key.co2, 2000)]%float;
       airQuality := AirQuality.POOR |} ].

(** One element pushed onto [matches]:
    [dataKey in this.data && this.data[dataKey].value < targetValue] (or [>]). *)
Definition entry_matches (data : Qingping.DeviceData) (key : LevelKey)
  (entry : Qingping.Key.t * float) : bool :=
  let '(dataKey, targetValue) := entry in
  match Qingping.data_get data dataKey with
  | None => false
  | Some r =>
      match key with
      | under => Number.lt (Qingping.value r) targetValue
      | over => Number.gt (Qingping.value r) targetValue
      end
  end.

(** The [for (const level of levels)] loop with its [break]. *)
Fixpoint getAirQuality_loop (data : Qingping.DeviceData)
  (levels : list AirQualityLevel) (airQuality : AirQuality.t) : AirQuality.t :=
  match levels with
  | [] => airQuality
  | level :: rest =>
      let matches := map (entry_matches data (key level)) (condition level) in
      if forallb (fun x => x) matches
      then Accessory.airQuality level
      else getAirQuality_loop data rest airQuality
  end.

(** [getAirQuality()] *)
Definition getAirQuality (data : Qingping.DeviceData) : AirQuality.t :=
  getAirQuality_loop data levels AirQuality.UNKNOWN.

(** The ['get'] handler of [VOCDensity]. *)
Definition VOCDensity_get (config : Config) (data : Qingping.DeviceData)
  : Outcome (Callback float) :=
  match Qingping.tvoc data with
  | None => Thrown undefined_value
  | Some r =>
      let value := Qingping.value r in
      let value :=
        match tvocUnit config with
        | Some unit => if String.eqb unit "ppb"
                       then (Qingping.value r * 3.19)%float
                       else value
        | None => value
        end in
      Returned (callback_value value)
  end.

(** The ['get'] handler of [CarbonDioxideDetected]. *)
Definition CarbonDioxideDetected_get (data : Qingping.DeviceData)
  : Outcome (Callback CarbonDioxideDetected.t) :=
  match Qingping.co2 data with
  | None => Thrown undefined_value
  | Some r =>
      let detected :=
        if Number.gt (Qingping.value r) 2000
        then CarbonDioxideDetected.CO2_LEVELS_ABNORMAL
        else CarbonDioxideDetected.CO2_LEVELS_NORMAL in
      Returned (callback_value detected)
  end.

End Accessory.

(* ================================================================== *)
(** * src/platform.ts: [class QingpingHomebridgePlatform] *)

Module Platform.

Import Homebridge.

(** The fields of [this] that the methods below read or write. *)
Record t : Type := {
  config : Accessory.Config;
  client : option Client.t;
  accessories : list PlatformAccessory
}.

Definition set_client (v : option Client.t) (p : t) : t :=
  {| config := config p; client := v; accessories := accessories p |}.

Definition set_accessories (v : list PlatformAccessory) (p : t) : t :=
  {| config := config p; client := client p; accessories := v |}.

Definition Method (A : Type) : Type := M (t * World) A.

Definition this : Method t := fun st => (Returned (fst st), st).

(** [this.log.<level>(...)]; the arguments are joined by a blank. *)
Definition log (level : LogLevel) (message : string) : Method unit :=
  on_snd (emit (Log level message)).

(** [await this.client.updateDevices()] for a client known to exist: the
    method runs on the client object, whose fields keep what it wrote even
    when it throws. *)
Definition client_updateDevices (c : Client.t) : Method unit :=
  fun st =>
    let '(r, (c', w')) := Client.updateDevices (c, snd st) in
    (r, (set_client (Some c') (fst st), w')).

(** The body of the [setInterval] callback: [this.client?.updateDevices()].
    Nothing awaits or catches the promise it returns. *)
Definition interval_callback : Method unit :=
  (p <- this;;
   match client p with
   | None => ret tt
   | Some c => client_updateDevices c
   end)%js.

(** [a.context.device = device] on the first accessory with the given UUID,
    the one [find] returns. *)
Fixpoint set_context_device (uuid : string) (device : Qingping.Device)
  (l : list PlatformAccessory) : list PlatformAccessory :=
  match l with
  | [] => []
  | a :: rest =>
      if String.eqb (UUID a) uuid
      then {| displayName := displayName a; UUID := UUID a;
              context_device := device; services := services a |} :: rest
      else a :: set_context_device uuid device rest
  end.

(** [for (const x of l) { acc = body(acc, x) }] *)
Fixpoint for_of {S A B} (l : list A) (body : B -> A -> M S B) (acc : B) : M S B :=
  match l with
  | [] => ret acc
  | x :: rest => (acc' <- body acc x;; for_of rest body acc')%js
  end.

(** [configureAccessory(accessory)] *)
Definition configureAccessory (accessory : PlatformAccessory) : Method unit :=
  (log info ("Loading accessory from cache: " ++ displayName accessory)%string;;
   let deviceInfo := Qingping.info (context_device accessory) in
   if Qingping.id (Qingping.product deviceInfo) =? Qingping.DeviceProductId.AirMonitor
   then
     on_fst (modify (fun p =>
       set_accessories (accessories p ++ [Accessory.new accessory]) p))
   else
     log warn ("Unsupported accessory: " ++ displayName accessory)%string)%js.

Section Host.

(** [api.hap.uuid.generate] *)
Variable generate : string -> string.

(** The constants of settings.ts. *)
Variables PLUGIN_NAME PLATFORM_NAME : string.

(** [initialize()] *)
Definition initialize : Method unit :=
  (p <- this;;
   let config := config p in
   try_catch
     (log info ("Using the following appKey: " ++ Accessory.appKey config
                ++ ", and appSecret: "
                ++ String.substring 0 6 (Accessory.appSecret config) ++ "...")%string;;
      let client := Client.new (Accessory.appKey config) (Accessory.appSecret config) in
      on_fst (modify (set_client (Some client)));;
      client_updateDevices client;;
      log info "Initialized";;
      on_snd (emit (SetInterval (match Accessory.interval config with
                                 | Some ms => if ms =? 0 then 2000 else ms
                                 | None => 2000
                                 end))))
     (fun e =>
        on_snd (emit (LogExn error e));;
        on_snd (emit (LogExn debug e))))%js.

(** The filter that selects [availableDevices]. *)
Definition available (device : Qingping.Device) : bool :=
  Qingping.DeviceProductId.includes Qingping.DeviceProductId.values
    (Qingping.id (Qingping.product (Qingping.info device))).

(** The body of the first loop of [discoverDevices]; the accumulator is
    [discoveredAccessories]. *)
Definition discover_device (discoveredAccessories : list string)
  (device : Qingping.Device) : Method (list string) :=
  (let uuid := generate (Qingping.mac (Qingping.info device)) in
   let name := Qingping.name (Qingping.info device) in
   let discoveredAccessories := discoveredAccessories ++ [uuid] in
   p <- this;;
   match find (fun accessory => String.eqb (UUID accessory) uuid) (accessories p) with
   | Some _ =>
       log info ("Existing accessory: " ++ name)%string;;
       on_fst (modify (fun p =>
         set_accessories (set_context_device uuid device (accessories p)) p));;
       ret discoveredAccessories
   | None =>
       log info ("Adding new accessory: " ++ name)%string;;
       let accessory := platformAccessory name uuid device in
       if Qingping.id (Qingping.product (Qingping.info device))
          =? Qingping.DeviceProductId.AirMonitor
       then
         let accessory := Accessory.new accessory in
         on_snd (emit (RegisterPlatformAccessories PLUGIN_NAME PLATFORM_NAME [accessory]));;
         log info ("Registered a new device: " ++ name)%string;;
         on_fst (modify (fun p => set_accessories (accessories p ++ [accessory]) p));;
         ret discoveredAccessories
       else
         log warn ("Unsupported device: "
                   ++ Number.of_Z (Qingping.id (Qingping.product (Qingping.info device)))
                   ++ " "
                   ++ Qingping.en_name (Qingping.product (Qingping.info device)))%string;;
         ret discoveredAccessories
   end)%js.

(** The body of the second loop of [discoverDevices].  The host throws when
    it is asked to unregister an accessory its bridge does not hold; here
    the call is recorded all the same, and [host_accepts] below is the
    condition under which the two agree. *)
Definition unregister_unknown (discoveredAccessories : list string)
  (_ : unit) (accessory : PlatformAccessory) : Method unit :=
  (if negb (existsb (fun uuid => String.eqb (UUID accessory) uuid) discoveredAccessories)
   then
     log info ("Unregistering unknown accessory: " ++ displayName accessory)%string;;
     on_snd (emit (UnregisterPlatformAccessories PLUGIN_NAME PLATFORM_NAME [accessory]))
   else ret tt)%js.

(** [discoverDevices()] from the filter on: what is done with the device
    list the client holds once the update was attempted. *)
Definition reconcile (devices : list Qingping.Device) : Method unit :=
  (let availableDevices := filter available devices in
   log info ("Available devices: "
             ++ Number.of_length (List.length availableDevices))%string;;
   discoveredAccessories <- for_of availableDevices discover_device [];;
   p <- this;;
   for_of (accessories p) (unregister_unknown discoveredAccessories) tt)%js.

(** [discoverDevices()] *)
Definition discoverDevices : Method unit :=
  (log info "Start discovering devices";;
   p <- this;;
   match client p with
   | None => log info "Client is not ready; skipping discoverDevices()"
   | Some c =>
       try_catch
         (client_updateDevices c;;
          log info "Device list updated")
         (fun e => on_snd (emit (LogExn debug e)));;
       p <- this;;
       match client p with
       | None => ret tt
       | Some c => reconcile (Client.devices c)
       end
   end)%js.

End Host.

End Platform.

(* ================================================================== *)
(** * What the specification says, in its own words *)

Module Spec.

(** "Derived refreshDeadline = issuedAt + expiresInSeconds * 0.99", with
    [issuedAt] and the result in milliseconds: 0.99 s = 990 ms. *)
Definition refreshDeadline (issuedAt expiresInSeconds : Z) : Z :=
  issuedAt + expiresInSeconds * 990.

Inductive AirQualityLevel : Type :=
| Unknown | Excellent | Good | Fair | Inferior | Poor.

Inductive Direction : Type := Under | Over.

(** "AirQualityRule: { predicate: (under|over) per-kind threshold map,
    resultLevel }" *)
Record AirQualityRule : Type := {
  direction : Direction;
  thresholds : list (Qingping.Key.t * float);
  resultLevel : AirQualityLevel
}.

(** The canonical rule table, in the order the specification lists it. *)
Definition rules : list AirQualityRule :=
  [ {| direction := Under; resultLevel := Excellent;
       thresholds := [(Qingping.Key.pm25, 12); (Qingping.Key.tvoc, 65);
                      (Qingping.Key.co2, 1000)]%float |};
    {| direction := Under; resultLevel := Good;
       thresholds := [(Qingping.Key.pm25, 35); (Qingping.Key.tvoc, 220);
                      (Qingping.Key.co2, 1250)]%float |};
    {| direction := Under; resultLevel := Fair;
       thresholds := [(Qingping.Key.pm25, 55); (Qingping.Key.tvoc, 660);
                      (Qingping.Key.co2, 1500)]%float |};
    {| direction := Under; resultLevel := Inferior;
       thresholds := [(Qingping.Key.pm25, 150); (Qingping.Key.tvoc, 2000);
                      (Qingping.Key.co2, 2000)]%float |};
    {| direction := Over; resultLevel := Poor;
       thresholds := [(Qingping.Key.pm25, 150); (Qingping.Key.tvoc, 2000);
                      (Qingping.Key.co2, 2000)]%float |} ].

(** "readings: mapping<kind, number>" *)
Definition Readings : Type := Qingping.Key.t -> option float.

(** "that kind is present in readings AND the value compares strictly
    less-than (under) or strictly greater-than (over) the threshold" *)
Definition sub_condition (d : Direction) (readings : Readings)
  (kind : Qingping.Key.t) (threshold : float) : Prop :=
  exists v, readings kind = Some v /\
            match d with
            | Under => PrimFloat.ltb v threshold = true
            | Over => PrimFloat.ltb threshold v = true
            end.

(** "A rule matches iff, for every kind named in its condition, ..." *)
Definition rule_matches (rule : AirQualityRule) (readings : Readings) : Prop :=
  forall kind threshold,
    In (kind, threshold) (thresholds rule) ->
    sub_condition (direction rule) readings kind threshold.

(** "The first matching rule in list order wins; if no rule matches, the
    result is Unknown." *)
Inductive first_match (readings : Readings)
  : list AirQualityRule -> AirQualityLevel -> Prop :=
| first_match_none : first_match readings [] Unknown
| first_match_here rule rest :
    rule_matches rule readings ->
    first_match readings (rule :: rest) (resultLevel rule)
| first_match_later rule rest level :
    ~ rule_matches rule readings ->
    first_match readings rest level ->
    first_match readings (rule :: rest) level.

Definition classify (readings : Readings) (level : AirQualityLevel) : Prop :=
  first_match readings rules level.

End Spec.

(* ================================================================== *)
(** * Reading the model against the specification *)

(** The readings a device's data holds, as the specification's mapping. *)
Definition readings_of (data : Qingping.DeviceData) : Spec.Readings :=
  fun kind => option_map Qingping.value (Qingping.data_get data kind).

Definition level_of (q : Homebridge.AirQuality.t) : Spec.AirQualityLevel :=
  match q with
  | Homebridge.AirQuality.UNKNOWN => Spec.Unknown
  | Homebridge.AirQuality.EXCELLENT => Spec.Excellent
  | Homebridge.AirQuality.GOOD => Spec.Good
  | Homebridge.AirQuality.FAIR => Spec.Fair
  | Homebridge.AirQuality.INFERIOR => Spec.Inferior
  | Homebridge.AirQuality.POOR => Spec.Poor
  end.

Definition rule_of (l : Accessory.AirQualityLevel) : Spec.AirQualityRule :=
  {| Spec.direction := match Accessory.key l with
                       | Accessory.under => Spec.Under
                       | Accessory.over => Spec.Over
                       end;
     Spec.thresholds := Accessory.condition l;
     Spec.resultLevel := level_of (Accessory.airQuality l) |}.

(** A device's data with the three readings the classifier looks at. *)
Definition air_readings (pm25 tvoc co2 : float) : Qingping.DeviceData :=
  {| Qingping.timestamp := None; Qingping.battery := None;
     Qingping.temperature := None; Qingping.humidity := None;
     Qingping.tvoc := Some {| Qingping.value := tvoc |};
     Qingping.co2 := Some {| Qingping.value := co2 |};
     Qingping.pm25 := Some {| Qingping.value := pm25 |} |}.

(** [{}] *)
Definition no_readings : Qingping.DeviceData :=
  {| Qingping.timestamp := None; Qingping.battery := None;
     Qingping.temperature := None; Qingping.humidity := None;
     Qingping.tvoc := None; Qingping.co2 := None; Qingping.pm25 := None |}.

(** The token requests among the events of a run. *)
Definition token_requests (evs : list Event) : list Event :=
  filter (fun e => match e with HttpPost _ _ _ => true | _ => false end) evs.

(** The accessories handed to [registerPlatformAccessories], in order. *)
Definition registered (evs : list Event) : list Homebridge.PlatformAccessory :=
  flat_map (fun e => match e with
                     | RegisterPlatformAccessories _ _ l => l
                     | _ => []
                     end) evs.

(** The accessories handed to [unregisterPlatformAccessories], in order. *)
Definition unregistered (evs : list Event) : list Homebridge.PlatformAccessory :=
  flat_map (fun e => match e with
                     | UnregisterPlatformAccessories _ _ l => l
                     | _ => []
                     end) evs.

(** The exceptions a run logged. *)
Definition logged_exceptions (evs : list Event) : list (LogLevel * Exn) :=
  flat_map (fun e => match e with
                     | LogExn level e => [(level, e)]
                     | _ => []
                     end) evs.

(** The UUID the host derives for a device. *)
Definition uuid_of (generate : string -> string) (device : Qingping.Device) : string :=
  generate (Qingping.mac (Qingping.info device)).

(** [discoveredAccessories] once the first loop of [discoverDevices] is
    through with a device list. *)
Definition discovered_of (generate : string -> string)
  (devices : list Qingping.Device) : list string :=
  map (uuid_of generate) (filter Platform.available devices).

(** The test of the second loop: no discovered UUID is the accessory's. *)
Definition unknown (generate : string -> string) (devices : list Qingping.Device)
  (a : Homebridge.PlatformAccessory) : bool :=
  negb (existsb (String.eqb (Homebridge.UUID a)) (discovered_of generate devices)).

(** The events a run appended to a trace that started as [before]. *)
Definition events_since (before : list Event) (after : list Event) : list Event :=
  skipn (List.length before) after.

(* ================================================================== *)
(** * Sample inputs and the states of a run *)

(** A device's data that holds exactly one reading. *)
Definition single_reading (kind : Qingping.Key.t) (v : float) : Qingping.DeviceData :=
  let at_ k := match kind, k with
               | Qingping.Key.timestamp, Qingping.Key.timestamp
               | Qingping.Key.battery, Qingping.Key.battery
               | Qingping.Key.temperature, Qingping.Key.temperature
               | Qingping.Key.humidity, Qingping.Key.humidity
               | Qingping.Key.tvoc, Qingping.Key.tvoc
               | Qingping.Key.co2, Qingping.Key.co2
               | Qingping.Key.pm25, Qingping.Key.pm25 =>
                   Some {| Qingping.value := v |}
               | _, _ => None
               end in
  {| Qingping.timestamp := at_ Qingping.Key.timestamp;
     Qingping.battery := at_ Qingping.Key.battery;
     Qingping.temperature := at_ Qingping.Key.temperature;
     Qingping.humidity := at_ Qingping.Key.humidity;
     Qingping.tvoc := at_ Qingping.Key.tvoc;
     Qingping.co2 := at_ Qingping.Key.co2;
     Qingping.pm25 := at_ Qingping.Key.pm25 |}.

Definition config_with_tvocUnit (unit : option string) : Accessory.Config :=
  {| Accessory.appKey := "key"; Accessory.appSecret := "secret";
     Accessory.interval := None; Accessory.temperatureName := None;
     Accessory.humidityName := None; Accessory.co2Name := None;
     Accessory.aqiName := None; Accessory.tvocUnit := unit |}.

(** The token step of [updateDevices] goes through: no refresh is attempted,
    or the token endpoint answers with a body. *)
Definition token_step_succeeds (c : Client.t) (w : World) : Prop :=
  Client.refresh_condition c (clock w) = false \/
  exists r rest a, token_endpoint w = r :: rest /\ body r = Some a.

Definition cached_access : Qingping.OauthAccess :=
  {| Qingping.access_token := "cached"; Qingping.expires_in := 7200;
     Qingping.scope := "device_full_access"; Qingping.token_type := "bearer" |}.

Definition fresh_access : Qingping.OauthAccess :=
  {| Qingping.access_token := "fresh"; Qingping.expires_in := 7200;
     Qingping.scope := "device_full_access"; Qingping.token_type := "bearer" |}.

(** A client whose token was issued at t = 1 000 000 ms for 7200 s. *)
Definition client_with_token (devices : list Qingping.Device) : Client.t :=
  {| Client.appKey := "key"; Client.appSecret := "secret";
     Client.interval := Client.DEFAULT_INTERVAL;
     Client.accessUpdatedAt := 1000000;
     Client.access := Some cached_access;
     Client.devices := devices |}.

(** A world in which both endpoints answer once. *)
Definition world_at (now : Z) (field : Qingping.DevicesField) : World :=
  {| clock := now;
     token_endpoint := [ {| latency := 40; body := Some fresh_access |} ];
     devices_endpoint :=
       [ {| latency := 60;
            body := Some {| Qingping.total := 0;
                            Qingping.devices_field := field |} |} ];
     events := [] |}.

(** An air monitor with the given mac address and readings. *)
Definition air_monitor (mac : string) (data : Qingping.DeviceData) : Qingping.Device :=
  {| Qingping.info :=
       {| Qingping.mac := mac;
          Qingping.product :=
            {| Qingping.id := Qingping.DeviceProductId.AirMonitor;
               Qingping.product_name := "Air Monitor";
               Qingping.en_name := "Qingping Air Monitor" |};
          Qingping.name := mac;
          Qingping.version := "1.0.0";
          Qingping.created_at := 0;
          Qingping.group_id := 0;
          Qingping.group_name := "";
          Qingping.status := {| Qingping.offline := false |} |};
     Qingping.data := data |}.

(** The accessory the plugin builds for a device. *)
Definition accessory_for (generate : string -> string) (device : Qingping.Device)
  : Homebridge.PlatformAccessory :=
  Accessory.new
    (Homebridge.platformAccessory
       (Qingping.name (Qingping.info device))
       (generate (Qingping.mac (Qingping.info device)))
       device).

Definition device_A : Qingping.Device := air_monitor "A" (air_readings 10 50 900).
Definition device_B : Qingping.Device := air_monitor "B" (air_readings 10 50 900).
(** The same device B one poll later. *)
Definition device_B' : Qingping.Device := air_monitor "B" (air_readings 40 70 1100).
Definition device_C : Qingping.Device := air_monitor "C" (air_readings 10 50 900).

(** A stand-in for [api.hap.uuid.generate] that keeps distinct macs apart. *)
Definition sample_generate (mac : string) : string := ("uuid-" ++ mac)%string.

(** A client that has no token yet and holds [devices] in its cache. *)
Definition client_holding (devices : list Qingping.Device) : Client.t :=
  {| Client.appKey := "key"; Client.appSecret := "secret";
     Client.interval := Client.DEFAULT_INTERVAL;
     Client.accessUpdatedAt := -1;
     Client.access := None;
     Client.devices := devices |}.

Definition platform_with (cache : list Qingping.Device)
  (accessories : list Homebridge.PlatformAccessory) : Platform.t :=
  {| Platform.config := config_with_tvocUnit None;
     Platform.client := Some (client_holding cache);
     Platform.accessories := accessories |}.

(** A world whose endpoints answer one poll per payload, in order. *)
Definition world_polls (payloads : list (list Qingping.Device)) : World :=
  {| clock := 5000;
     token_endpoint :=
       map (fun _ => {| latency := 40; body := Some fresh_access |}) payloads;
     devices_endpoint :=
       map (fun payload =>
              {| latency := 60;
                 body := Some {| Qingping.total := Z.of_nat (List.length payload);
                                 Qingping.devices_field := Qingping.FArray payload |} |})
           payloads;
     events := [] |}.

(** A world in which no endpoint can be reached. *)
Definition world_offline : World :=
  {| clock := 5000; token_endpoint := []; devices_endpoint := []; events := [] |}.

(** One run leads from [st] to [st']: the client object is the same, the
    list of accessories kept its entries (by UUID, in order) and may have
    grown at the end, and the trace only grew. *)
Definition extends (st st' : Platform.t * World) : Prop :=
  (exists extra,
     map Homebridge.UUID (Platform.accessories (fst st'))
     = map Homebridge.UUID (Platform.accessories (fst st)) ++ extra) /\
  (exists evs, events (snd st') = events (snd st) ++ evs).

(** The state a second run starts from, and what a run added to the trace. *)
Definition after (run : Outcome unit * (Platform.t * World)) : Platform.t * World :=
  snd run.

Definition events_of_second
  (first second : Outcome unit * (Platform.t * World)) : list Event :=
  events_since (events (snd (after first))) (events (snd (after second))).

(* ================================================================== *)
(** * Further observations of readings, accessories and runs *)

(** The three readings the classifier looks at are present and each is
    strictly below its threshold. *)
Definition all_under (data : Qingping.DeviceData) (pm25 tvoc co2 : float) : bool :=
  match Qingping.pm25 data, Qingping.tvoc data, Qingping.co2 data with
  | Some p, Some t, Some c =>
      Number.lt (Qingping.value p) pm25 && Number.lt (Qingping.value t) tvoc
      && Number.lt (Qingping.value c) co2
  | _, _, _ => false
  end.

(** The three readings are present and each is strictly above its
    threshold. *)
Definition all_over (data : Qingping.DeviceData) (pm25 tvoc co2 : float) : bool :=
  match Qingping.pm25 data, Qingping.tvoc data, Qingping.co2 data with
  | Some p, Some t, Some c =>
      Number.gt (Qingping.value p) pm25 && Number.gt (Qingping.value t) tvoc
      && Number.gt (Qingping.value c) co2
  | _, _, _ => false
  end.

(** The threshold a kind has in the last two levels of [levels]. *)
Definition top_threshold (kind : Qingping.Key.t) : float :=
  match kind with
  | Qingping.Key.pm25 => 150
  | _ => 2000
  end.

(** The services every accessory of the plugin gets. *)
Definition sensor_services : list Homebridge.Service :=
  [Homebridge.TemperatureSensor; Homebridge.HumiditySensor;
   Homebridge.AirQualitySensor; Homebridge.CarbonDioxideSensor].

(** The device stored in the accessory has a battery reading. *)
Definition reports_battery (a : Homebridge.PlatformAccessory) : Prop :=
  Qingping.battery (Qingping.data (Homebridge.context_device a)) <> None.

(** The product of the device stored in the accessory is the air monitor. *)
Definition is_air_monitor (a : Homebridge.PlatformAccessory) : bool :=
  Qingping.id (Qingping.product (Qingping.info (Homebridge.context_device a)))
  =? Qingping.DeviceProductId.AirMonitor.

(** The token endpoint is unreachable or answers without a usable body. *)
Definition token_step_fails (w : World) : Prop :=
  token_endpoint w = [] \/
  exists r rest, token_endpoint w = r :: rest /\ body r = None.

(** A world with the given answers of the token endpoint and a devices
    endpoint that answers once, with an empty list. *)
Definition world_with_token_endpoint
  (answers : list (Reply Qingping.OauthAccess)) : World :=
  {| clock := 5000; token_endpoint := answers;
     devices_endpoint :=
       [ {| latency := 60;
            body := Some {| Qingping.total := 0;
                            Qingping.devices_field := Qingping.FArray [] |} |} ];
     events := [] |}.

(** The device stored in the accessory [find] returns for a UUID. *)
Definition context_of (uuid : string) (l : list Homebridge.PlatformAccessory)
  : option Qingping.Device :=
  option_map Homebridge.context_device
    (find (fun accessory => String.eqb (Homebridge.UUID accessory) uuid) l).

(** The last device of a list whose UUID is [uuid], or [before] when there
    is none. *)
Definition last_snapshot (generate : string -> string) (uuid : string)
  (devices : list Qingping.Device) (before : option Qingping.Device)
  : option Qingping.Device :=
  fold_left (fun found device =>
               if String.eqb (uuid_of generate device) uuid then Some device else found)
            devices before.

(** The event is an HTTP request. *)
Definition is_request (e : Event) : bool :=
  match e with
  | HttpPost _ _ _ | HttpGet _ _ => true
  | _ => false
  end.

(** The periods handed to [setInterval], in order. *)
Definition scheduled (evs : list Event) : list Z :=
  flat_map (fun e => match e with SetInterval ms => [ms] | _ => [] end) evs.

(** What [discoverDevices] logs once its update returned or threw. *)
Definition discovery_log (r : Outcome unit) : Event :=
  match r with
  | Returned _ => Log info "Device list updated"
  | Thrown e => LogExn debug e
  end.

(** The device list of the platform's client; none without a client. *)
Definition held_devices (p : Platform.t) : list Qingping.Device :=
  match Platform.client p with
  | Some c => Client.devices c
  | None => []
  end.

(** The events a run added to the trace of the world [w] it started in. *)
Definition events_of_run (w : World)
  (run : Outcome unit * (Platform.t * World)) : list Event :=
  events_since (events w) (events (snd (after run))).

(** The world once the events [evs] have happened in it. *)
Definition with_events (w : World) (evs : list Event) : World :=
  {| clock := clock w; token_endpoint := token_endpoint w;
     devices_endpoint := devices_endpoint w; events := events w ++ evs |}.

(** [config.interval || 2000] *)
Definition polling_period (config : Accessory.Config) : Z :=
  match Accessory.interval config with
  | Some ms => if ms =? 0 then 2000 else ms
  | None => 2000
  end.

(** The first line [initialize] logs. *)
Definition initialize_banner (config : Accessory.Config) : string :=
  ("Using the following appKey: " ++ Accessory.appKey config
   ++ ", and appSecret: "
   ++ String.substring 0 6 (Accessory.appSecret config) ++ "...")%string.

(** A device of a product the plugin does not know. *)
Definition other_product : Qingping.Device :=
  {| Qingping.info :=
       {| Qingping.mac := "D";
          Qingping.product :=
            {| Qingping.id := 1101;
               Qingping.product_name := "Other";
               Qingping.en_name := "Some other product" |};
          Qingping.name := "D";
          Qingping.version := "1.0.0";
          Qingping.created_at := 0;
          Qingping.group_id := 0;
          Qingping.group_name := "";
          Qingping.status := {| Qingping.offline := false |} |};
     Qingping.data := no_readings |}.

(** The host refuses some of the calls that the model of it carries out
    whatever their arguments: [new api.platformAccessory(name, uuid)] throws
    on an empty display name, and [unregisterPlatformAccessories] throws for
    an accessory its bridge does not hold, which is the case once the
    accessory was unregistered.  The HTTP client may also repeat a device
    request that failed before it gives up.  A statement that depends on a
    run getting past such a call carries the conditions below. *)

(** The device has a display name. *)
Definition has_displayName (device : Qingping.Device) : Prop :=
  Qingping.name (Qingping.info device) <> EmptyString.

(** Every device the first loop of [discoverDevices] may build an accessory
    for has a display name. *)
Definition named (devices : list Qingping.Device) : Prop :=
  Forall has_displayName (filter Platform.available devices).

(** The host carries out every call of a reconciliation against [devices]
    that starts from [p] and [w]: the devices are named, the accessories of
    the plugin are distinct, and none was unregistered so far. *)
Definition host_accepts (devices : list Qingping.Device)
  (p : Platform.t) (w : World) : Prop :=
  named devices /\
  NoDup (map Homebridge.UUID (Platform.accessories p)) /\
  unregistered (events w) = [].

(** A platform whose client has a token, as it is once polling runs. *)
Definition platform_polling (cache : list Qingping.Device)
  (accessories : list Homebridge.PlatformAccessory) : Platform.t :=
  {| Platform.config := config_with_tvocUnit None;
     Platform.client := Some (client_with_token cache);
     Platform.accessories := accessories |}.

(* ================================================================== *)
(** * Proof steps *)

(** Evaluate a run whose UUID comparisons are settled by the hypotheses. *)
Ltac decide_uuids :=
  repeat match goal with
         | H : String.eqb _ _ = false |- _ => rewrite H
         end;
  rewrite ?String.eqb_refl.

Ltac evaluate := repeat (progress (cbv -[String.eqb]; decide_uuids)).

Ltac distinct_uuids :=
  repeat match goal with
         | H : _ <> _ |- _ =>
             apply String.eqb_neq in H;
             let H' := fresh H in
             pose proof H as H'; rewrite String.eqb_sym in H'
         end.

(** Evaluate the run bound to [x] in the context and put its value in
    place of [x]. *)
Ltac evaluate_run x :=
  let r := fresh "r" in
  let H := fresh "H" in
  evar (r : (Outcome unit * (Platform.t * World))%type);
  assert (H : x = r) by (subst x r; evaluate; reflexivity);
  subst r; clearbody x; subst x.

(* ================================================================== *)
(** * Comparisons of JavaScript numbers *)

Lemma SFcompare_antisym (x y : spec_float) :
  SFcompare y x = option_map CompOpp (SFcompare x y).
Proof.
  destruct x as [sx | sx | | sx mx ex], y as [sy | sy | | sy my ey];
    simpl; try reflexivity;
    try (destruct sx; reflexivity); try (destruct sy; reflexivity);
    try (destruct sx, sy; reflexivity).
  destruct sx, sy; try reflexivity;
    rewrite (Z.compare_antisym ex ey);
    destruct (ex ?= ey) eqn:E; simpl; try reflexivity;
    change (PosDef.Pos.compare_cont Eq my mx) with (Pos.compare my mx);
    change (PosDef.Pos.compare_cont Eq mx my) with (Pos.compare mx my);
    rewrite (Pos.compare_antisym mx my); reflexivity.
Qed.

Lemma le_not_gt (a b : float) :
  Number.le a b = true -> Number.gt a b = false.
Proof.
  unfold Number.le, Number.gt.
  rewrite leb_spec, ltb_spec. unfold SFleb, SFltb.
  rewrite (SFcompare_antisym (Prim2SF a) (Prim2SF b)).
  destruct (SFcompare (Prim2SF a) (Prim2SF b)) as [[ | | ] | ];
    simpl; congruence.
Qed.

Lemma gt_not_le (a b : float) :
  Number.gt a b = true -> Number.le a b = false.
Proof.
  intros H. destruct (Number.le a b) eqn:E; [ | reflexivity ].
  apply le_not_gt in E. congruence.
Qed.

(* ================================================================== *)
(** * The air-quality classifier *)

Section Classifier.

Import Accessory Homebridge.

Variable data : Qingping.DeviceData.

Lemma entry_matches_sub_condition (l : AirQualityLevel)
  (kind : Qingping.Key.t) (threshold : float) :
  entry_matches data (key l) (kind, threshold) = true <->
  Spec.sub_condition (Spec.direction (rule_of l)) (readings_of data) kind threshold.
Proof.
  unfold entry_matches, Spec.sub_condition, readings_of, rule_of; simpl.
  destruct (Qingping.data_get data kind) as [r | ]; simpl.
  - split.
    + intros H. exists (Qingping.value r). split; [ reflexivity | ].
      destruct (key l); exact H.
    + intros [v [Hv H]]. injection Hv as <-. destruct (key l); exact H.
  - split; [ discriminate | intros [v [Hv _]]; discriminate ].
Qed.

Lemma level_matches_rule (l : AirQualityLevel) :
  forallb (fun x => x) (map (entry_matches data (key l)) (condition l)) = true <->
  Spec.rule_matches (rule_of l) (readings_of data).
Proof.
  rewrite forallb_forall. unfold Spec.rule_matches. split.
  - intros H kind threshold Hin.
    apply entry_matches_sub_condition. apply H.
    apply in_map_iff. exists (kind, threshold). split; [ reflexivity | exact Hin ].
  - intros H b Hb. apply in_map_iff in Hb as [[kind threshold] [<- Hin]].
    apply entry_matches_sub_condition. apply H. exact Hin.
Qed.

Lemma getAirQuality_loop_first_match (ls : list AirQualityLevel) :
  Spec.first_match (readings_of data) (map rule_of ls)
    (level_of (getAirQuality_loop data ls AirQuality.UNKNOWN)).
Proof.
  induction ls as [ | l rest IH]; simpl.
  - constructor.
  - destruct (forallb (fun x => x) (map (entry_matches data (key l)) (condition l)))
      eqn:E.
    + apply (Spec.first_match_here (readings_of data) (rule_of l)).
      apply level_matches_rule. exact E.
    + apply Spec.first_match_later; [ | exact IH ].
      intros H. apply level_matches_rule in H. congruence.
Qed.

Lemma first_match_functional (rs : list Spec.AirQualityRule)
  (l1 l2 : Spec.AirQualityLevel) :
  Spec.first_match (readings_of data) rs l1 ->
  Spec.first_match (readings_of data) rs l2 -> l1 = l2.
Proof.
  intros H1. revert l2.
  induction H1 as [ | rule rest Hm | rule rest level Hn _ IH ];
    intros l2 H2; inversion H2; subst; try reflexivity; try contradiction.
  apply IH. assumption.
Qed.

(** A rule that names a kind the data lacks does not match. *)
Lemma missing_kind_fails (l : AirQualityLevel)
  (kind : Qingping.Key.t) (threshold : float) :
  Qingping.data_get data kind = None ->
  In (kind, threshold) (condition l) ->
  forallb (fun x => x) (map (entry_matches data (key l)) (condition l)) = false.
Proof.
  intros Hnone Hin.
  destruct (forallb (fun x => x) (map (entry_matches data (key l)) (condition l)))
    eqn:E; [ | reflexivity ].
  rewrite forallb_forall in E.
  assert (H : entry_matches data (key l) (kind, threshold) = true).
  { apply E. apply in_map_iff. exists (kind, threshold). auto. }
  unfold entry_matches in H. rewrite Hnone in H. discriminate.
Qed.

End Classifier.

(** C4.  [getAirQuality] computes exactly the classification the
    specification defines: the five rules Excellent, Good, Fair, Inferior
    (under) and Poor (over) with their thresholds, tried in that order; a rule
    matches iff every kind it names is present and compares strictly against
    its threshold; the first match wins and no match gives Unknown.  A missing
    pm25, tvoc or co2 reading therefore gives Unknown, and the four sample
    readings classify as Excellent, not Good, Poor and Unknown. *)
Theorem getAirQuality_is_classify :
  map rule_of Accessory.levels = Spec.rules /\
  (forall data level,
     Spec.classify (readings_of data) level <->
     level_of (Accessory.getAirQuality data) = level) /\
  (forall data kind,
     In kind [Qingping.Key.pm25; Qingping.Key.tvoc; Qingping.Key.co2] ->
     Qingping.data_get data kind = None ->
     Accessory.getAirQuality data = Homebridge.AirQuality.UNKNOWN) /\
  Accessory.getAirQuality (air_readings 10 50 900) = Homebridge.AirQuality.EXCELLENT /\
  Accessory.getAirQuality (air_readings 35 50 900) <> Homebridge.AirQuality.GOOD /\
  Accessory.getAirQuality (air_readings 35 50 900) = Homebridge.AirQuality.FAIR /\
  Accessory.getAirQuality (air_readings 200 2500 2500) = Homebridge.AirQuality.POOR /\
  Accessory.getAirQuality no_readings = Homebridge.AirQuality.UNKNOWN.
Proof.
  split; [ reflexivity | ].
  split.
  { intros data level. unfold Spec.classify.
    change Spec.rules with (map rule_of Accessory.levels).
    split.
    - intros H. eapply first_match_functional; [ | exact H ].
      apply getAirQuality_loop_first_match.
    - intros <-. apply getAirQuality_loop_first_match. }
  split.
  { intros data kind Hkind Hnone.
    unfold Accessory.getAirQuality, Accessory.levels.
    assert (Hfail : forall l threshold,
              In (kind, threshold) (Accessory.condition l) ->
              forallb (fun x => x)
                (map (Accessory.entry_matches data (Accessory.key l))
                   (Accessory.condition l)) = false).
    { intros l threshold Hin. eapply missing_kind_fails; eassumption. }
    cbn [Accessory.getAirQuality_loop].
    destruct Hkind as [<- | [<- | [<- | []]]];
      repeat (erewrite Hfail by (cbn [Accessory.condition]; simpl; eauto 6));
      reflexivity. }
  repeat split; try reflexivity.
  discriminate.
Qed.

(** At a concrete incomplete reading (no co2) nothing matches although the
    two present values are under every threshold. *)
Lemma getAirQuality_is_classify_witness :
  Accessory.getAirQuality
    {| Qingping.timestamp := None; Qingping.battery := None;
       Qingping.temperature := None; Qingping.humidity := None;
       Qingping.tvoc := Some {| Qingping.value := 1 |};
       Qingping.co2 := None;
       Qingping.pm25 := Some {| Qingping.value := 1 |} |}
  = Homebridge.AirQuality.UNKNOWN.
Proof.
  apply (proj1 (proj2 (proj2 getAirQuality_is_classify)) _ Qingping.Key.co2).
  - simpl. auto.
  - reflexivity.
Defined.

(* ================================================================== *)
(** * The characteristic handlers *)

(** C7.  A capability read through [onCharacteristicGetValue] hands its
    callback an error exactly when the kind is absent from the readings or
    its value is falsy (a JavaScript number is falsy when it is 0, -0 or NaN);
    otherwise it hands over the value.  A reading of exactly 0 is therefore
    reported as missing, never as the value 0. *)
Theorem onCharacteristicGetValue_error_iff_absent_or_falsy :
  forall (data : Qingping.DeviceData) (field : Qingping.Key.t),
    ((exists message,
        Accessory.onCharacteristicGetValue data field
        = Homebridge.callback_error message)
     <->
     (Qingping.data_get data field = None \/
      exists r, Qingping.data_get data field = Some r /\
                Number.falsy (Qingping.value r) = true))
    /\
    (forall r,
       Qingping.data_get data field = Some r ->
       Number.falsy (Qingping.value r) = false ->
       Accessory.onCharacteristicGetValue data field
       = Homebridge.callback_value (Qingping.value r))
    /\
    Accessory.onCharacteristicGetValue (single_reading field 0) field
    = Homebridge.callback_error
        ("Undefined characteristic value for " ++ Qingping.Key.to_string field)%string
    /\
    Accessory.onCharacteristicGetValue (single_reading field 0) field
    <> Homebridge.callback_value 0%float.
Proof.
  intros data field. unfold Accessory.onCharacteristicGetValue.
  repeat split.
  - intros [message H].
    destruct (Qingping.data_get data field) as [r | ]; simpl in H; [ | now left ].
    right. exists r. split; [ reflexivity | ].
    destruct (Number.falsy (Qingping.value r)); [ reflexivity | discriminate ].
  - intros [Hnone | [r [Hr Hf]]].
    + rewrite Hnone; simpl. eexists; reflexivity.
    + rewrite Hr; simpl. rewrite Hf. eexists; reflexivity.
  - intros r Hr Hf. rewrite Hr; simpl. rewrite Hf. reflexivity.
  - destruct field; reflexivity.
  - destruct field; discriminate.
Qed.

(** A humidity reading of 45 is handed over as 45. *)
Lemma onCharacteristicGetValue_error_iff_absent_or_falsy_witness :
  Accessory.onCharacteristicGetValue
    (single_reading Qingping.Key.humidity 45) Qingping.Key.humidity
  = Homebridge.callback_value 45%float.
Proof.
  apply (proj1 (proj2 (onCharacteristicGetValue_error_iff_absent_or_falsy
                         (single_reading Qingping.Key.humidity 45)
                         Qingping.Key.humidity))
           {| Qingping.value := 45 |});
    reflexivity.
Defined.

(** C8.  The VOC density handed to the callback is the raw tvoc value times
    3.19 (in binary64 arithmetic) when [tvocUnit] is ['ppb'], and the raw
    value itself for every other setting; a raw 100 resolves to 319. *)
Theorem VOCDensity_get_converts_ppb :
  forall (config : Accessory.Config) (data : Qingping.DeviceData) (v : float),
    Qingping.tvoc data = Some {| Qingping.value := v |} ->
    (Accessory.tvocUnit config = Some "ppb" ->
     Accessory.VOCDensity_get config data
     = Returned (Homebridge.callback_value (v * 3.19)%float))
    /\
    (Accessory.tvocUnit config <> Some "ppb" ->
     Accessory.VOCDensity_get config data
     = Returned (Homebridge.callback_value v))
    /\
    (100 * 3.19)%float = 319%float.
Proof.
  intros config data v Hv. unfold Accessory.VOCDensity_get. rewrite Hv; simpl.
  repeat split.
  - intros ->. reflexivity.
  - intros Hunit. destruct (Accessory.tvocUnit config) as [unit | ]; [ | reflexivity ].
    destruct (String.eqb_spec unit "ppb") as [-> | _]; [ | reflexivity ].
    contradiction Hunit. reflexivity.
Qed.

(** With [tvocUnit = 'ppb'] a raw 100 is handed over as 319. *)
Lemma VOCDensity_get_converts_ppb_witness :
  Accessory.VOCDensity_get (config_with_tvocUnit (Some "ppb"))
    (single_reading Qingping.Key.tvoc 100)
  = Returned (Homebridge.callback_value 319%float).
Proof.
  apply (proj1 (VOCDensity_get_converts_ppb
                  (config_with_tvocUnit (Some "ppb"))
                  (single_reading Qingping.Key.tvoc 100) 100 eq_refl)).
  reflexivity.
Defined.

(** C9.  For a battery reading b the battery handler returns
    BATTERY_LEVEL_LOW when b <= 20 and BATTERY_LEVEL_NORMAL when b > 20; at
    exactly 20 it returns BATTERY_LEVEL_LOW. *)
Theorem BatteryLevel_get_threshold :
  forall (data : Qingping.DeviceData) (b : float),
    Qingping.battery data = Some {| Qingping.value := b |} ->
    (Number.le b 20 = true ->
     Accessory.BatteryLevel_get data
     = Returned Homebridge.StatusLowBattery.BATTERY_LEVEL_LOW)
    /\
    (Number.gt b 20 = true ->
     Accessory.BatteryLevel_get data
     = Returned Homebridge.StatusLowBattery.BATTERY_LEVEL_NORMAL)
    /\
    (b = 20%float ->
     Accessory.BatteryLevel_get data
     = Returned Homebridge.StatusLowBattery.BATTERY_LEVEL_LOW).
Proof.
  intros data b Hb. unfold Accessory.BatteryLevel_get. rewrite Hb; simpl.
  repeat split.
  - intros Hle. rewrite (le_not_gt _ _ Hle). reflexivity.
  - intros ->. reflexivity.
  - intros ->. reflexivity.
Qed.

(** A battery at exactly 20 percent reads as low. *)
Lemma BatteryLevel_get_threshold_witness :
  Accessory.BatteryLevel_get (single_reading Qingping.Key.battery 20)
  = Returned Homebridge.StatusLowBattery.BATTERY_LEVEL_LOW.
Proof.
  apply (proj1 (BatteryLevel_get_threshold
                  (single_reading Qingping.Key.battery 20) 20 eq_refl)).
  reflexivity.
Defined.

(** C10.  For a co2 reading c the carbon-dioxide-detected handler reports
    CO2_LEVELS_ABNORMAL exactly when c > 2000 and CO2_LEVELS_NORMAL otherwise;
    at exactly 2000 it reports CO2_LEVELS_NORMAL. *)
Theorem CarbonDioxideDetected_get_threshold :
  forall (data : Qingping.DeviceData) (c : float),
    Qingping.co2 data = Some {| Qingping.value := c |} ->
    (Accessory.CarbonDioxideDetected_get data
     = Returned (Homebridge.callback_value
                   Homebridge.CarbonDioxideDetected.CO2_LEVELS_ABNORMAL)
     <-> Number.gt c 2000 = true)
    /\
    (Accessory.CarbonDioxideDetected_get data
     = Returned (Homebridge.callback_value
                   Homebridge.CarbonDioxideDetected.CO2_LEVELS_NORMAL)
     <-> Number.gt c 2000 = false)
    /\
    (Number.le c 2000 = true -> Number.gt c 2000 = false)
    /\
    (c = 2000%float ->
     Accessory.CarbonDioxideDetected_get data
     = Returned (Homebridge.callback_value
                   Homebridge.CarbonDioxideDetected.CO2_LEVELS_NORMAL)).
Proof.
  intros data c Hc. unfold Accessory.CarbonDioxideDetected_get.
  rewrite Hc; simpl.
  repeat split.
  - destruct (Number.gt c 2000); [ reflexivity | discriminate ].
  - intros ->. reflexivity.
  - destruct (Number.gt c 2000); [ discriminate | reflexivity ].
  - intros ->. reflexivity.
  - apply le_not_gt.
  - intros ->. reflexivity.
Qed.

(** A co2 reading of exactly 2000 is reported as normal. *)
Lemma CarbonDioxideDetected_get_threshold_witness :
  Accessory.CarbonDioxideDetected_get (single_reading Qingping.Key.co2 2000)
  = Returned (Homebridge.callback_value
                Homebridge.CarbonDioxideDetected.CO2_LEVELS_NORMAL).
Proof.
  apply (proj2 (proj2 (proj2 (CarbonDioxideDetected_get_threshold
                  (single_reading Qingping.Key.co2 2000) 2000 eq_refl)))).
  reflexivity.
Defined.

(* ================================================================== *)
(** * The client: token refresh and the device cache *)

Lemma refreshToken_success (c : Client.t) (w : World)
  (r : Reply Qingping.OauthAccess) (rest : list (Reply Qingping.OauthAccess))
  (a : Qingping.OauthAccess) :
  token_endpoint w = r :: rest -> body r = Some a ->
  exists c' w',
    Client.refreshToken (c, w) = (Returned a, (c', w')) /\
    Client.access c' = Some a /\
    Client.accessUpdatedAt c' = clock w + latency r /\
    Client.devices c' = Client.devices c /\
    clock w' = clock w + latency r /\
    devices_endpoint w' = devices_endpoint w /\
    events w' = events w ++ [HttpPost token_url (Client.appKey c) (Client.appSecret c)].
Proof.
  intros Hnet Hbody.
  unfold Client.refreshToken, bind, Client.this, on_snd, on_fst, post_token,
    Date_now, modify, ret; simpl.
  rewrite Hnet, Hbody; simpl.
  do 2 eexists. repeat split.
Qed.

Lemma refreshToken_failure (c : Client.t) (w : World) (e : Exn)
  (c' : Client.t) (w' : World) :
  Client.refreshToken (c, w) = (Thrown e, (c', w')) -> c' = c.
Proof.
  unfold Client.refreshToken, bind, Client.this, on_snd, on_fst, post_token,
    Date_now, modify, ret; simpl.
  destruct (token_endpoint w) as [ | r rest]; simpl.
  - intros H; injection H as _ <- _. reflexivity.
  - destruct (body r); simpl; intros H; [ discriminate | ].
    injection H as _ <- _. reflexivity.
Qed.

(** [refreshToken] touches neither the device cache nor the devices
    endpoint, whatever its outcome. *)
Lemma refreshToken_frame (c : Client.t) (w : World) :
  Client.devices (fst (snd (Client.refreshToken (c, w)))) = Client.devices c /\
  devices_endpoint (snd (snd (Client.refreshToken (c, w)))) = devices_endpoint w /\
  events (snd (snd (Client.refreshToken (c, w))))
  = events w ++ [HttpPost token_url (Client.appKey c) (Client.appSecret c)].
Proof.
  unfold Client.refreshToken, bind, Client.this, on_snd, on_fst, post_token,
    Date_now, modify, ret; simpl.
  destruct (token_endpoint w) as [ | r rest]; simpl; [ auto | ].
  destruct (body r); simpl; auto.
Qed.

(** What [updateDevices] does to the device cache, whatever happens: it is
    the list the answer carried, or it is what it was. *)
Lemma updateDevices_devices (c : Client.t) (w : World) :
  forall r c' w',
    Client.updateDevices (c, w) = (r, (c', w')) ->
    match r with
    | Thrown _ => Client.devices c' = Client.devices c
    | Returned _ =>
        Client.devices c' = Client.devices c \/
        exists reply rest b l,
          devices_endpoint w = reply :: rest /\ body reply = Some b /\
          Qingping.devices_field b = Qingping.FArray l /\
          Client.devices c' = l
    end.
Proof.
  intros r c' w'.
  pose proof (refreshToken_frame c w) as [Fd [Fn _]].
  unfold Client.updateDevices.
  unfold bind at 1. unfold Client.this at 1. simpl.
  unfold bind at 1. unfold on_snd at 1, Date_now at 1. simpl.
  unfold bind at 1.
  destruct (Client.refresh_condition c (clock w)).
  - unfold bind at 1.
    destruct (Client.refreshToken (c, w)) as [[a | e] [c1 w1]]; simpl in *.
    + unfold ret at 1, bind, on_snd, on_fst, Date_now, get_devices, modify, ret; simpl.
      rewrite Fn.
      destruct (devices_endpoint w) as [ | reply rest]; simpl.
      * intros H; injection H as <- <- <-. exact Fd.
      * destruct (body reply) as [b | ] eqn:Hb; simpl.
        -- destruct (Qingping.devices_field b) eqn:Hf; simpl;
             intros H; injection H as <- <- <-; simpl; auto.
           right. exists reply, rest, b, l. auto.
        -- intros H; injection H as <- <- <-. exact Fd.
    + intros H; injection H as <- <- <-. exact Fd.
  - unfold ret at 1, bind, on_snd, on_fst, Date_now, get_devices, modify, ret; simpl.
    destruct (devices_endpoint w) as [ | reply rest]; simpl.
    + intros H; injection H as <- <- <-. reflexivity.
    + destruct (body reply) as [b | ] eqn:Hb; simpl.
      * destruct (Qingping.devices_field b) eqn:Hf; simpl;
          intros H; injection H as <- <- <-; simpl; auto.
        right. exists reply, rest, b, l. auto.
      * intros H; injection H as <- <- <-. reflexivity.
Qed.

(** [updateDevices] only appends to the trace. *)
Lemma updateDevices_events (c : Client.t) (w : World) :
  exists evs,
    events (snd (snd (Client.updateDevices (c, w)))) = events w ++ evs.
Proof.
  pose proof (refreshToken_frame c w) as [_ [_ Fe]].
  assert (Hget : forall t w0,
            exists evs, events (snd (get_devices t w0)) = events w0 ++ evs).
  { intros t w0. unfold get_devices.
    destruct (devices_endpoint w0) as [ | reply rest]; simpl;
      [ | destruct (body reply); simpl ]; eexists; reflexivity. }
  unfold Client.updateDevices.
  unfold bind at 1. unfold Client.this at 1. simpl.
  unfold bind at 1. unfold on_snd at 1, Date_now at 1. simpl.
  unfold bind at 1.
  destruct (Client.refresh_condition c (clock w)).
  - unfold bind at 1.
    destruct (Client.refreshToken (c, w)) as [[a | e] [c1 w1]]; simpl in *.
    + unfold ret at 1, bind, on_snd, on_fst, Date_now, modify, ret; simpl.
      destruct (Hget (clock w1) w1) as [evs Hevs].
      destruct (get_devices (clock w1) w1) as [[b | e] w2]; simpl in *.
      * destruct (Qingping.devices_field b); simpl; rewrite Hevs, Fe;
          eexists; rewrite <- app_assoc; reflexivity.
      * rewrite Hevs, Fe. eexists; rewrite <- app_assoc; reflexivity.
    + rewrite Fe. eexists; reflexivity.
  - unfold ret at 1, bind, on_snd, on_fst, Date_now, modify, ret; simpl.
    destruct (Hget (clock w) w) as [evs Hevs].
    destruct (get_devices (clock w) w) as [[b | e] w2]; simpl in *.
    + destruct (Qingping.devices_field b); simpl; eexists; exact Hevs.
    + eexists; exact Hevs.
Qed.

(** The token requests of one [updateDevices]: one when the guard holds,
    none otherwise. *)
Lemma updateDevices_token_requests (c : Client.t) (w : World) :
  token_requests (events (snd (snd (Client.updateDevices (c, w)))))
  = token_requests (events w)
    ++ (if Client.refresh_condition c (clock w)
        then [HttpPost token_url (Client.appKey c) (Client.appSecret c)]
        else []).
Proof.
  pose proof (refreshToken_frame c w) as [_ [_ Fe]].
  assert (Hget : forall t w0,
            token_requests (events (snd (get_devices t w0)))
            = token_requests (events w0)).
  { intros t w0. unfold get_devices, token_requests.
    destruct (devices_endpoint w0) as [ | reply rest]; simpl;
      [ | destruct (body reply); simpl ];
      rewrite filter_app; simpl; apply app_nil_r. }
  unfold Client.updateDevices.
  unfold bind at 1. unfold Client.this at 1. simpl.
  unfold bind at 1. unfold on_snd at 1, Date_now at 1. simpl.
  unfold bind at 1.
  destruct (Client.refresh_condition c (clock w)).
  - unfold bind at 1.
    destruct (Client.refreshToken (c, w)) as [[a | e] [c1 w1]]; simpl in *.
    + unfold ret at 1, bind, on_snd, on_fst, Date_now, modify, ret; simpl.
      specialize (Hget (clock w1) w1).
      destruct (get_devices (clock w1) w1) as [[b | e] w2]; simpl in *.
      * destruct (Qingping.devices_field b); simpl; rewrite Hget, Fe;
          unfold token_requests; rewrite filter_app; reflexivity.
      * rewrite Hget, Fe. unfold token_requests; rewrite filter_app; reflexivity.
    + rewrite Fe. unfold token_requests; rewrite filter_app; reflexivity.
  - unfold ret at 1, bind, on_snd, on_fst, Date_now, modify, ret; simpl.
    specialize (Hget (clock w) w). rewrite app_nil_r.
    destruct (get_devices (clock w) w) as [[b | e] w2]; simpl in *.
    + destruct (Qingping.devices_field b); simpl; exact Hget.
    + exact Hget.
Qed.

(** The guard of the refresh, read against the specification's deadline:
    with a token in hand, a request goes out exactly while the token has not
    yet reached its full lifetime, and the instant
    [issuedAt + expires_in * 990 ms] plays no part. *)
Lemma refresh_condition_with_token (c : Client.t) (a : Qingping.OauthAccess)
  (now : Z) :
  Client.access c = Some a ->
  (Client.refresh_condition c now = true <->
   now < Client.accessUpdatedAt c + Qingping.expires_in a * 1000).
Proof.
  intros Ha. unfold Client.refresh_condition. rewrite Ha.
  rewrite Z.gtb_ltb. apply Z.ltb_lt.
Qed.

(** C1.  The refresh guard is the wrong way round.  A client holds a token
    issued at 1 000 000 ms for 7200 s; the specification's refresh deadline is
    8 128 000 ms.  One second after issue, long before the deadline,
    [updateDevices] sends a token request and replaces the cached credential
    (recording the time the answer arrived); at 8 300 000 ms, after the
    deadline and after the token expired, it sends none and keeps the stale
    credential. *)
Theorem updateDevices_refreshes_valid_token_and_keeps_expired_one :
  Spec.refreshDeadline 1000000 7200 = 8128000 /\
  (1001000 < Spec.refreshDeadline 1000000 7200 /\
   let run := Client.updateDevices
                (client_with_token [], world_at 1001000 (Qingping.FArray [])) in
   fst run = Returned tt /\
   token_requests (events (snd (snd run))) = [HttpPost token_url "key" "secret"] /\
   Client.access (fst (snd run)) = Some fresh_access /\
   Client.accessUpdatedAt (fst (snd run)) = 1001040) /\
  (Spec.refreshDeadline 1000000 7200 <= 8300000 /\
   let run := Client.updateDevices
                (client_with_token [], world_at 8300000 (Qingping.FArray [])) in
   fst run = Returned tt /\
   token_requests (events (snd (snd run))) = [] /\
   Client.access (fst (snd run)) = Some cached_access /\
   Client.accessUpdatedAt (fst (snd run)) = 1000000).
Proof.
  split; [ reflexivity | ].
  split.
  - split; [ reflexivity | ]. vm_compute. repeat split.
  - split; [ vm_compute; discriminate | ]. vm_compute. repeat split.
Qed.

(** C2.  Once [updateDevices] has a parsed body in hand, the cached device
    list becomes the body's [devices] field when that field is an array
    (empty or not), as one assignment of the whole list, and stays what it
    was for every other shape of the field, whatever the cache held before. *)
Theorem updateDevices_replaces_cache_iff_array :
  forall (c : Client.t) (w : World)
         (reply : Reply Qingping.GetDevicesResponse)
         (rest : list (Reply Qingping.GetDevicesResponse))
         (b : Qingping.GetDevicesResponse),
    devices_endpoint w = reply :: rest ->
    body reply = Some b ->
    token_step_succeeds c w ->
    exists c' w',
      Client.updateDevices (c, w) = (Returned tt, (c', w')) /\
      Client.devices c'
      = match Qingping.devices_field b with
        | Qingping.FArray l => l
        | _ => Client.devices c
        end.
Proof.
  intros c w reply rest b Hnet Hbody Htoken.
  unfold Client.updateDevices.
  unfold bind at 1. unfold Client.this at 1. simpl.
  unfold bind at 1. unfold on_snd at 1, Date_now at 1. simpl.
  unfold bind at 1.
  destruct Htoken as [Hno | [r [rest' [a [Htok Hbody']]]]].
  - rewrite Hno.
    unfold ret at 1, bind, on_snd, on_fst, Date_now, get_devices, modify, ret; simpl.
    rewrite Hnet, Hbody; simpl.
    destruct (Qingping.devices_field b); simpl; do 2 eexists; split; reflexivity.
  - destruct (Client.refresh_condition c (clock w)).
    + destruct (refreshToken_success c w r rest' a Htok Hbody')
        as [c1 [w1 [Hrun [_ [_ [Hd [_ [Hn _]]]]]]]].
      unfold bind at 1. rewrite Hrun.
      unfold ret at 1, bind, on_snd, on_fst, Date_now, get_devices, modify, ret; simpl.
      rewrite Hn, Hnet, Hbody; simpl.
      destruct (Qingping.devices_field b); simpl; do 2 eexists; split;
        try reflexivity; exact Hd.
    + unfold ret at 1, bind, on_snd, on_fst, Date_now, get_devices, modify, ret; simpl.
      rewrite Hnet, Hbody; simpl.
      destruct (Qingping.devices_field b); simpl; do 2 eexists; split; reflexivity.
Qed.

(** A parsed body whose [devices] field is not an array leaves a non-empty
    cache as it was. *)
Lemma updateDevices_replaces_cache_iff_array_witness :
  exists c' w',
    Client.updateDevices
      (client_with_token [device_A], world_at 1001000 (Qingping.FString "garbled"))
    = (Returned tt, (c', w')) /\
    Client.devices c' = [device_A].
Proof.
  apply (updateDevices_replaces_cache_iff_array
           (client_with_token [device_A])
           (world_at 1001000 (Qingping.FString "garbled"))
           _ _ _ eq_refl eq_refl).
  right. do 3 eexists. split; reflexivity.
Defined.

(* ================================================================== *)
(** * Device discovery *)

Lemma extends_refl (st : Platform.t * World) : extends st st.
Proof.
  split; exists []; symmetry; apply app_nil_r.
Qed.

Lemma extends_trans (a b c : Platform.t * World) :
  extends a b -> extends b c -> extends a c.
Proof.
  intros [[x1 H1] [e1 E1]] [[x2 H2] [e2 E2]]. split.
  - exists (x1 ++ x2). rewrite H2, H1. symmetry; apply app_assoc.
  - exists (e1 ++ e2). rewrite E2, E1. symmetry; apply app_assoc.
Qed.

Lemma extends_record (p : Platform.t) (w : World) (e : Event) :
  extends (p, w) (p, record w e).
Proof.
  split; [ exists []; symmetry; apply app_nil_r | exists [e]; reflexivity ].
Qed.

Lemma set_context_device_UUID (uuid : string) (device : Qingping.Device)
  (l : list Homebridge.PlatformAccessory) :
  map Homebridge.UUID (Platform.set_context_device uuid device l)
  = map Homebridge.UUID l.
Proof.
  induction l as [ | a rest IH]; simpl; [ reflexivity | ].
  destruct (String.eqb (Homebridge.UUID a) uuid); simpl; [ reflexivity | ].
  rewrite IH. reflexivity.
Qed.

Section Discovery.

Variable generate : string -> string.
Variables PLUGIN_NAME PLATFORM_NAME : string.

Local Abbreviation discover_device :=
  (Platform.discover_device generate PLUGIN_NAME PLATFORM_NAME).
Local Abbreviation unregister_unknown :=
  (Platform.unregister_unknown PLUGIN_NAME PLATFORM_NAME).
Local Abbreviation reconcile :=
  (Platform.reconcile generate PLUGIN_NAME PLATFORM_NAME).

Lemma discover_device_returns (discovered : list string)
  (device : Qingping.Device) (st : Platform.t * World) :
  exists st',
    discover_device discovered device st
    = (Returned (discovered ++ [generate (Qingping.mac (Qingping.info device))]), st')
    /\ Platform.client (fst st') = Platform.client (fst st)
    /\ extends st st'.
Proof.
  destruct st as [p w].
  unfold Platform.discover_device.
  unfold bind at 1. unfold Platform.this at 1. simpl.
  destruct (find _ (Platform.accessories p)).
  - eexists. split; [ reflexivity | ]. split; [ reflexivity | ].
    split; simpl.
    + exists []. rewrite set_context_device_UUID. symmetry; apply app_nil_r.
    + eexists; reflexivity.
  - destruct (Qingping.id _ =? Qingping.DeviceProductId.AirMonitor).
    + eexists. split; [ reflexivity | ]. split; [ reflexivity | ].
      split; simpl.
      * eexists. rewrite map_app. reflexivity.
      * eexists. rewrite <- !app_assoc. reflexivity.
    + eexists. split; [ reflexivity | ]. split; [ reflexivity | ].
      split; simpl.
      * exists []. symmetry; apply app_nil_r.
      * eexists. rewrite <- !app_assoc. reflexivity.
Qed.

Lemma for_of_discover_returns (devices : list Qingping.Device) :
  forall (discovered : list string) (st : Platform.t * World),
  exists discovered' st',
    Platform.for_of devices discover_device discovered st
    = (Returned discovered', st')
    /\ Platform.client (fst st') = Platform.client (fst st)
    /\ extends st st'.
Proof.
  induction devices as [ | device rest IH]; intros discovered st; simpl.
  - exists discovered, st. split; [ reflexivity | ].
    split; [ reflexivity | apply extends_refl ].
  - destruct (discover_device_returns discovered device st)
      as [st1 [Hrun [Hc Hext]]].
    unfold bind. rewrite Hrun.
    destruct (IH (discovered ++ [generate (Qingping.mac (Qingping.info device))]) st1)
      as [d' [st' [Hrun' [Hc' Hext']]]].
    exists d', st'. split; [ exact Hrun' | ].
    split; [ congruence | eapply extends_trans; eassumption ].
Qed.

Lemma unregister_unknown_returns (discovered : list string)
  (accessory : Homebridge.PlatformAccessory) (p : Platform.t) (w : World) :
  exists w',
    unregister_unknown discovered tt accessory (p, w) = (Returned tt, (p, w'))
    /\ extends (p, w) (p, w').
Proof.
  unfold Platform.unregister_unknown.
  destruct (negb _).
  - eexists. split; [ reflexivity | ].
    split; simpl; [ exists []; symmetry; apply app_nil_r | ].
    eexists. rewrite <- !app_assoc. reflexivity.
  - exists w. split; [ reflexivity | apply extends_refl ].
Qed.

Lemma for_of_unregister_returns (discovered : list string)
  (l : list Homebridge.PlatformAccessory) (p : Platform.t) :
  forall w,
  exists w',
    Platform.for_of l (unregister_unknown discovered) tt (p, w)
    = (Returned tt, (p, w'))
    /\ extends (p, w) (p, w').
Proof.
  induction l as [ | a rest IH]; intros w; simpl.
  - exists w. split; [ reflexivity | apply extends_refl ].
  - destruct (unregister_unknown_returns discovered a p w) as [w1 [Hrun Hext]].
    unfold bind. rewrite Hrun.
    destruct (IH w1) as [w' [Hrun' Hext']].
    exists w'. split; [ exact Hrun' | eapply extends_trans; eassumption ].
Qed.

(** The reconciliation never throws, keeps the client and only extends the
    list of accessories. *)
Lemma reconcile_returns (devices : list Qingping.Device)
  (st : Platform.t * World) :
  exists st',
    reconcile devices st = (Returned tt, st')
    /\ Platform.client (fst st') = Platform.client (fst st)
    /\ extends st st'.
Proof.
  destruct st as [p w].
  unfold Platform.reconcile.
  unfold bind at 1. unfold Platform.log at 1, on_snd at 1, emit, modify. simpl.
  set (w0 := record w _).
  destruct (for_of_discover_returns (filter Platform.available devices) [] (p, w0))
    as [d [[p1 w1] [Hrun [Hc Hext]]]].
  unfold bind at 1. rewrite Hrun.
  unfold bind at 1. unfold Platform.this at 1. simpl.
  destruct (for_of_unregister_returns d (Platform.accessories p1) p1 w1)
    as [w2 [Hrun2 Hext2]].
  rewrite Hrun2.
  exists (p1, w2). split; [ reflexivity | ]. split; [ exact Hc | ].
  eapply extends_trans; [ apply extends_record | ].
  eapply extends_trans; eassumption.
Qed.

End Discovery.

(** With a host that carries out every call, [discoverDevices] returns: a
    failed update is caught, and nothing after it fails.  The accessories it
    knew before are all still in its list afterwards. *)
Lemma discoverDevices_returns (generate : string -> string)
  (PLUGIN_NAME PLATFORM_NAME : string) (st : Platform.t * World) :
  exists st',
    Platform.discoverDevices generate PLUGIN_NAME PLATFORM_NAME st
    = (Returned tt, st')
    /\ extends st st'.
Proof.
  destruct st as [p w].
  unfold Platform.discoverDevices.
  unfold bind at 1. unfold Platform.log at 1, on_snd at 1, emit, modify. simpl.
  set (w0 := record w _).
  unfold bind at 1. unfold Platform.this at 1. simpl.
  destruct (Platform.client p) as [c | ] eqn:Hc.
  - unfold bind at 1, try_catch, bind at 1, Platform.client_updateDevices. simpl.
    destruct (Client.updateDevices (c, w0)) as [[[] | e] [c1 w1]] eqn:Hup; simpl.
    + unfold bind at 1. unfold Platform.this at 1. simpl.
      destruct (reconcile_returns generate PLUGIN_NAME PLATFORM_NAME
                  (Client.devices c1)
                  (Platform.set_client (Some c1) p,
                   record w1 (Log info "Device list updated")))
        as [st' [Hrun [_ Hext]]].
      exists st'. split; [ exact Hrun | ].
      eapply extends_trans; [ | exact Hext ].
      split; simpl; [ exists []; symmetry; apply app_nil_r | ].
      pose proof (updateDevices_events c w0) as [evs Hevs].
      rewrite Hup in Hevs; simpl in Hevs. rewrite Hevs. unfold w0; simpl.
      eexists. rewrite <- !app_assoc. reflexivity.
    + unfold bind at 1. unfold Platform.this at 1. simpl.
      destruct (reconcile_returns generate PLUGIN_NAME PLATFORM_NAME
                  (Client.devices c1)
                  (Platform.set_client (Some c1) p, record w1 (LogExn debug e)))
        as [st' [Hrun [_ Hext]]].
      exists st'. split; [ exact Hrun | ].
      eapply extends_trans; [ | exact Hext ].
      split; simpl; [ exists []; symmetry; apply app_nil_r | ].
      pose proof (updateDevices_events c w0) as [evs Hevs].
      rewrite Hup in Hevs; simpl in Hevs. rewrite Hevs. unfold w0; simpl.
      eexists. rewrite <- !app_assoc. reflexivity.
  - eexists. split; [ reflexivity | ].
    split; simpl; [ exists []; symmetry; apply app_nil_r | ].
    eexists. rewrite <- !app_assoc. reflexivity.
Qed.

(** [initialize] catches whatever its first update throws. *)
Lemma initialize_returns (st : Platform.t * World) :
  exists st', Platform.initialize st = (Returned tt, st').
Proof.
  destruct st as [p w].
  unfold Platform.initialize.
  unfold bind at 1. unfold Platform.this at 1. cbn [fst snd].
  unfold try_catch.
  unfold bind at 1. unfold Platform.log at 1, on_snd at 1, emit, modify.
  cbn [fst snd].
  unfold bind at 1. unfold on_fst at 1, modify. cbn [fst snd].
  unfold bind at 1. unfold Platform.client_updateDevices at 1. cbn [fst snd].
  destruct (Client.updateDevices _) as [[[] | e] [c1 w1]]; eexists; reflexivity.
Qed.

(** The callback handed to [setInterval] does not: when the update of a
    tick fails, the promise the callback returns is rejected. *)
Lemma interval_callback_rejects :
  fst (Platform.interval_callback (platform_with [device_A] [], world_offline))
  = Thrown (RequestError token_url).
Proof. reflexivity. Qed.

(** C3.  With accessories A and B known and a poll that reports B and C,
    [discoverDevices] registers C, unregisters A and stores the new snapshot
    in B; but A stays in [this.accessories], so the list is [A; B; C] and
    not the polled set.  When, from accessories A and B, a first poll
    reports only B and a second one reports A and B again, A is unregistered
    by the first run and, still being in the list, is not registered by the
    second: the host is left without A although the last poll reports it. *)
Theorem discoverDevices_keeps_unregistered_accessory :
  forall (generate : string -> string) (PLUGIN_NAME PLATFORM_NAME : string),
    generate "A" <> generate "B" ->
    generate "A" <> generate "C" ->
    generate "B" <> generate "C" ->
    let discoverDevices :=
      Platform.discoverDevices generate PLUGIN_NAME PLATFORM_NAME in
    let A := accessory_for generate device_A in
    let B := accessory_for generate device_B in
    let B' := accessory_for generate device_B' in
    let C := accessory_for generate device_C in
    let run := discoverDevices
                 (platform_with [] [A; B], world_polls [[device_B'; device_C]]) in
    let first := discoverDevices
                   (platform_with [] [A; B],
                    world_polls [[device_B']; [device_A; device_B']]) in
    let second := discoverDevices (after first) in
    (fst run = Returned tt /\
     registered (events (snd (after run))) = [C] /\
     unregistered (events (snd (after run))) = [A] /\
     Platform.accessories (fst (after run)) = [A; B'; C])
    /\
    (fst first = Returned tt /\
     unregistered (events (snd (after first))) = [A] /\
     Platform.accessories (fst (after first)) = [A; B'] /\
     fst second = Returned tt /\
     registered (events (snd (after second))) = [] /\
     Platform.accessories (fst (after second)) = [A; B']).
Proof.
  intros generate PLUGIN_NAME PLATFORM_NAME HAB HAC HBC.
  distinct_uuids.
  intros discoverDevices A B B' C run first second.
  subst discoverDevices A B B' C.
  evaluate_run run. evaluate_run first. evaluate_run second.
  evaluate. repeat split.
Qed.

Lemma discoverDevices_keeps_unregistered_accessory_witness :
  Platform.accessories
    (fst (after (Platform.discoverDevices sample_generate "plugin" "platform"
                   (platform_with []
                      [accessory_for sample_generate device_A;
                       accessory_for sample_generate device_B],
                    world_polls [[device_B'; device_C]]))))
  = [accessory_for sample_generate device_A;
     accessory_for sample_generate device_B';
     accessory_for sample_generate device_C].
Proof.
  apply (discoverDevices_keeps_unregistered_accessory
           sample_generate "plugin" "platform");
    vm_compute; discriminate.
Defined.



(* ================================================================== *)
(** * Two runs on the same device list *)

Lemma find_UUID_none (uuid : string) (l : list Homebridge.PlatformAccessory) :
  find (fun accessory => String.eqb (Homebridge.UUID accessory) uuid) l = None
  <-> ~ In uuid (map Homebridge.UUID l).
Proof.
  induction l as [ | a rest IH]; simpl.
  - split; [ intros _ [] | reflexivity ].
  - destruct (String.eqb_spec (Homebridge.UUID a) uuid) as [E | N].
    + split; [ discriminate | intros H; exfalso; apply H; left; exact E ].
    + rewrite IH. split.
      * intros H [E | HIn]; [ exact (N E) | exact (H HIn) ].
      * intros H HIn. apply H. right. exact HIn.
Qed.

Lemma available_is_AirMonitor (device : Qingping.Device) :
  Platform.available device = true ->
  (Qingping.id (Qingping.product (Qingping.info device))
   =? Qingping.DeviceProductId.AirMonitor) = true.
Proof.
  unfold Platform.available, Qingping.DeviceProductId.includes,
    Qingping.DeviceProductId.values; simpl.
  rewrite orb_false_r, Z.eqb_sym. auto.
Qed.

Lemma getService_or_addService_UUID (s : Homebridge.Service)
  (a : Homebridge.PlatformAccessory) :
  Homebridge.UUID (Homebridge.getService_or_addService s a) = Homebridge.UUID a.
Proof.
  unfold Homebridge.getService_or_addService.
  destruct (existsb _ _); reflexivity.
Qed.

Lemma Accessory_new_UUID (a : Homebridge.PlatformAccessory) :
  Homebridge.UUID (Accessory.new a) = Homebridge.UUID a.
Proof.
  unfold Accessory.new, Accessory.getBatteryService.
  rewrite !getService_or_addService_UUID.
  destruct (Qingping.battery _); [ apply getService_or_addService_UUID | reflexivity ].
Qed.

Lemma registered_app (a b : list Event) :
  registered (a ++ b) = registered a ++ registered b.
Proof. apply flat_map_app. Qed.

Lemma unregistered_app (a b : list Event) :
  unregistered (a ++ b) = unregistered a ++ unregistered b.
Proof. apply flat_map_app. Qed.

Lemma events_since_app (before added : list Event) :
  events_since before (before ++ added) = added.
Proof.
  unfold events_since. rewrite skipn_app, skipn_all, Nat.sub_diag. reflexivity.
Qed.

Lemma map_UUID_filter (p : string -> bool)
  (l1 l2 : list Homebridge.PlatformAccessory) :
  map Homebridge.UUID l1 = map Homebridge.UUID l2 ->
  map Homebridge.UUID (filter (fun a => p (Homebridge.UUID a)) l1)
  = map Homebridge.UUID (filter (fun a => p (Homebridge.UUID a)) l2).
Proof.
  revert l2. induction l1 as [ | a1 r1 IH]; intros [ | a2 r2] H; simpl in *;
    try discriminate; [ reflexivity | ].
  injection H as Ha Hr. rewrite Ha.
  destruct (p (Homebridge.UUID a2)); simpl; rewrite (IH r2 Hr); congruence.
Qed.

Section TwoRuns.

Variable generate : string -> string.
Variables PLUGIN_NAME PLATFORM_NAME : string.

Local Abbreviation discover_device :=
  (Platform.discover_device generate PLUGIN_NAME PLATFORM_NAME).
Local Abbreviation unregister_unknown :=
  (Platform.unregister_unknown PLUGIN_NAME PLATFORM_NAME).
Local Abbreviation reconcile :=
  (Platform.reconcile generate PLUGIN_NAME PLATFORM_NAME).

(** What one pass of the first loop adds to the trace and to the list. *)
Lemma discover_device_step (discovered : list string)
  (device : Qingping.Device) (p : Platform.t) (w : World) :
  Platform.available device = true ->
  exists p' evs,
    discover_device discovered device (p, w)
    = (Returned (discovered ++ [uuid_of generate device]),
       (p', {| clock := clock w; token_endpoint := token_endpoint w;
               devices_endpoint := devices_endpoint w;
               events := events w ++ evs |}))
    /\ unregistered evs = []
    /\ In (uuid_of generate device) (map Homebridge.UUID (Platform.accessories p'))
    /\ (exists extra,
          map Homebridge.UUID (Platform.accessories p')
          = map Homebridge.UUID (Platform.accessories p) ++ extra)
    /\ (In (uuid_of generate device) (map Homebridge.UUID (Platform.accessories p)) ->
        registered evs = [] /\
        map Homebridge.UUID (Platform.accessories p')
        = map Homebridge.UUID (Platform.accessories p)).
Proof.
  intros Hav. apply available_is_AirMonitor in Hav.
  unfold Platform.discover_device.
  unfold bind at 1. unfold Platform.this at 1. simpl.
  fold (uuid_of generate device). rewrite Hav.
  destruct (find _ (Platform.accessories p)) eqn:Hfind.
  - do 2 eexists. split; [ reflexivity | ]. simpl.
    rewrite set_context_device_UUID.
    assert (HIn : In (uuid_of generate device) (map Homebridge.UUID (Platform.accessories p))).
    { destruct (in_dec string_dec (uuid_of generate device)
                  (map Homebridge.UUID (Platform.accessories p))) as [ | N ];
        [ assumption | ].
      apply find_UUID_none in N. congruence. }
    repeat split; auto. exists []. symmetry; apply app_nil_r.
  - do 2 eexists. split.
    + unfold bind, Platform.log, on_snd, on_fst, emit, modify, ret, record; simpl.
      rewrite <- !app_assoc. reflexivity.
    + simpl. rewrite map_app. simpl. rewrite Accessory_new_UUID. simpl.
      repeat split.
      * apply in_or_app. right. left. reflexivity.
      * eexists; reflexivity.
      * apply find_UUID_none in Hfind. contradiction.
      * apply find_UUID_none in Hfind. contradiction.
Qed.

(** The first loop over devices that are all known already registers
    nothing and leaves the UUIDs of the list as they are. *)
Lemma for_of_discover_known (devices : list Qingping.Device) :
  forall (discovered : list string) (p : Platform.t) (w : World),
    Forall (fun d => Platform.available d = true) devices ->
    (forall d, In d devices ->
               In (uuid_of generate d) (map Homebridge.UUID (Platform.accessories p))) ->
    exists p' evs,
      Platform.for_of devices discover_device discovered (p, w)
      = (Returned (discovered ++ map (uuid_of generate) devices),
         (p', {| clock := clock w; token_endpoint := token_endpoint w;
                 devices_endpoint := devices_endpoint w;
                 events := events w ++ evs |}))
      /\ registered evs = [] /\ unregistered evs = []
      /\ map Homebridge.UUID (Platform.accessories p')
         = map Homebridge.UUID (Platform.accessories p).
Proof.
  induction devices as [ | device rest IH]; intros discovered p w Hav Hknown; simpl.
  - exists p, []. rewrite !app_nil_r. destruct w; repeat split.
  - inversion Hav as [ | ? ? Hd Hrest]; subst.
    destruct (discover_device_step discovered device p w Hd)
      as [p1 [evs1 [Hrun [Hun [_ [_ Hsame]]]]]].
    destruct (Hsame (Hknown device (or_introl eq_refl))) as [Hreg Huu].
    unfold bind. rewrite Hrun.
    destruct (IH (discovered ++ [uuid_of generate device]) p1
                {| clock := clock w; token_endpoint := token_endpoint w;
                   devices_endpoint := devices_endpoint w;
                   events := events w ++ evs1 |} Hrest)
      as [p' [evs2 [Hrun' [Hreg' [Hun' Huu']]]]].
    { intros d Hin. rewrite Huu. apply Hknown. right. exact Hin. }
    exists p', (evs1 ++ evs2). split.
    + rewrite Hrun'. simpl. rewrite <- !app_assoc. reflexivity.
    + rewrite registered_app, unregistered_app, Hreg, Hreg', Hun, Hun'.
      repeat split. congruence.
Qed.

(** The first loop in general: afterwards every device it saw is known. *)
Lemma for_of_discover_all (devices : list Qingping.Device) :
  forall (discovered : list string) (p : Platform.t) (w : World),
    Forall (fun d => Platform.available d = true) devices ->
    exists p' evs,
      Platform.for_of devices discover_device discovered (p, w)
      = (Returned (discovered ++ map (uuid_of generate) devices),
         (p', {| clock := clock w; token_endpoint := token_endpoint w;
                 devices_endpoint := devices_endpoint w;
                 events := events w ++ evs |}))
      /\ unregistered evs = []
      /\ (exists extra,
            map Homebridge.UUID (Platform.accessories p')
            = map Homebridge.UUID (Platform.accessories p) ++ extra)
      /\ (forall d, In d devices ->
                    In (uuid_of generate d) (map Homebridge.UUID (Platform.accessories p'))).
Proof.
  induction devices as [ | device rest IH]; intros discovered p w Hav; simpl.
  - exists p, []. rewrite !app_nil_r. destruct w; repeat split.
    + exists []. symmetry; apply app_nil_r.
    + intros d [].
  - inversion Hav as [ | ? ? Hd Hrest]; subst.
    destruct (discover_device_step discovered device p w Hd)
      as [p1 [evs1 [Hrun [Hun [Hin1 [[x1 Hx1] _]]]]]].
    unfold bind. rewrite Hrun.
    destruct (IH (discovered ++ [uuid_of generate device]) p1
                {| clock := clock w; token_endpoint := token_endpoint w;
                   devices_endpoint := devices_endpoint w;
                   events := events w ++ evs1 |} Hrest)
      as [p' [evs2 [Hrun' [Hun' [[x2 Hx2] Hall]]]]].
    exists p', (evs1 ++ evs2). split.
    + rewrite Hrun'. simpl. rewrite <- !app_assoc. reflexivity.
    + rewrite unregistered_app, Hun, Hun'. repeat split.
      * exists (x1 ++ x2). rewrite Hx2, Hx1. symmetry; apply app_assoc.
      * intros d [<- | Hin]; [ | apply Hall; exact Hin ].
        rewrite Hx2. apply in_or_app. left. exact Hin1.
Qed.

(** The second loop unregisters the accessories whose UUID was not
    discovered, in the order of the list. *)
Lemma for_of_unregister_spec (discovered : list string)
  (l : list Homebridge.PlatformAccessory) (p : Platform.t) :
  forall w,
  exists evs,
    Platform.for_of l (unregister_unknown discovered) tt (p, w)
    = (Returned tt,
       (p, {| clock := clock w; token_endpoint := token_endpoint w;
              devices_endpoint := devices_endpoint w;
              events := events w ++ evs |}))
    /\ registered evs = []
    /\ unregistered evs
       = filter (fun a => negb (existsb (String.eqb (Homebridge.UUID a)) discovered)) l.
Proof.
  induction l as [ | a rest IH]; intros w; simpl.
  - exists []. rewrite app_nil_r. destruct w; repeat split.
  - unfold bind at 1.
    unfold Platform.unregister_unknown at 1.
    destruct (negb (existsb _ discovered)) eqn:E.
    + unfold bind, Platform.log, on_snd, emit, modify, record; simpl.
      match goal with
      | |- context [Platform.for_of rest _ tt (p, ?w1)] =>
          destruct (IH w1) as [evs [Hrun [Hreg Hun]]]
      end.
      rewrite Hrun. simpl.
      eexists. split; [ rewrite <- !app_assoc; reflexivity | ].
      simpl. split; [ exact Hreg | ]. rewrite Hun. reflexivity.
    + unfold ret at 1.
      destruct (IH w) as [evs [Hrun [Hreg Hun]]].
      rewrite Hrun.
      exists evs. repeat split; assumption.
Qed.

Lemma filter_available_Forall (devices : list Qingping.Device) :
  Forall (fun d => Platform.available d = true) (filter Platform.available devices).
Proof.
  apply Forall_forall. intros d Hin. apply filter_In in Hin. tauto.
Qed.

(** One reconciliation: it returns, every available device is known
    afterwards, and it unregisters the accessories of its final list whose
    UUID no available device has. *)
Lemma reconcile_spec (devices : list Qingping.Device) (p : Platform.t) (w : World) :
  exists p' evs,
    reconcile devices (p, w)
    = (Returned tt,
       (p', {| clock := clock w; token_endpoint := token_endpoint w;
               devices_endpoint := devices_endpoint w;
               events := events w ++ evs |}))
    /\ (forall d, In d (filter Platform.available devices) ->
                  In (uuid_of generate d) (map Homebridge.UUID (Platform.accessories p')))
    /\ unregistered evs = filter (unknown generate devices) (Platform.accessories p').
Proof.
  unfold Platform.reconcile.
  unfold bind at 1. unfold Platform.log at 1, on_snd at 1, emit, modify. simpl.
  set (w0 := record w _).
  destruct (for_of_discover_all (filter Platform.available devices) [] p w0
              (filter_available_Forall devices))
    as [p1 [evs1 [Hrun [Hun [_ Hall]]]]].
  unfold bind at 1. rewrite Hrun.
  unfold bind at 1. unfold Platform.this at 1.
  cbn [fst snd app].
  match goal with
  | |- context [Platform.for_of _ _ tt (p1, ?w1)] =>
      destruct (for_of_unregister_spec (discovered_of generate devices)
                  (Platform.accessories p1) p1 w1)
        as [evs2 [Hrun2 [_ Hun2]]]
  end.
  unfold discovered_of in Hrun2. rewrite Hrun2.
  exists p1. eexists. split.
  - unfold w0. cbn [clock token_endpoint devices_endpoint events record].
    rewrite <- !app_assoc. reflexivity.
  - split; [ exact Hall | ].
    rewrite !unregistered_app, Hun, Hun2. reflexivity.
Qed.

(** A reconciliation in which every available device is known already
    registers nothing and keeps the UUIDs of the list. *)
Lemma reconcile_known (devices : list Qingping.Device) (p : Platform.t) (w : World) :
  (forall d, In d (filter Platform.available devices) ->
             In (uuid_of generate d) (map Homebridge.UUID (Platform.accessories p))) ->
  exists p' evs,
    reconcile devices (p, w)
    = (Returned tt,
       (p', {| clock := clock w; token_endpoint := token_endpoint w;
               devices_endpoint := devices_endpoint w;
               events := events w ++ evs |}))
    /\ registered evs = []
    /\ map Homebridge.UUID (Platform.accessories p')
       = map Homebridge.UUID (Platform.accessories p)
    /\ unregistered evs = filter (unknown generate devices) (Platform.accessories p').
Proof.
  intros Hknown.
  unfold Platform.reconcile.
  unfold bind at 1. unfold Platform.log at 1, on_snd at 1, emit, modify. simpl.
  set (w0 := record w _).
  destruct (for_of_discover_known (filter Platform.available devices) [] p w0
              (filter_available_Forall devices) Hknown)
    as [p1 [evs1 [Hrun [Hreg [Hun Huu]]]]].
  unfold bind at 1. rewrite Hrun.
  unfold bind at 1. unfold Platform.this at 1.
  cbn [fst snd app].
  match goal with
  | |- context [Platform.for_of _ _ tt (p1, ?w1)] =>
      destruct (for_of_unregister_spec (discovered_of generate devices)
                  (Platform.accessories p1) p1 w1)
        as [evs2 [Hrun2 [Hreg2 Hun2]]]
  end.
  unfold discovered_of in Hrun2. rewrite Hrun2.
  exists p1. eexists. split.
  - unfold w0. cbn [clock token_endpoint devices_endpoint events record].
    rewrite <- !app_assoc. reflexivity.
  - rewrite !registered_app, !unregistered_app, Hreg, Hreg2, Hun, Hun2.
    repeat split. exact Huu.
Qed.

(** Reconciling twice against the same device list: the second pass keeps
    the list of accessories (by UUID) and registers nothing, and it
    unregisters the accessories with the very UUIDs the first pass
    unregistered.  So the second pass unregisters nothing exactly when the
    first one did. *)
Lemma reconcile_twice (devices : list Qingping.Device) (p : Platform.t) (w : World) :
  let first := reconcile devices (p, w) in
  let second := reconcile devices (after first) in
  fst first = Returned tt /\
  fst second = Returned tt /\
  map Homebridge.UUID (Platform.accessories (fst (after second)))
  = map Homebridge.UUID (Platform.accessories (fst (after first))) /\
  registered (events_of_second first second) = [] /\
  map Homebridge.UUID (unregistered (events_of_second first second))
  = map Homebridge.UUID
      (unregistered (events_since (events w) (events (snd (after first))))).
Proof.
  intros first second. subst first second.
  destruct (reconcile_spec devices p w) as [p1 [evs1 [Hrun1 [Hall Hun1]]]].
  unfold events_of_second, after. rewrite Hrun1. cbn [fst snd].
  match goal with
  | |- context [reconcile devices (p1, ?w1)] =>
      destruct (reconcile_known devices p1 w1 Hall)
        as [p2 [evs2 [Hrun2 [Hreg2 [Huu Hun2]]]]]
  end.
  rewrite Hrun2. cbn [fst snd events].
  rewrite <- app_assoc, (events_since_app (events w) evs1).
  rewrite app_assoc, events_since_app.
  repeat split; try assumption.
  rewrite Hun1, Hun2. unfold unknown.
  apply (map_UUID_filter
           (fun u => negb (existsb (String.eqb u) (discovered_of generate devices)))).
  exact Huu.
Qed.

End TwoRuns.

(* ================================================================== *)
(** * More on the comparisons of JavaScript numbers, and the classifier
      as a decision table *)

Lemma SFcompare_Lt_trans (x y z : spec_float) :
  SFcompare x y = Some Lt -> SFcompare y z = Some Lt -> SFcompare x z = Some Lt.
Proof.
  destruct x as [sx | sx | | sx mx ex], y as [sy | sy | | sy my ey],
           z as [sz | sz | | sz mz ez];
    simpl; try discriminate;
    try (destruct sx; discriminate); try (destruct sy; discriminate);
    try (destruct sz; discriminate);
    try (destruct sx, sy; discriminate); try (destruct sy, sz; discriminate);
    try (destruct sx, sz; discriminate);
    try (destruct sx, sy, sz; simpl; congruence).
  change (PosDef.Pos.compare_cont Eq mx my) with (Pos.compare mx my).
  change (PosDef.Pos.compare_cont Eq my mz) with (Pos.compare my mz).
  change (PosDef.Pos.compare_cont Eq mx mz) with (Pos.compare mx mz).
  destruct sx, sy, sz; try discriminate; try reflexivity;
    destruct (Z.compare_spec ex ey), (Z.compare_spec ey ez), (Z.compare_spec ex ez);
    subst; try lia; try discriminate; try reflexivity;
    destruct (Pos.compare_spec mx my), (Pos.compare_spec my mz), (Pos.compare_spec mx mz);
    subst; simpl; try lia; try discriminate; try reflexivity.
Qed.

Lemma Number_lt_trans (a b c : float) :
  Number.lt a b = true -> Number.lt b c = true -> Number.lt a c = true.
Proof.
  unfold Number.lt. rewrite !ltb_spec. unfold SFltb.
  pose proof (SFcompare_Lt_trans (Prim2SF a) (Prim2SF b) (Prim2SF c)) as T.
  destruct (SFcompare (Prim2SF a) (Prim2SF b)) as [[ | | ] | ]; try discriminate.
  destruct (SFcompare (Prim2SF b) (Prim2SF c)) as [[ | | ] | ]; try discriminate.
  intros _ _. rewrite T; reflexivity.
Qed.

Lemma Number_lt_not_gt (a b : float) :
  Number.lt a b = true -> Number.gt a b = false.
Proof.
  unfold Number.lt, Number.gt. rewrite !ltb_spec. unfold SFltb.
  rewrite (SFcompare_antisym (Prim2SF a) (Prim2SF b)).
  destruct (SFcompare (Prim2SF a) (Prim2SF b)) as [[ | | ] | ]; simpl; congruence.
Qed.

Lemma Number_gt_not_lt (a b : float) :
  Number.gt a b = true -> Number.lt a b = false.
Proof.
  intros H. destruct (Number.lt a b) eqn:E; [ | reflexivity ].
  apply Number_lt_not_gt in E. congruence.
Qed.

(** A value below a threshold is below every larger threshold. *)
Lemma Number_lt_weaken (v a b : float) :
  Number.lt a b = true -> Number.lt v a = true -> Number.lt v b = true.
Proof. intros Hab Hva. exact (Number_lt_trans v a b Hva Hab). Qed.

(** The loop of [getAirQuality], level by level. *)
Lemma getAirQuality_cascade (data : Qingping.DeviceData) :
  Accessory.getAirQuality data
  = if all_under data 12 65 1000 then Homebridge.AirQuality.EXCELLENT
    else if all_under data 35 220 1250 then Homebridge.AirQuality.GOOD
    else if all_under data 55 660 1500 then Homebridge.AirQuality.FAIR
    else if all_under data 150 2000 2000 then Homebridge.AirQuality.INFERIOR
    else if all_over data 150 2000 2000 then Homebridge.AirQuality.POOR
    else Homebridge.AirQuality.UNKNOWN.
Proof.
  unfold Accessory.getAirQuality, Accessory.levels, all_under, all_over.
  cbn [Accessory.getAirQuality_loop Accessory.key Accessory.condition
       Accessory.airQuality map forallb Accessory.entry_matches Qingping.data_get].
  destruct (Qingping.pm25 data) as [p | ], (Qingping.tvoc data) as [t | ],
    (Qingping.co2 data) as [c | ]; cbn [andb];
    rewrite ?andb_false_r, ?andb_true_r, ?andb_assoc; try reflexivity.
Qed.

Lemma all_under_weaken (data : Qingping.DeviceData) (p t c p' t' c' : float) :
  Number.lt p p' = true -> Number.lt t t' = true -> Number.lt c c' = true ->
  all_under data p t c = true -> all_under data p' t' c' = true.
Proof.
  intros Hp Ht Hc. unfold all_under.
  destruct (Qingping.pm25 data), (Qingping.tvoc data), (Qingping.co2 data);
    try discriminate.
  rewrite !andb_true_iff. intros [[H1 H2] H3].
  repeat split; eapply Number_lt_weaken; eassumption.
Qed.

Lemma all_over_excludes_under (data : Qingping.DeviceData) (p t c : float) :
  all_over data p t c = true -> all_under data p t c = false.
Proof.
  unfold all_over, all_under.
  destruct (Qingping.pm25 data), (Qingping.tvoc data), (Qingping.co2 data);
    try discriminate.
  rewrite !andb_true_iff. intros [[H1 _] _].
  rewrite (Number_gt_not_lt _ _ H1). reflexivity.
Qed.

(** X1.  The level [getAirQuality] returns, read off the readings alone:
    Excellent, Good, Fair and Inferior are the bands between consecutive
    "under" thresholds (a reading set in a band is below the band's
    thresholds and not below the next lower ones), Poor holds exactly when
    all three readings exceed 150, 2000 and 2000, and Unknown is everything
    else. *)
Theorem getAirQuality_decision_table :
  forall data : Qingping.DeviceData,
    (Accessory.getAirQuality data = Homebridge.AirQuality.EXCELLENT
     <-> all_under data 12 65 1000 = true) /\
    (Accessory.getAirQuality data = Homebridge.AirQuality.GOOD
     <-> all_under data 35 220 1250 = true /\ all_under data 12 65 1000 = false) /\
    (Accessory.getAirQuality data = Homebridge.AirQuality.FAIR
     <-> all_under data 55 660 1500 = true /\ all_under data 35 220 1250 = false) /\
    (Accessory.getAirQuality data = Homebridge.AirQuality.INFERIOR
     <-> all_under data 150 2000 2000 = true /\ all_under data 55 660 1500 = false) /\
    (Accessory.getAirQuality data = Homebridge.AirQuality.POOR
     <-> all_over data 150 2000 2000 = true) /\
    (Accessory.getAirQuality data = Homebridge.AirQuality.UNKNOWN
     <-> all_under data 150 2000 2000 = false /\ all_over data 150 2000 2000 = false).
Proof.
  intros data. rewrite getAirQuality_cascade.
  pose proof (all_under_weaken data 12 65 1000 35 220 1250 eq_refl eq_refl eq_refl) as W1.
  pose proof (all_under_weaken data 35 220 1250 55 660 1500 eq_refl eq_refl eq_refl) as W2.
  pose proof (all_under_weaken data 55 660 1500 150 2000 2000 eq_refl eq_refl eq_refl) as W3.
  pose proof (all_over_excludes_under data 150 2000 2000) as X.
  destruct (all_under data 12 65 1000), (all_under data 35 220 1250),
    (all_under data 55 660 1500), (all_under data 150 2000 2000),
    (all_over data 150 2000 2000);
    try (specialize (W1 eq_refl)); try (specialize (W2 eq_refl));
    try (specialize (W3 eq_refl)); try (specialize (X eq_refl));
    try discriminate;
    repeat split; intros; try discriminate; try reflexivity;
    try (match goal with H : _ /\ _ |- _ => destruct H end; discriminate).
Qed.

(** Readings that are neither all below nor all above the top thresholds
    match no rule. *)
Lemma getAirQuality_outside_all_rules (data : Qingping.DeviceData) :
  all_under data 150 2000 2000 = false ->
  all_over data 150 2000 2000 = false ->
  Accessory.getAirQuality data = Homebridge.AirQuality.UNKNOWN.
Proof.
  intros U O. rewrite getAirQuality_cascade, U, O.
  pose proof (all_under_weaken data 12 65 1000 150 2000 2000 eq_refl eq_refl eq_refl) as W1.
  pose proof (all_under_weaken data 35 220 1250 150 2000 2000 eq_refl eq_refl eq_refl) as W2.
  pose proof (all_under_weaken data 55 660 1500 150 2000 2000 eq_refl eq_refl eq_refl) as W3.
  destruct (all_under data 12 65 1000); [ specialize (W1 eq_refl); congruence | ].
  destruct (all_under data 35 220 1250); [ specialize (W2 eq_refl); congruence | ].
  destruct (all_under data 55 660 1500); [ specialize (W3 eq_refl); congruence | ].
  reflexivity.
Qed.

Lemma all_under_top_false (data : Qingping.DeviceData) (kind : Qingping.Key.t)
  (r : Qingping.Reading) :
  In kind [Qingping.Key.pm25; Qingping.Key.tvoc; Qingping.Key.co2] ->
  Qingping.data_get data kind = Some r ->
  Number.lt (Qingping.value r) (top_threshold kind) = false ->
  all_under data 150 2000 2000 = false.
Proof.
  unfold all_under.
  intros [<- | [<- | [<- | []]]] Hr Hlt; simpl in Hr, Hlt; rewrite Hr;
    destruct (Qingping.pm25 data), (Qingping.tvoc data), (Qingping.co2 data);
    try reflexivity; try discriminate; try (injection Hr as ->);
    rewrite Hlt, ?andb_false_r; reflexivity.
Qed.

Lemma all_over_top_false (data : Qingping.DeviceData) (kind : Qingping.Key.t)
  (r : Qingping.Reading) :
  In kind [Qingping.Key.pm25; Qingping.Key.tvoc; Qingping.Key.co2] ->
  Qingping.data_get data kind = Some r ->
  Number.gt (Qingping.value r) (top_threshold kind) = false ->
  all_over data 150 2000 2000 = false.
Proof.
  unfold all_over.
  intros [<- | [<- | [<- | []]]] Hr Hlt; simpl in Hr, Hlt; rewrite Hr;
    destruct (Qingping.pm25 data), (Qingping.tvoc data), (Qingping.co2 data);
    try reflexivity; try discriminate; try (injection Hr as ->);
    rewrite Hlt, ?andb_false_r; reflexivity.
Qed.

(** X2.  The rule table has gaps.  When one of the three readings is not
    strictly below its top threshold (150 for pm25, 2000 for tvoc and co2)
    and one of them, the same or another, is not strictly above its top
    threshold, the level is Unknown: a reading exactly on the threshold, a
    NaN, or one reading above while another is below. *)
Theorem getAirQuality_unknown_between_rules :
  forall (data : Qingping.DeviceData) (k1 k2 : Qingping.Key.t)
         (r1 r2 : Qingping.Reading),
    In k1 [Qingping.Key.pm25; Qingping.Key.tvoc; Qingping.Key.co2] ->
    In k2 [Qingping.Key.pm25; Qingping.Key.tvoc; Qingping.Key.co2] ->
    Qingping.data_get data k1 = Some r1 ->
    Qingping.data_get data k2 = Some r2 ->
    Number.lt (Qingping.value r1) (top_threshold k1) = false ->
    Number.gt (Qingping.value r2) (top_threshold k2) = false ->
    Accessory.getAirQuality data = Homebridge.AirQuality.UNKNOWN.
Proof.
  intros data k1 k2 r1 r2 H1 H2 Hr1 Hr2 Hlt Hgt.
  apply getAirQuality_outside_all_rules.
  - exact (all_under_top_false data k1 r1 H1 Hr1 Hlt).
  - exact (all_over_top_false data k2 r2 H2 Hr2 Hgt).
Qed.

(** A pm25 of exactly 150, and a high pm25 and tvoc with a low co2. *)
Lemma getAirQuality_unknown_between_rules_witness :
  Accessory.getAirQuality (air_readings 150 50 900) = Homebridge.AirQuality.UNKNOWN
  /\ Accessory.getAirQuality (air_readings 200 2500 900) = Homebridge.AirQuality.UNKNOWN.
Proof.
  split.
  - apply (getAirQuality_unknown_between_rules (air_readings 150 50 900)
             Qingping.Key.pm25 Qingping.Key.pm25
             {| Qingping.value := 150 |} {| Qingping.value := 150 |});
      first [ reflexivity | simpl; auto 6 ].
  - apply (getAirQuality_unknown_between_rules (air_readings 200 2500 900)
             Qingping.Key.pm25 Qingping.Key.co2
             {| Qingping.value := 200 |} {| Qingping.value := 900 |});
      first [ reflexivity | simpl; auto 6 ].
Defined.

(** X3.  The two readings of the co2 value never contradict each other:
    when the air quality is Poor the carbon-dioxide handler reports abnormal
    levels, and when it is Excellent, Good, Fair or Inferior the handler
    reports normal levels. *)
Theorem airQuality_agrees_with_CarbonDioxideDetected :
  forall data : Qingping.DeviceData,
    (Accessory.getAirQuality data = Homebridge.AirQuality.POOR ->
     Accessory.CarbonDioxideDetected_get data
     = Returned (Homebridge.callback_value
                   Homebridge.CarbonDioxideDetected.CO2_LEVELS_ABNORMAL))
    /\
    (Accessory.getAirQuality data <> Homebridge.AirQuality.POOR ->
     Accessory.getAirQuality data <> Homebridge.AirQuality.UNKNOWN ->
     Accessory.CarbonDioxideDetected_get data
     = Returned (Homebridge.callback_value
                   Homebridge.CarbonDioxideDetected.CO2_LEVELS_NORMAL)).
Proof.
  intros data.
  pose proof (all_under_weaken data 12 65 1000 35 220 1250 eq_refl eq_refl eq_refl) as W1.
  pose proof (all_under_weaken data 35 220 1250 55 660 1500 eq_refl eq_refl eq_refl) as W2.
  pose proof (all_under_weaken data 55 660 1500 150 2000 2000 eq_refl eq_refl eq_refl) as W3.
  rewrite getAirQuality_cascade. unfold Accessory.CarbonDioxideDetected_get.
  split.
  - destruct (all_under data 12 65 1000); [ discriminate | ].
    destruct (all_under data 35 220 1250); [ discriminate | ].
    destruct (all_under data 55 660 1500); [ discriminate | ].
    destruct (all_under data 150 2000 2000); [ discriminate | ].
    destruct (all_over data 150 2000 2000) eqn:O; [ | discriminate ].
    intros _. unfold all_over in O.
    destruct (Qingping.pm25 data), (Qingping.tvoc data), (Qingping.co2 data);
      try discriminate.
    apply andb_true_iff in O as [_ O]. rewrite O. reflexivity.
  - intros HP HU.
    assert (U : all_under data 150 2000 2000 = true).
    { destruct (all_under data 12 65 1000); [ auto | ].
      destruct (all_under data 35 220 1250); [ auto | ].
      destruct (all_under data 55 660 1500); [ auto | ].
      destruct (all_under data 150 2000 2000); [ auto | ].
      destruct (all_over data 150 2000 2000); congruence. }
    unfold all_under in U.
    destruct (Qingping.pm25 data), (Qingping.tvoc data), (Qingping.co2 data);
      try discriminate.
    apply andb_true_iff in U as [_ U]. rewrite (Number_lt_not_gt _ _ U). reflexivity.
Qed.

(** Readings classified Poor are reported as abnormal co2. *)
Lemma airQuality_agrees_with_CarbonDioxideDetected_witness :
  Accessory.CarbonDioxideDetected_get (air_readings 200 2500 2500)
  = Returned (Homebridge.callback_value
                Homebridge.CarbonDioxideDetected.CO2_LEVELS_ABNORMAL).
Proof.
  apply (proj1 (airQuality_agrees_with_CarbonDioxideDetected
                  (air_readings 200 2500 2500))).
  reflexivity.
Defined.

(* ================================================================== *)
(** * The services of an accessory *)

Lemma Service_eqb_eq (a b : Homebridge.Service) :
  Homebridge.Service_eqb a b = true <-> a = b.
Proof. destruct a, b; simpl; split; congruence. Qed.

Lemma existsb_Service_eqb (s : Homebridge.Service) (l : list Homebridge.Service) :
  existsb (Homebridge.Service_eqb s) l = true <-> In s l.
Proof.
  rewrite existsb_exists. split.
  - intros [x [Hin Heq]]. apply Service_eqb_eq in Heq. congruence.
  - intros Hin. exists s. split; [ exact Hin | apply Service_eqb_eq; reflexivity ].
Qed.

Lemma getService_or_addService_known (s : Homebridge.Service)
  (a : Homebridge.PlatformAccessory) :
  In s (Homebridge.services a) -> Homebridge.getService_or_addService s a = a.
Proof.
  intros Hin. unfold Homebridge.getService_or_addService.
  apply existsb_Service_eqb in Hin. rewrite Hin. reflexivity.
Qed.

Lemma getService_or_addService_In (s x : Homebridge.Service)
  (a : Homebridge.PlatformAccessory) :
  In x (Homebridge.services (Homebridge.getService_or_addService s a))
  <-> In x (Homebridge.services a) \/ x = s.
Proof.
  unfold Homebridge.getService_or_addService.
  destruct (existsb _ _) eqn:E; simpl.
  - apply existsb_Service_eqb in E. split; [ auto | intros [H | ->]; assumption ].
  - rewrite in_app_iff. simpl. split.
    + intros [H | [<- | []]]; auto.
    + intros [H | ->]; auto.
Qed.

Lemma getService_or_addService_NoDup (s : Homebridge.Service)
  (a : Homebridge.PlatformAccessory) :
  NoDup (Homebridge.services a) ->
  NoDup (Homebridge.services (Homebridge.getService_or_addService s a)).
Proof.
  intros H. unfold Homebridge.getService_or_addService.
  destruct (existsb _ _) eqn:E; [ exact H | ]. simpl.
  apply NoDup_app; [ exact H | constructor; [ intros [] | constructor ] | ].
  intros x Hin [<- | []]. apply existsb_Service_eqb in Hin. congruence.
Qed.

Lemma getService_or_addService_fields (s : Homebridge.Service)
  (a : Homebridge.PlatformAccessory) :
  Homebridge.displayName (Homebridge.getService_or_addService s a)
  = Homebridge.displayName a /\
  Homebridge.context_device (Homebridge.getService_or_addService s a)
  = Homebridge.context_device a.
Proof.
  unfold Homebridge.getService_or_addService.
  destruct (existsb _ _); split; reflexivity.
Qed.

Lemma Accessory_new_fields (a : Homebridge.PlatformAccessory) :
  Homebridge.displayName (Accessory.new a) = Homebridge.displayName a /\
  Homebridge.context_device (Accessory.new a) = Homebridge.context_device a.
Proof.
  unfold Accessory.new, Accessory.getBatteryService.
  repeat match goal with
         | |- context [Homebridge.getService_or_addService ?s ?x] =>
             destruct (getService_or_addService_fields s x) as [-> ->]
         end.
  destruct (Qingping.battery _); [ | split; reflexivity ].
  apply getService_or_addService_fields.
Qed.

Lemma Accessory_new_In (a : Homebridge.PlatformAccessory) (s : Homebridge.Service) :
  In s (Homebridge.services (Accessory.new a)) <->
  In s (Homebridge.services a) \/ In s sensor_services \/
  (s = Homebridge.BatteryService /\ reports_battery a).
Proof.
  unfold Accessory.new, Accessory.getBatteryService, reports_battery, sensor_services.
  rewrite !getService_or_addService_In.
  destruct (Qingping.battery _); rewrite ?getService_or_addService_In; simpl;
    intuition congruence.
Qed.

Lemma Accessory_new_NoDup (a : Homebridge.PlatformAccessory) :
  NoDup (Homebridge.services a) -> NoDup (Homebridge.services (Accessory.new a)).
Proof.
  intros H. unfold Accessory.new, Accessory.getBatteryService.
  repeat apply getService_or_addService_NoDup.
  destruct (Qingping.battery _); [ apply getService_or_addService_NoDup | ]; exact H.
Qed.

Lemma Accessory_new_idempotent (a : Homebridge.PlatformAccessory) :
  Accessory.new (Accessory.new a) = Accessory.new a.
Proof.
  pose proof (Accessory_new_In a) as HIn.
  destruct (Accessory_new_fields a) as [_ Hctx].
  set (a' := Accessory.new a) in *.
  unfold Accessory.new at 1, Accessory.getBatteryService. rewrite Hctx.
  assert (Hb : match Qingping.battery (Qingping.data (Homebridge.context_device a)) with
               | Some _ => Homebridge.getService_or_addService Homebridge.BatteryService a'
               | None => a'
               end = a').
  { destruct (Qingping.battery _) eqn:E; [ | reflexivity ].
    apply getService_or_addService_known. apply HIn. right. right.
    split; [ reflexivity | ]. unfold reports_battery. rewrite E. discriminate. }
  rewrite Hb.
  assert (K : forall s, In s sensor_services ->
                        Homebridge.getService_or_addService s a' = a').
  { intros s Hs. apply getService_or_addService_known. apply HIn.
    right; left; exact Hs. }
  rewrite (K Homebridge.TemperatureSensor) by (simpl; auto).
  rewrite (K Homebridge.HumiditySensor) by (simpl; auto).
  rewrite (K Homebridge.AirQualitySensor) by (simpl; auto).
  apply K. simpl; auto.
Qed.

(** X4.  What the constructor leaves on an accessory: its name, UUID and
    stored device are untouched, and its services are those it had, the
    four sensor services, and the battery service when the stored device
    reports a battery. *)
Theorem QingpingAirMonitorAccessory_services :
  forall (a : Homebridge.PlatformAccessory) (s : Homebridge.Service),
    Homebridge.UUID (Accessory.new a) = Homebridge.UUID a /\
    Homebridge.displayName (Accessory.new a) = Homebridge.displayName a /\
    Homebridge.context_device (Accessory.new a) = Homebridge.context_device a /\
    (In s (Homebridge.services (Accessory.new a)) <->
     In s (Homebridge.services a) \/ In s sensor_services \/
     (s = Homebridge.BatteryService /\ reports_battery a)).
Proof.
  intros a s.
  destruct (Accessory_new_fields a) as [Hn Hc].
  split; [ apply Accessory_new_UUID | ]. split; [ exact Hn | ].
  split; [ exact Hc | apply Accessory_new_In ].
Qed.

(** X5.  The constructor adds no service twice: run on an accessory it has
    already been run on (one restored from the cache) it changes nothing,
    it keeps a duplicate-free service list duplicate-free, and on a fresh
    accessory it leaves the information service, the battery service if
    the device reports a battery, and the four sensor services, in that
    order. *)
Theorem QingpingAirMonitorAccessory_adds_no_service_twice :
  forall a : Homebridge.PlatformAccessory,
    Accessory.new (Accessory.new a) = Accessory.new a /\
    (NoDup (Homebridge.services a) ->
     NoDup (Homebridge.services (Accessory.new a))) /\
    (forall (name uuid : string) (device : Qingping.Device),
       Homebridge.services
         (Accessory.new (Homebridge.platformAccessory name uuid device))
       = Homebridge.AccessoryInformation
         :: (match Qingping.battery (Qingping.data device) with
             | Some _ => [Homebridge.BatteryService]
             | None => []
             end)
         ++ sensor_services).
Proof.
  intros a. split; [ apply Accessory_new_idempotent | ].
  split; [ apply Accessory_new_NoDup | ].
  intros name uuid device.
  unfold Accessory.new, Accessory.getBatteryService, Homebridge.platformAccessory.
  cbn [Homebridge.context_device].
  destruct (Qingping.battery (Qingping.data device)); reflexivity.
Qed.

(** An accessory restored with two services keeps them once each. *)
Lemma QingpingAirMonitorAccessory_adds_no_service_twice_witness :
  NoDup (Homebridge.services
           (Accessory.new (accessory_for sample_generate device_A))).
Proof.
  apply (proj1 (proj2 (QingpingAirMonitorAccessory_adds_no_service_twice
                         (accessory_for sample_generate device_A)))).
  vm_compute. repeat constructor; simpl; intuition discriminate.
Defined.

(* ================================================================== *)
(** * The client, request by request *)

(** X6.  When the token endpoint answers, [refreshToken] returns the
    answer, stores it as the credential, records as its time the clock at
    the arrival of the answer, leaves the device cache alone and sends one
    request. *)
Theorem refreshToken_replaces_credential :
  forall (c : Client.t) (w : World) (r : Reply Qingping.OauthAccess)
         (rest : list (Reply Qingping.OauthAccess)) (a : Qingping.OauthAccess),
    token_endpoint w = r :: rest ->
    body r = Some a ->
    exists c' w',
      Client.refreshToken (c, w) = (Returned a, (c', w')) /\
      Client.access c' = Some a /\
      Client.accessUpdatedAt c' = clock w + latency r /\
      Client.devices c' = Client.devices c /\
      events w' = events w
                  ++ [HttpPost token_url (Client.appKey c) (Client.appSecret c)].
Proof.
  intros c w r rest a Hnet Hbody.
  destruct (refreshToken_success c w r rest a Hnet Hbody)
    as [c' [w' [Hrun [Ha [Ht [Hd [_ [_ He]]]]]]]].
  exists c', w'. repeat split; assumption.
Qed.

(** A refresh at 8 300 000 ms that takes 40 ms. *)
Lemma refreshToken_replaces_credential_witness :
  exists c' w',
    Client.refreshToken (client_with_token [device_A],
                         world_at 8300000 (Qingping.FArray []))
    = (Returned fresh_access, (c', w')) /\
    Client.access c' = Some fresh_access /\
    Client.accessUpdatedAt c' = 8300000 + 40 /\
    Client.devices c' = [device_A] /\
    events w' = [HttpPost token_url "key" "secret"].
Proof.
  apply (refreshToken_replaces_credential
           (client_with_token [device_A]) (world_at 8300000 (Qingping.FArray []))
           _ _ fresh_access eq_refl eq_refl).
Defined.

(** X7.  When [refreshToken] throws, the client is exactly what it was: the
    previous credential, its time and the device cache are intact; the
    request was sent and the exception is the request's. *)
Theorem refreshToken_failure_keeps_client :
  forall (c c' : Client.t) (w w' : World) (e : Exn),
    Client.refreshToken (c, w) = (Thrown e, (c', w')) ->
    c' = c /\ e = RequestError token_url /\
    events w' = events w
                ++ [HttpPost token_url (Client.appKey c) (Client.appSecret c)].
Proof.
  intros c c' w w' e H.
  pose proof (refreshToken_failure c w e c' w' H) as ->.
  pose proof (refreshToken_frame c w) as [_ [_ Fe]].
  rewrite H in Fe. simpl in Fe.
  split; [ reflexivity | ]. split; [ | exact Fe ].
  revert H.
  unfold Client.refreshToken, bind, Client.this, on_snd, on_fst, post_token,
    Date_now, modify, ret; simpl.
  destruct (token_endpoint w) as [ | r rest]; simpl;
    [ | destruct (body r); simpl ]; congruence.
Qed.

(** A refresh with the token endpoint out of reach. *)
Lemma refreshToken_failure_keeps_client_witness :
  exists w',
    Client.refreshToken (client_with_token [device_A], world_offline)
    = (Thrown (RequestError token_url), (client_with_token [device_A], w')).
Proof.
  eexists.
  destruct (refreshToken_failure_keeps_client
              (client_with_token [device_A])
              (fst (snd (Client.refreshToken (client_with_token [device_A], world_offline))))
              world_offline
              (snd (snd (Client.refreshToken (client_with_token [device_A], world_offline))))
              (RequestError token_url) eq_refl) as [_ _].
  reflexivity.
Defined.

(** The client object after [refreshToken]: untouched, or with the two
    token fields written. *)
Lemma refreshToken_client (c : Client.t) (w : World) :
  fst (snd (Client.refreshToken (c, w))) = c \/
  exists a t,
    fst (snd (Client.refreshToken (c, w)))
    = Client.set_access (Some a) (Client.set_accessUpdatedAt t c).
Proof.
  unfold Client.refreshToken, bind, Client.this, on_snd, on_fst, post_token,
    Date_now, modify, ret; simpl.
  destruct (token_endpoint w) as [ | r rest]; simpl; [ auto | ].
  destruct (body r); simpl; [ right; eauto | auto ].
Qed.

(** The client object after [updateDevices]: the token fields as
    [refreshToken] left them, the cache untouched or assigned. *)
Lemma updateDevices_client (c : Client.t) (w : World) :
  forall r c' w',
    Client.updateDevices (c, w) = (r, (c', w')) ->
    exists c1,
      (c1 = c \/
       exists a t, c1 = Client.set_access (Some a) (Client.set_accessUpdatedAt t c)) /\
      (c' = c1 \/ exists l, c' = Client.set_devices l c1).
Proof.
  intros r c' w'.
  pose proof (refreshToken_client c w) as Fc.
  unfold Client.updateDevices.
  unfold bind at 1. unfold Client.this at 1. simpl.
  unfold bind at 1. unfold on_snd at 1, Date_now at 1. simpl.
  unfold bind at 1.
  destruct (Client.refresh_condition c (clock w)).
  - unfold bind at 1.
    destruct (Client.refreshToken (c, w)) as [[a | e] [c1 w1]]; simpl in *.
    + unfold ret at 1, bind, on_snd, on_fst, Date_now, get_devices, modify, ret; simpl.
      destruct (devices_endpoint w1) as [ | reply rest]; simpl.
      * intros H; injection H as <- <- <-. exists c1. auto.
      * destruct (body reply) as [b | ]; simpl.
        -- destruct (Qingping.devices_field b); simpl;
             intros H; injection H as <- <- <-; exists c1; split; auto.
           right. eexists. reflexivity.
        -- intros H; injection H as <- <- <-. exists c1. auto.
    + intros H; injection H as <- <- <-. exists c1. auto.
  - unfold ret at 1, bind, on_snd, on_fst, Date_now, get_devices, modify, ret; simpl.
    destruct (devices_endpoint w) as [ | reply rest]; simpl.
    + intros H; injection H as <- <- <-. exists c. auto.
    + destruct (body reply) as [b | ]; simpl.
      * destruct (Qingping.devices_field b); simpl;
          intros H; injection H as <- <- <-; exists c; split; auto.
        right. eexists. reflexivity.
      * intros H; injection H as <- <- <-. exists c. auto.
Qed.

(** X8.  Whatever the outcome of [updateDevices], a client that had a
    credential still has one and its key and secret are unchanged; when the
    call throws, the device cache is what it was. *)
Theorem updateDevices_never_drops_what_it_holds :
  forall (c c' : Client.t) (w w' : World) (r : Outcome unit),
    Client.updateDevices (c, w) = (r, (c', w')) ->
    (Client.access c <> None -> Client.access c' <> None) /\
    (forall e, r = Thrown e -> Client.devices c' = Client.devices c) /\
    Client.appKey c' = Client.appKey c /\
    Client.appSecret c' = Client.appSecret c.
Proof.
  intros c c' w w' r H.
  destruct (updateDevices_client c w _ _ _ H) as [c1 [H1 H2]].
  assert (K : (Client.access c <> None -> Client.access c1 <> None) /\
              Client.appKey c1 = Client.appKey c /\
              Client.appSecret c1 = Client.appSecret c).
  { destruct H1 as [-> | [a [t ->]]]; simpl; repeat split; auto; discriminate. }
  destruct K as [Ka [Kk Ks]].
  split; [ | split ].
  - destruct H2 as [-> | [l ->]]; simpl; exact Ka.
  - intros e ->. exact (updateDevices_devices c w _ _ _ H).
  - destruct H2 as [-> | [l ->]]; simpl; split; assumption.
Qed.

(** An update with both endpoints out of reach. *)
Lemma updateDevices_never_drops_what_it_holds_witness :
  Client.access
    (fst (snd (Client.updateDevices (client_with_token [device_A], world_offline))))
  <> None /\
  Client.devices
    (fst (snd (Client.updateDevices (client_with_token [device_A], world_offline))))
  = [device_A].
Proof.
  destruct (updateDevices_never_drops_what_it_holds
              (client_with_token [device_A])
              (fst (snd (Client.updateDevices
                           (client_with_token [device_A], world_offline))))
              world_offline
              (snd (snd (Client.updateDevices
                           (client_with_token [device_A], world_offline))))
              (Thrown (RequestError token_url)) eq_refl)
    as [Ha [Hd _]].
  split.
  - apply Ha. discriminate.
  - exact (Hd _ eq_refl).
Defined.

(** X9.  When the refresh is attempted and fails, [updateDevices] throws
    the token request's exception at once: the client is untouched, the
    token request is the only event and no request goes to the devices
    endpoint. *)
Theorem updateDevices_token_failure_sends_no_device_request :
  forall (c : Client.t) (w : World),
    Client.refresh_condition c (clock w) = true ->
    token_step_fails w ->
    exists w',
      Client.updateDevices (c, w) = (Thrown (RequestError token_url), (c, w')) /\
      events w' = events w
                  ++ [HttpPost token_url (Client.appKey c) (Client.appSecret c)] /\
      devices_endpoint w' = devices_endpoint w.
Proof.
  intros c w Hg Hfail.
  unfold Client.updateDevices.
  unfold bind at 1. unfold Client.this at 1. simpl.
  unfold bind at 1. unfold on_snd at 1, Date_now at 1. simpl.
  unfold bind at 1. rewrite Hg.
  unfold Client.refreshToken, bind, Client.this, on_snd, on_fst, post_token,
    Date_now, modify, ret; simpl.
  destruct Hfail as [-> | [r [rest [-> Hb]]]]; simpl.
  - eexists. repeat split.
  - rewrite Hb; simpl. eexists. repeat split.
Qed.

(** A first update whose token request is answered without a body. *)
Lemma updateDevices_token_failure_sends_no_device_request_witness :
  exists w',
    Client.updateDevices
      (client_holding [device_A],
       world_with_token_endpoint [ {| latency := 30; body := None |} ])
    = (Thrown (RequestError token_url), (client_holding [device_A], w')) /\
    events w' = [HttpPost token_url "key" "secret"] /\
    devices_endpoint w'
    = devices_endpoint (world_with_token_endpoint [ {| latency := 30; body := None |} ]).
Proof.
  apply (updateDevices_token_failure_sends_no_device_request
           (client_holding [device_A])
           (world_with_token_endpoint [ {| latency := 30; body := None |} ])).
  - reflexivity.
  - right. do 2 eexists. split; reflexivity.
Defined.

(** X10.  The requests of one [updateDevices], in order.  Without a
    refresh the run starts with the device request, stamped with the
    current time, and leaves the credential alone.  With a refresh that is
    answered it starts with the token request, sent once, followed by the
    device request stamped with the time the token answer arrived, and that
    time and the answer are the stored credential, whether or not the device
    request succeeds.  Whatever else the run sends repeats that device
    request, which the HTTP client may do when it failed. *)
Theorem updateDevices_requests_in_order :
  forall (c c' : Client.t) (w w' : World) (out : Outcome unit),
    Client.updateDevices (c, w) = (out, (c', w')) ->
    (Client.refresh_condition c (clock w) = false ->
     (exists again,
        events w' = events w ++ HttpGet devices_url (clock w) :: again /\
        Forall (eq (HttpGet devices_url (clock w))) again) /\
     Client.access c' = Client.access c /\
     Client.accessUpdatedAt c' = Client.accessUpdatedAt c)
    /\
    (forall r rest a,
       Client.refresh_condition c (clock w) = true ->
       token_endpoint w = r :: rest ->
       body r = Some a ->
       (exists again,
          events w'
          = events w
            ++ HttpPost token_url (Client.appKey c) (Client.appSecret c)
               :: HttpGet devices_url (clock w + latency r) :: again /\
          Forall (eq (HttpGet devices_url (clock w + latency r))) again) /\
       Client.access c' = Some a /\
       Client.accessUpdatedAt c' = clock w + latency r).
Proof.
  intros c c' w w' out H. split.
  - intros Hg. revert H.
    unfold Client.updateDevices.
    unfold bind at 1. unfold Client.this at 1. simpl.
    unfold bind at 1. unfold on_snd at 1, Date_now at 1. simpl.
    unfold bind at 1. rewrite Hg.
    unfold ret at 1, bind, on_snd, on_fst, Date_now, get_devices, modify, ret; simpl.
    destruct (devices_endpoint w) as [ | reply rest]; simpl.
    + intros H; injection H as <- <- <-. split; [ exists []; auto | auto ].
    + destruct (body reply) as [b | ]; simpl.
      * destruct (Qingping.devices_field b); simpl;
          intros H; injection H as <- <- <-; (split; [ exists []; auto | auto ]).
      * intros H; injection H as <- <- <-. split; [ exists []; auto | auto ].
  - intros r rest a Hg Hnet Hbody. revert H.
    destruct (refreshToken_success c w r rest a Hnet Hbody)
      as [c1 [w1 [Hrun [Ha [Ht [_ [Hclock [_ He]]]]]]]].
    unfold Client.updateDevices.
    unfold bind at 1. unfold Client.this at 1. simpl.
    unfold bind at 1. unfold on_snd at 1, Date_now at 1. simpl.
    unfold bind at 1. rewrite Hg.
    unfold bind at 1. rewrite Hrun.
    unfold ret at 1, bind, on_snd, on_fst, Date_now, get_devices, modify, ret; simpl.
    rewrite Hclock.
    destruct (devices_endpoint w1) as [ | reply rest']; simpl.
    + intros H; injection H as <- <- <-. simpl. rewrite He, <- app_assoc.
      split; [ exists []; auto | auto ].
    + destruct (body reply) as [b | ]; simpl.
      * destruct (Qingping.devices_field b); simpl;
          intros H; injection H as <- <- <-; simpl; rewrite He, <- app_assoc;
          (split; [ exists []; auto | auto ]).
      * intros H; injection H as <- <- <-. simpl. rewrite He, <- app_assoc.
        split; [ exists []; auto | auto ].
Qed.

(** The first update of a client without a token: the credential it holds
    afterwards is the answer of the token endpoint and its arrival time. *)
Lemma updateDevices_requests_in_order_witness :
  let c' := fst (snd (Client.updateDevices
                        (client_holding [],
                         world_at 5000 (Qingping.FArray [device_A])))) in
  Client.access c' = Some fresh_access /\ Client.accessUpdatedAt c' = 5040.
Proof.
  apply (proj2 (updateDevices_requests_in_order
                  (client_holding []) _ (world_at 5000 (Qingping.FArray [device_A]))
                  _ _ eq_refl)
           {| latency := 40; body := Some fresh_access |} [] fresh_access);
    reflexivity.
Defined.

(* ================================================================== *)
(** * Discovery, run by run *)

Lemma context_of_set_context_device (u u' : string) (d : Qingping.Device)
  (l : list Homebridge.PlatformAccessory) :
  In u' (map Homebridge.UUID l) ->
  context_of u (Platform.set_context_device u' d l)
  = if String.eqb u' u then Some d else context_of u l.
Proof.
  unfold context_of.
  induction l as [ | a rest IH]; simpl; [ intros [] | ].
  intros Hin.
  destruct (String.eqb_spec (Homebridge.UUID a) u') as [Ea | Na]; simpl.
  - subst u'. destruct (String.eqb (Homebridge.UUID a) u); reflexivity.
  - destruct Hin as [E | Hin]; [ contradiction | ].
    destruct (String.eqb_spec (Homebridge.UUID a) u) as [Eu | Nu].
    + subst u. destruct (String.eqb_spec u' (Homebridge.UUID a)); [ | reflexivity ].
      subst u'. contradiction Na. reflexivity.
    + apply IH. exact Hin.
Qed.

Lemma context_of_push (u : string) (a : Homebridge.PlatformAccessory)
  (l : list Homebridge.PlatformAccessory) :
  ~ In (Homebridge.UUID a) (map Homebridge.UUID l) ->
  context_of u (l ++ [a])
  = if String.eqb (Homebridge.UUID a) u
    then Some (Homebridge.context_device a) else context_of u l.
Proof.
  unfold context_of.
  induction l as [ | b rest IH]; simpl; intros Hnot.
  - destruct (String.eqb (Homebridge.UUID a) u); reflexivity.
  - destruct (String.eqb_spec (Homebridge.UUID b) u) as [Eb | Nb]; simpl.
    + subst u. destruct (String.eqb_spec (Homebridge.UUID a) (Homebridge.UUID b)) as [E | _];
        [ | reflexivity ].
      exfalso. apply Hnot. left. symmetry. exact E.
    + apply IH. intros H. apply Hnot. right. exact H.
Qed.

Lemma Forall_available_filter (devices : list Qingping.Device) :
  Forall (fun d => Platform.available d = true) (filter Platform.available devices).
Proof.
  apply Forall_forall. intros d Hin. apply filter_In in Hin. tauto.
Qed.

Section Loop.

Variable generate : string -> string.
Variables PLUGIN_NAME PLATFORM_NAME : string.

Local Abbreviation discover_device :=
  (Platform.discover_device generate PLUGIN_NAME PLATFORM_NAME).
Local Abbreviation unregister_unknown :=
  (Platform.unregister_unknown PLUGIN_NAME PLATFORM_NAME).
Local Abbreviation reconcile :=
  (Platform.reconcile generate PLUGIN_NAME PLATFORM_NAME).
Local Abbreviation discoverDevices :=
  (Platform.discoverDevices generate PLUGIN_NAME PLATFORM_NAME).

(** One pass of the first loop for a device whose UUID the list holds. *)
Lemma discover_device_existing (discovered : list string)
  (device : Qingping.Device) (p : Platform.t) (w : World) :
  In (uuid_of generate device) (map Homebridge.UUID (Platform.accessories p)) ->
  discover_device discovered device (p, w)
  = (Returned (discovered ++ [uuid_of generate device]),
     (Platform.set_accessories
        (Platform.set_context_device (uuid_of generate device) device
           (Platform.accessories p)) p,
      with_events w
        [Log info ("Existing accessory: " ++ Qingping.name (Qingping.info device))])).
Proof.
  intros Hin.
  unfold Platform.discover_device.
  unfold bind at 1. unfold Platform.this at 1. simpl.
  fold (uuid_of generate device).
  destruct (find _ (Platform.accessories p)) eqn:Hfind.
  - reflexivity.
  - apply find_UUID_none in Hfind. contradiction.
Qed.

(** One pass of the first loop for an air monitor the list does not hold. *)
Lemma discover_device_new (discovered : list string)
  (device : Qingping.Device) (p : Platform.t) (w : World) :
  Platform.available device = true ->
  ~ In (uuid_of generate device) (map Homebridge.UUID (Platform.accessories p)) ->
  discover_device discovered device (p, w)
  = (Returned (discovered ++ [uuid_of generate device]),
     (Platform.set_accessories
        (Platform.accessories p ++ [accessory_for generate device]) p,
      with_events w
        [Log info ("Adding new accessory: " ++ Qingping.name (Qingping.info device));
         RegisterPlatformAccessories PLUGIN_NAME PLATFORM_NAME
           [accessory_for generate device];
         Log info ("Registered a new device: "
                   ++ Qingping.name (Qingping.info device))])).
Proof.
  intros Hav Hnot. apply available_is_AirMonitor in Hav.
  unfold Platform.discover_device.
  unfold bind at 1. unfold Platform.this at 1. simpl.
  fold (uuid_of generate device). rewrite Hav.
  destruct (find _ (Platform.accessories p)) eqn:Hfind.
  - exfalso. apply Hnot.
    destruct (in_dec string_dec (uuid_of generate device)
                (map Homebridge.UUID (Platform.accessories p))) as [ | N ];
      [ assumption | ].
    apply find_UUID_none in N. congruence.
  - unfold bind, Platform.log, on_snd, on_fst, emit, modify, ret, record,
      with_events, accessory_for; simpl.
    rewrite <- !app_assoc. reflexivity.
Qed.

Lemma accessory_for_UUID (device : Qingping.Device) :
  Homebridge.UUID (accessory_for generate device) = uuid_of generate device.
Proof. unfold accessory_for. rewrite Accessory_new_UUID. reflexivity. Qed.

Lemma with_events_app (w : World) (a b : list Event) :
  with_events (with_events w a) b = with_events w (a ++ b).
Proof. unfold with_events; simpl. rewrite app_assoc. reflexivity. Qed.

(** The first loop, for devices that passed the filter. *)
Lemma for_of_discover_invariant (devices : list Qingping.Device) :
  forall (discovered : list string) (p : Platform.t) (w : World),
    Forall (fun d => Platform.available d = true) devices ->
    exists p' evs,
      Platform.for_of devices discover_device discovered (p, w)
      = (Returned (discovered ++ map (uuid_of generate) devices),
         (p', with_events w evs))
      /\ Platform.config p' = Platform.config p
      /\ Platform.client p' = Platform.client p
      /\ unregistered evs = []
      /\ map Homebridge.UUID (Platform.accessories p')
         = map Homebridge.UUID (Platform.accessories p)
           ++ map Homebridge.UUID (registered evs)
      /\ NoDup (map Homebridge.UUID (registered evs))
      /\ (forall a, In a (registered evs) ->
            ~ In (Homebridge.UUID a) (map Homebridge.UUID (Platform.accessories p))
            /\ exists d, In d devices /\ a = accessory_for generate d)
      /\ (forall u,
            context_of u (Platform.accessories p')
            = last_snapshot generate u devices
                (context_of u (Platform.accessories p))).
Proof.
  induction devices as [ | device rest IH]; intros discovered p w Hav.
  - exists p, []. simpl. unfold with_events. rewrite !app_nil_r. destruct w; simpl.
    repeat split; try constructor; contradiction.
  - inversion Hav as [ | ? ? Hd Hrest]; subst.
    destruct (in_dec string_dec (uuid_of generate device)
                (map Homebridge.UUID (Platform.accessories p))) as [Hin | Hnot].
    + pose proof (discover_device_existing discovered device p w Hin) as Hrun.
      cbn [Platform.for_of]. unfold bind at 1. rewrite Hrun.
      match goal with
      | |- context [Platform.for_of rest _ ?d (?p1, ?w1)] =>
          destruct (IH d p1 w1 Hrest)
            as [p' [evs [Hrun' [Hcfg [Hcl [Hun [Huu [Hnd [Hreg Hctx]]]]]]]]]
      end.
      exists p'. eexists. split.
      { rewrite Hrun', with_events_app, <- app_assoc. reflexivity. }
      cbn [Platform.set_accessories Platform.accessories Platform.config
           Platform.client] in *.
      rewrite set_context_device_UUID in Huu, Hreg.
      rewrite unregistered_app, registered_app. cbn [registered unregistered flat_map app].
      split; [ exact Hcfg | ]. split; [ exact Hcl | ]. split; [ exact Hun | ].
      split; [ exact Huu | ]. split; [ exact Hnd | ]. split.
      * intros a Ha. destruct (Hreg a Ha) as [Hn [d [Hd' Ea]]].
        split; [ exact Hn | ]. exists d. split; [ right; exact Hd' | exact Ea ].
      * intros u. rewrite Hctx. cbn [last_snapshot fold_left].
        rewrite context_of_set_context_device by exact Hin. reflexivity.
    + pose proof (discover_device_new discovered device p w Hd Hnot) as Hrun.
      cbn [Platform.for_of]. unfold bind at 1. rewrite Hrun.
      match goal with
      | |- context [Platform.for_of rest _ ?d (?p1, ?w1)] =>
          destruct (IH d p1 w1 Hrest)
            as [p' [evs [Hrun' [Hcfg [Hcl [Hun [Huu [Hnd [Hreg Hctx]]]]]]]]]
      end.
      exists p'. eexists. split.
      { rewrite Hrun', with_events_app, <- app_assoc. reflexivity. }
      cbn [Platform.set_accessories Platform.accessories Platform.config
           Platform.client] in *.
      rewrite map_app in Huu, Hreg. cbn [map] in Huu, Hreg.
      rewrite accessory_for_UUID in Huu, Hreg.
      rewrite unregistered_app, registered_app.
      cbn [registered unregistered flat_map app map].
      rewrite accessory_for_UUID.
      split; [ exact Hcfg | ]. split; [ exact Hcl | ]. split; [ exact Hun | ].
      split; [ rewrite Huu, <- app_assoc; reflexivity | ].
      split.
      { constructor; [ | exact Hnd ].
        intros Hin. apply in_map_iff in Hin as [a [Ha Hin]].
        apply (proj1 (Hreg a Hin)). rewrite Ha.
        apply in_or_app. right. left. reflexivity. }
      split.
      * intros a [<- | Ha].
        -- split; [ rewrite accessory_for_UUID; exact Hnot | ].
           exists device. split; [ left | ]; reflexivity.
        -- destruct (Hreg a Ha) as [Hn [d [Hd' Ea]]]. split.
           ++ intros Hold. apply Hn. apply in_or_app. left. exact Hold.
           ++ exists d. split; [ right; exact Hd' | exact Ea ].
      * intros u. rewrite Hctx. cbn [last_snapshot fold_left].
        rewrite context_of_push by (rewrite accessory_for_UUID; exact Hnot).
        rewrite accessory_for_UUID.
        unfold accessory_for. rewrite (proj2 (Accessory_new_fields _)). reflexivity.
Qed.

Lemma last_snapshot_found (u : string) (devices : list Qingping.Device) :
  forall before d,
    In d devices -> uuid_of generate d = u ->
    exists d', last_snapshot generate u devices before = Some d'
               /\ In d' devices /\ uuid_of generate d' = u.
Proof.
  unfold last_snapshot.
  induction devices as [ | x rest IH] using rev_ind; intros before d Hin Hu.
  - destruct Hin.
  - rewrite fold_left_app. simpl.
    destruct (String.eqb_spec (uuid_of generate x) u) as [E | N].
    + exists x. split; [ reflexivity | ]. split; [ | exact E ].
      apply in_or_app. right. left. reflexivity.
    + apply in_app_or in Hin as [Hin | [<- | []]]; [ | contradiction ].
      destruct (IH before d Hin Hu) as [d' [Hl [Hin' Hu']]].
      exists d'. split; [ exact Hl | ]. split; [ | exact Hu' ].
      apply in_or_app. left. exact Hin'.
Qed.

Lemma last_snapshot_absent (u : string) (devices : list Qingping.Device) :
  forall before,
    (forall d, In d devices -> uuid_of generate d <> u) ->
    last_snapshot generate u devices before = before.
Proof.
  unfold last_snapshot.
  induction devices as [ | x rest IH]; intros before Hno; simpl; [ reflexivity | ].
  destruct (String.eqb_spec (uuid_of generate x) u) as [E | N].
  - exfalso. apply (Hno x); [ left; reflexivity | exact E ].
  - apply IH. intros d Hin. apply Hno. right. exact Hin.
Qed.

Lemma context_of_known (u : string) (l : list Homebridge.PlatformAccessory)
  (d : Qingping.Device) :
  context_of u l = Some d -> In u (map Homebridge.UUID l).
Proof.
  unfold context_of. intros H.
  destruct (in_dec string_dec u (map Homebridge.UUID l)) as [ | N]; [ assumption | ].
  apply find_UUID_none in N. rewrite N in H. discriminate.
Qed.

Lemma unknown_In (devices : list Qingping.Device)
  (l : list Homebridge.PlatformAccessory) (a : Homebridge.PlatformAccessory) :
  In a (filter (unknown generate devices) l) <->
  In a l /\ ~ In (Homebridge.UUID a) (discovered_of generate devices).
Proof.
  rewrite filter_In. unfold unknown. rewrite negb_true_iff.
  split; intros [Hin H]; (split; [ exact Hin | ]).
  - intros Hd. assert (E : existsb (String.eqb (Homebridge.UUID a))
                             (discovered_of generate devices) = true).
    { apply existsb_exists. exists (Homebridge.UUID a). split; [ exact Hd | ].
      apply String.eqb_refl. }
    congruence.
  - destruct (existsb _ _) eqn:E; [ | reflexivity ].
    apply existsb_exists in E as [x [Hx Ex]]. apply String.eqb_eq in Ex. subst x.
    contradiction.
Qed.

(** What one reconciliation against a device list does. *)
Lemma reconcile_invariant (devices : list Qingping.Device)
  (p : Platform.t) (w : World) :
  exists p' evs,
    reconcile devices (p, w) = (Returned tt, (p', with_events w evs))
    /\ Platform.config p' = Platform.config p
    /\ Platform.client p' = Platform.client p
    /\ map Homebridge.UUID (Platform.accessories p')
       = map Homebridge.UUID (Platform.accessories p)
         ++ map Homebridge.UUID (registered evs)
    /\ NoDup (map Homebridge.UUID (registered evs))
    /\ (forall a, In a (registered evs) ->
          ~ In (Homebridge.UUID a) (map Homebridge.UUID (Platform.accessories p))
          /\ exists d, In d devices /\ Platform.available d = true
                       /\ a = accessory_for generate d)
    /\ (forall u,
          context_of u (Platform.accessories p')
          = last_snapshot generate u (filter Platform.available devices)
              (context_of u (Platform.accessories p)))
    /\ unregistered evs
       = filter (unknown generate devices) (Platform.accessories p').
Proof.
  unfold Platform.reconcile.
  unfold bind at 1. unfold Platform.log at 1, on_snd at 1, emit, modify. simpl.
  set (w0 := record w _).
  destruct (for_of_discover_invariant (filter Platform.available devices) [] p w0
              (Forall_available_filter devices))
    as [p1 [evs1 [Hrun [Hcfg [Hcl [Hun [Huu [Hnd [Hreg Hctx]]]]]]]]].
  unfold bind at 1. rewrite Hrun.
  unfold bind at 1. unfold Platform.this at 1.
  cbn [fst snd app].
  destruct (for_of_unregister_spec PLUGIN_NAME PLATFORM_NAME
              (discovered_of generate devices)
              (Platform.accessories p1) p1 (with_events w0 evs1))
    as [evs2 [Hrun2 [Hreg2 Hun2]]].
  unfold discovered_of in Hrun2. rewrite Hrun2.
  exists p1. eexists. split.
  { unfold w0, with_events, record; simpl. rewrite <- !app_assoc. reflexivity. }
  rewrite !registered_app, !unregistered_app, Hreg2, Hun, Hun2, app_nil_r.
  cbn [registered unregistered flat_map app].
  split; [ exact Hcfg | ]. split; [ exact Hcl | ]. split; [ exact Huu | ].
  split; [ exact Hnd | ]. split; [ | split; [ exact Hctx | reflexivity ] ].
  intros a Ha. destruct (Hreg a Ha) as [Hn [d [Hd Ea]]].
  split; [ exact Hn | ]. apply filter_In in Hd as [Hd Hav].
  exists d. auto.
Qed.

(** The events of one [updateDevices] are requests and nothing else. *)
Lemma updateDevices_only_requests (c : Client.t) (w : World) :
  exists evs,
    events (snd (snd (Client.updateDevices (c, w)))) = events w ++ evs /\
    forallb is_request evs = true.
Proof.
  pose proof (refreshToken_frame c w) as [_ [_ Fe]].
  assert (Hget : forall t w0,
            exists evs, events (snd (get_devices t w0)) = events w0 ++ evs
                        /\ forallb is_request evs = true).
  { intros t w0. unfold get_devices.
    destruct (devices_endpoint w0) as [ | reply rest]; simpl;
      [ | destruct (body reply); simpl ]; eexists; split; reflexivity. }
  unfold Client.updateDevices.
  unfold bind at 1. unfold Client.this at 1. simpl.
  unfold bind at 1. unfold on_snd at 1, Date_now at 1. simpl.
  unfold bind at 1.
  destruct (Client.refresh_condition c (clock w)).
  - unfold bind at 1.
    destruct (Client.refreshToken (c, w)) as [[a | e] [c1 w1]]; simpl in *.
    + unfold ret at 1, bind, on_snd, on_fst, Date_now, modify, ret; simpl.
      destruct (Hget (clock w1) w1) as [evs [Hevs Hreq]].
      destruct (get_devices (clock w1) w1) as [[b | e] w2]; simpl in *.
      * destruct (Qingping.devices_field b); simpl; rewrite Hevs, Fe;
          eexists; (split; [ rewrite <- app_assoc; reflexivity | exact Hreq ]).
      * rewrite Hevs, Fe.
        eexists; (split; [ rewrite <- app_assoc; reflexivity | exact Hreq ]).
    + rewrite Fe. eexists; split; reflexivity.
  - unfold ret at 1, bind, on_snd, on_fst, Date_now, modify, ret; simpl.
    destruct (Hget (clock w) w) as [evs [Hevs Hreq]].
    destruct (get_devices (clock w) w) as [[b | e] w2]; simpl in *.
    + destruct (Qingping.devices_field b); simpl; eexists; split; eassumption.
    + eexists; split; eassumption.
Qed.

Lemma requests_are_silent (evs : list Event) :
  forallb is_request evs = true ->
  registered evs = [] /\ unregistered evs = [] /\ scheduled evs = []
  /\ logged_exceptions evs = [].
Proof.
  induction evs as [ | e rest IH]; simpl; [ auto | ].
  rewrite andb_true_iff. intros [He Hrest].
  destruct (IH Hrest) as [H1 [H2 [H3 H4]]].
  destruct e; try discriminate; simpl; auto.
Qed.

(** [discoverDevices] with a client at hand is the update of that client
    followed by the reconciliation against what it then holds. *)
Lemma discoverDevices_with_client (p : Platform.t) (w : World) (c : Client.t) :
  Platform.client p = Some c ->
  let update := Client.updateDevices
                  (c, record w (Log info "Start discovering devices")) in
  discoverDevices (p, w)
  = reconcile (Client.devices (fst (snd update)))
      (Platform.set_client (Some (fst (snd update))) p,
       record (snd (snd update)) (discovery_log (fst update))).
Proof.
  intros Hc update. subst update.
  unfold Platform.discoverDevices.
  unfold bind at 1. unfold Platform.log at 1, on_snd at 1, emit, modify. simpl.
  unfold bind at 1. unfold Platform.this at 1. simpl.
  rewrite Hc.
  unfold bind at 1, try_catch, bind at 1, Platform.client_updateDevices. simpl.
  destruct (Client.updateDevices _) as [[[] | e] [c1 w1]]; simpl;
    unfold bind at 1; unfold Platform.this at 1; simpl; reflexivity.
Qed.

(** What one [discoverDevices] does when the platform has a client; [c1] is
    the client as the update left it. *)
Lemma discoverDevices_invariant (p : Platform.t) (w : World) (c : Client.t) :
  Platform.client p = Some c ->
  let c1 := fst (snd (Client.updateDevices
                        (c, record w (Log info "Start discovering devices")))) in
  exists p' w' evs,
    discoverDevices (p, w) = (Returned tt, (p', w'))
    /\ events w' = events w ++ evs
    /\ Platform.config p' = Platform.config p
    /\ Platform.client p' = Some c1
    /\ map Homebridge.UUID (Platform.accessories p')
       = map Homebridge.UUID (Platform.accessories p)
         ++ map Homebridge.UUID (registered evs)
    /\ NoDup (map Homebridge.UUID (registered evs))
    /\ (forall a, In a (registered evs) ->
          ~ In (Homebridge.UUID a) (map Homebridge.UUID (Platform.accessories p))
          /\ exists d, In d (Client.devices c1) /\ Platform.available d = true
                       /\ a = accessory_for generate d)
    /\ (forall u,
          context_of u (Platform.accessories p')
          = last_snapshot generate u (filter Platform.available (Client.devices c1))
              (context_of u (Platform.accessories p)))
    /\ unregistered evs
       = filter (unknown generate (Client.devices c1)) (Platform.accessories p')
    /\ (forall d, In d (Client.devices c1) -> Platform.available d = true ->
                  In (uuid_of generate d)
                     (map Homebridge.UUID (Platform.accessories p'))).
Proof.
  intros Hc c1.
  rewrite (discoverDevices_with_client p w c Hc). cbv zeta. fold c1.
  destruct (updateDevices_only_requests c
              (record w (Log info "Start discovering devices")))
    as [upd [Hupd Hreq]].
  destruct (requests_are_silent upd Hreq) as [Sreg [Sun _]].
  set (w1 := snd (snd (Client.updateDevices
                         (c, record w (Log info "Start discovering devices"))))) in *.
  set (r := fst (Client.updateDevices
                   (c, record w (Log info "Start discovering devices")))).
  destruct (reconcile_invariant (Client.devices c1)
              (Platform.set_client (Some c1) p) (record w1 (discovery_log r)))
    as [p' [evs [Hrun [Hcfg [Hcl [Huu [Hnd [Hreg [Hctx Hun]]]]]]]]].
  exists p', (with_events (record w1 (discovery_log r)) evs),
    ([Log info "Start discovering devices"] ++ upd ++ [discovery_log r] ++ evs).
  split; [ exact Hrun | ].
  split.
  { cbn [with_events record events]. rewrite Hupd. cbn [record events].
    rewrite <- !app_assoc. reflexivity. }
  assert (Er : registered ([Log info "Start discovering devices"] ++ upd
                           ++ [discovery_log r] ++ evs) = registered evs).
  { rewrite !registered_app, Sreg. destruct r; reflexivity. }
  assert (Eu : unregistered ([Log info "Start discovering devices"] ++ upd
                             ++ [discovery_log r] ++ evs) = unregistered evs).
  { rewrite !unregistered_app, Sun. destruct r; reflexivity. }
  rewrite Er, Eu.
  repeat (split; [ assumption | ]).
  intros d Hd Hav.
  assert (Hin : In d (filter Platform.available (Client.devices c1))).
  { apply filter_In. auto. }
  destruct (last_snapshot_found (uuid_of generate d) _
              (context_of (uuid_of generate d)
                 (Platform.accessories (Platform.set_client (Some c1) p)))
              d Hin eq_refl) as [d' [Hl _]].
  rewrite <- Hctx in Hl. exact (context_of_known _ _ _ Hl).
Qed.

End Loop.

Lemma last_snapshot_distinct (generate : string -> string)
  (devices : list Qingping.Device) :
  NoDup (map (uuid_of generate) devices) ->
  forall d before,
    In d devices ->
    last_snapshot generate (uuid_of generate d) devices before = Some d.
Proof.
  induction devices as [ | x rest IH]; intros Hnd d before Hin; [ destruct Hin | ].
  inversion Hnd as [ | ? ? Hx Hrest]; subst.
  unfold last_snapshot. cbn [fold_left]. fold (last_snapshot generate (uuid_of generate d) rest).
  destruct Hin as [-> | Hin].
  - rewrite String.eqb_refl. apply last_snapshot_absent.
    intros d' Hd' E. apply Hx. rewrite <- E. apply in_map. exact Hd'.
  - destruct (String.eqb_spec (uuid_of generate x) (uuid_of generate d)) as [E | N].
    + exfalso. apply Hx. rewrite E. apply in_map. exact Hin.
    + apply IH; assumption.
Qed.

(** X11.  What a run of [discoverDevices] registers.  The UUIDs of the
    list afterwards are those it had, in order, followed by the UUIDs of the
    accessories registered in the run; no UUID is registered twice in a run;
    and every registered accessory is the one built for a supported device
    the client holds after the update, with a UUID the list did not have. *)
Theorem discoverDevices_registers_only_unknown_devices :
  forall (generate : string -> string) (PLUGIN_NAME PLATFORM_NAME : string)
         (p : Platform.t) (w : World) (c : Client.t),
    Platform.client p = Some c ->
    let run := Platform.discoverDevices generate PLUGIN_NAME PLATFORM_NAME (p, w) in
    let p' := fst (after run) in
    let new_events := events_of_run w run in
    map Homebridge.UUID (Platform.accessories p')
    = map Homebridge.UUID (Platform.accessories p)
      ++ map Homebridge.UUID (registered new_events)
    /\ NoDup (map Homebridge.UUID (registered new_events))
    /\ forall a, In a (registered new_events) ->
         ~ In (Homebridge.UUID a) (map Homebridge.UUID (Platform.accessories p))
         /\ exists d, In d (held_devices p') /\ Platform.available d = true
                      /\ a = accessory_for generate d.
Proof.
  intros generate PLUGIN_NAME PLATFORM_NAME p w c has_client run p' new_events.
  subst new_events p' run.
  destruct (discoverDevices_invariant generate PLUGIN_NAME PLATFORM_NAME p w c has_client)
    as [q [w' [evs [Hrun [Hev [_ [Hcl [Huu [Hnd [Hreg _]]]]]]]]]].
  unfold events_of_run, after, held_devices. rewrite Hrun. cbn [fst snd].
  rewrite Hev, events_since_app, Hcl.
  split; [ exact Huu | ]. split; [ exact Hnd | exact Hreg ].
Qed.

(** With A and B known and B and C polled, no UUID is registered twice. *)
Lemma discoverDevices_registers_only_unknown_devices_witness :
  NoDup (map Homebridge.UUID
           (registered
              (events_of_run (world_polls [[device_B'; device_C]])
                 (Platform.discoverDevices sample_generate "plugin" "platform"
                     (platform_with [] [accessory_for sample_generate device_A;
                                        accessory_for sample_generate device_B],
                      world_polls [[device_B'; device_C]]))))).
Proof.
  apply (proj1 (proj2 (discoverDevices_registers_only_unknown_devices
                         sample_generate "plugin" "platform"
                         (platform_with [] [accessory_for sample_generate device_A;
                                            accessory_for sample_generate device_B])
                         (world_polls [[device_B'; device_C]]) (client_holding []) eq_refl))).
Defined.

(** X12.  A run of [discoverDevices] never creates a duplicate: when the
    UUIDs of the accessories are pairwise distinct before the run they are
    so after it, even if the device list repeats a mac address. *)
Theorem discoverDevices_keeps_UUIDs_distinct :
  forall (generate : string -> string) (PLUGIN_NAME PLATFORM_NAME : string)
         (p : Platform.t) (w : World) (c : Client.t),
    Platform.client p = Some c ->
    let run := Platform.discoverDevices generate PLUGIN_NAME PLATFORM_NAME (p, w) in
    let p' := fst (after run) in
    NoDup (map Homebridge.UUID (Platform.accessories p)) ->
    NoDup (map Homebridge.UUID (Platform.accessories p')).
Proof.
  intros generate PLUGIN_NAME PLATFORM_NAME p w c has_client run p' Hnd.
  subst p' run.
  destruct (discoverDevices_invariant generate PLUGIN_NAME PLATFORM_NAME p w c has_client)
    as [q [w' [evs [Hrun [_ [_ [_ [Huu [Hnew [Hreg _]]]]]]]]]].
  unfold after. rewrite Hrun. cbn [fst snd]. rewrite Huu.
  apply NoDup_app; [ exact Hnd | exact Hnew | ].
  intros u Hold Hin. apply in_map_iff in Hin as [a [<- Ha]].
  exact (proj1 (Hreg a Ha) Hold).
Qed.

(** From accessory A alone, a poll that lists device C twice. *)
Lemma discoverDevices_keeps_UUIDs_distinct_witness :
  NoDup (map Homebridge.UUID
           (Platform.accessories
              (fst (after
                 (Platform.discoverDevices sample_generate "plugin" "platform"
                    (platform_with [] [accessory_for sample_generate device_A],
                     world_polls [[device_C; device_C]])))))).
Proof.
  apply (discoverDevices_keeps_UUIDs_distinct
           sample_generate "plugin" "platform"
           (platform_with [] [accessory_for sample_generate device_A])
           (world_polls [[device_C; device_C]]) (client_holding []) eq_refl).
  vm_compute. repeat constructor; simpl; intuition discriminate.
Defined.

(** X13.  A run of [discoverDevices] whose calls the host carries out:
    afterwards every supported device the client holds has an accessory in
    the list, and the accessories the run unregistered are exactly those of
    the list whose UUID belongs to none of these devices, so a device the
    client holds is never unregistered. *)
Theorem discoverDevices_tracks_the_polled_devices :
  forall (generate : string -> string) (PLUGIN_NAME PLATFORM_NAME : string)
         (p : Platform.t) (w : World) (c : Client.t),
    Platform.client p = Some c ->
    let run := Platform.discoverDevices generate PLUGIN_NAME PLATFORM_NAME (p, w) in
    let p' := fst (after run) in
    let new_events := events_of_run w run in
    host_accepts (held_devices p') p w ->
    (forall d, In d (held_devices p') -> Platform.available d = true ->
               In (uuid_of generate d)
                  (map Homebridge.UUID (Platform.accessories p')))
    /\
    (forall a, In a (unregistered new_events) <->
               In a (Platform.accessories p')
               /\ ~ In (Homebridge.UUID a)
                       (discovered_of generate (held_devices p'))).
Proof.
  intros generate PLUGIN_NAME PLATFORM_NAME p w c has_client run p' new_events.
  subst new_events p' run.
  destruct (discoverDevices_invariant generate PLUGIN_NAME PLATFORM_NAME p w c has_client)
    as [q [w' [evs [Hrun [Hev [_ [Hcl [_ [_ [_ [Hctx [Hun Hcov]]]]]]]]]]]].
  unfold events_of_run, after, held_devices. rewrite Hrun. cbn [fst snd].
  rewrite Hev, events_since_app, Hcl. intros _. split.
  - exact Hcov.
  - intros a. rewrite Hun. apply unknown_In.
Qed.

(** With A and B restored by the host and B and C polled, C has an
    accessory afterwards and A, which no polled device stands for, is
    unregistered. *)
Lemma discoverDevices_tracks_the_polled_devices_witness :
  let run := Platform.discoverDevices sample_generate "plugin" "platform"
               (platform_with [] [accessory_for sample_generate device_A;
                                  accessory_for sample_generate device_B],
                world_polls [[device_B'; device_C]]) in
  In (uuid_of sample_generate device_C)
     (map Homebridge.UUID (Platform.accessories (fst (after run))))
  /\ In (accessory_for sample_generate device_A)
        (unregistered (events_of_run (world_polls [[device_B'; device_C]]) run)).
Proof.
  intros run.
  assert (H : host_accepts (held_devices (fst (after run)))
                (platform_with [] [accessory_for sample_generate device_A;
                                   accessory_for sample_generate device_B])
                (world_polls [[device_B'; device_C]])).
  { split; [ | split; [ | reflexivity ] ].
    - apply Forall_cons; [ discriminate | ].
      apply Forall_cons; [ discriminate | apply Forall_nil ].
    - apply NoDup_cons; [ intros [E | []]; discriminate E | ].
      apply NoDup_cons; [ intros [] | apply NoDup_nil ]. }
  destruct (discoverDevices_tracks_the_polled_devices
              sample_generate "plugin" "platform"
              (platform_with [] [accessory_for sample_generate device_A;
                                 accessory_for sample_generate device_B])
              (world_polls [[device_B'; device_C]]) (client_holding []) eq_refl H)
    as [Hcov Hun].
  split.
  - apply Hcov; [ right; left; reflexivity | reflexivity ].
  - apply Hun. split; [ left; reflexivity | ].
    intros [E | [E | []]]; discriminate E.
Defined.

(** X14.  Which device snapshot an accessory holds after a run of
    [discoverDevices] on named devices: under every UUID, the last supported
    device of the client's list with that UUID, and the snapshot held before
    when the list has none.  So with pairwise distinct UUIDs in the list
    every supported device is found under its UUID, and an accessory whose
    device is not in the list keeps its old snapshot. *)
Theorem discoverDevices_binds_the_last_snapshot :
  forall (generate : string -> string) (PLUGIN_NAME PLATFORM_NAME : string)
         (p : Platform.t) (w : World) (c : Client.t),
    Platform.client p = Some c ->
    let run := Platform.discoverDevices generate PLUGIN_NAME PLATFORM_NAME (p, w) in
    let p' := fst (after run) in
    named (held_devices p') ->
    (forall u,
       context_of u (Platform.accessories p')
       = last_snapshot generate u (filter Platform.available (held_devices p'))
           (context_of u (Platform.accessories p)))
    /\
    (NoDup (map (uuid_of generate) (filter Platform.available (held_devices p'))) ->
     forall d, In d (held_devices p') -> Platform.available d = true ->
               context_of (uuid_of generate d) (Platform.accessories p') = Some d)
    /\
    (forall u, ~ In u (discovered_of generate (held_devices p')) ->
               context_of u (Platform.accessories p')
               = context_of u (Platform.accessories p)).
Proof.
  intros generate PLUGIN_NAME PLATFORM_NAME p w c has_client run p'.
  subst p' run.
  destruct (discoverDevices_invariant generate PLUGIN_NAME PLATFORM_NAME p w c has_client)
    as [q [w' [evs [Hrun [_ [_ [Hcl [_ [_ [_ [Hctx _]]]]]]]]]]].
  unfold after, held_devices. rewrite Hrun. cbn [fst snd]. rewrite Hcl.
  intros _.
  split; [ exact Hctx | ]. split.
  - intros Hnd d Hd Hav. rewrite Hctx.
    apply last_snapshot_distinct; [ exact Hnd | ]. apply filter_In. auto.
  - intros u Hu. rewrite Hctx. apply last_snapshot_absent.
    intros d Hd E. apply Hu. unfold discovered_of. rewrite <- E.
    apply in_map. exact Hd.
Qed.

(** With A and B known and B and C polled, B holds the polled snapshot. *)
Lemma discoverDevices_binds_the_last_snapshot_witness :
  context_of (uuid_of sample_generate device_B')
    (Platform.accessories
       (fst (after
          (Platform.discoverDevices sample_generate "plugin" "platform"
              (platform_with [] [accessory_for sample_generate device_A;
                                 accessory_for sample_generate device_B],
               world_polls [[device_B'; device_C]])))))
  = Some device_B'.
Proof.
  assert (H : named [device_B'; device_C]).
  { apply Forall_cons; [ discriminate | ].
    apply Forall_cons; [ discriminate | apply Forall_nil ]. }
  apply (proj1 (proj2 (discoverDevices_binds_the_last_snapshot
                         sample_generate "plugin" "platform"
                         (platform_with [] [accessory_for sample_generate device_A;
                                            accessory_for sample_generate device_B])
                         (world_polls [[device_B'; device_C]]) (client_holding [])
                         eq_refl H))).
  - vm_compute. repeat constructor; simpl; intuition discriminate.
  - vm_compute. auto.
  - reflexivity.
Defined.

(** The run of [discoverDevices] on a platform without a client. *)
Lemma discoverDevices_without_client_run :
  forall (generate : string -> string) (PLUGIN_NAME PLATFORM_NAME : string)
         (p : Platform.t) (w : World),
    Platform.client p = None ->
    Platform.discoverDevices generate PLUGIN_NAME PLATFORM_NAME (p, w)
    = (Returned tt,
       (p, with_events w
             [Log info "Start discovering devices";
              Log info "Client is not ready; skipping discoverDevices()"])).
Proof.
  intros generate PLUGIN_NAME PLATFORM_NAME p w Hc.
  unfold Platform.discoverDevices.
  unfold bind at 1. unfold Platform.log at 1, on_snd at 1, emit, modify. simpl.
  unfold bind at 1. unfold Platform.this at 1. simpl.
  rewrite Hc. unfold Platform.log, on_snd, emit, modify, record, with_events; simpl.
  rewrite <- app_assoc. reflexivity.
Qed.

(** X15.  Without a client [discoverDevices] does nothing but log: the
    platform is unchanged, no request is sent and nothing is registered or
    unregistered. *)
Theorem discoverDevices_without_client :
  forall (generate : string -> string) (PLUGIN_NAME PLATFORM_NAME : string)
         (p : Platform.t) (w : World),
    Platform.client p = None ->
    Platform.discoverDevices generate PLUGIN_NAME PLATFORM_NAME (p, w)
    = (Returned tt,
       (p, with_events w
             [Log info "Start discovering devices";
              Log info "Client is not ready; skipping discoverDevices()"])).
Proof.
  intros generate PLUGIN_NAME PLATFORM_NAME p w Hc.
  exact (discoverDevices_without_client_run generate PLUGIN_NAME PLATFORM_NAME p w Hc).
Qed.

(** A platform without a client, in any world. *)
Lemma discoverDevices_without_client_witness :
  Platform.discoverDevices sample_generate "plugin" "platform"
    ({| Platform.config := config_with_tvocUnit None;
        Platform.client := None;
        Platform.accessories := [accessory_for sample_generate device_A] |},
     world_offline)
  = (Returned tt,
     ({| Platform.config := config_with_tvocUnit None;
         Platform.client := None;
         Platform.accessories := [accessory_for sample_generate device_A] |},
      with_events world_offline
        [Log info "Start discovering devices";
         Log info "Client is not ready; skipping discoverDevices()"])).
Proof.
  apply (discoverDevices_without_client sample_generate "plugin" "platform").
  reflexivity.
Defined.

(** X16.  Two runs of [discoverDevices] after which the client holds the
    same list of named devices: the second run registers nothing and leaves
    the UUIDs of the list as the first run left them.  When the first run
    had nothing to unregister, neither has the second: it asks nothing of
    the host and returns. *)
Theorem discoverDevices_second_run_on_the_same_devices :
  forall (generate : string -> string) (PLUGIN_NAME PLATFORM_NAME : string)
         (p : Platform.t) (w : World) (c : Client.t),
    Platform.client p = Some c ->
    let first := Platform.discoverDevices generate PLUGIN_NAME PLATFORM_NAME (p, w) in
    let second :=
      Platform.discoverDevices generate PLUGIN_NAME PLATFORM_NAME (after first) in
    held_devices (fst (after second)) = held_devices (fst (after first)) ->
    host_accepts (held_devices (fst (after first))) p w ->
    registered (events_of_second first second) = [] /\
    map Homebridge.UUID (Platform.accessories (fst (after second)))
    = map Homebridge.UUID (Platform.accessories (fst (after first))) /\
    (unregistered (events_of_run w first) = [] ->
     fst second = Returned tt /\
     unregistered (events_of_second first second) = []).
Proof.
  intros generate PLUGIN_NAME PLATFORM_NAME p w c Hc first second.
  subst first second.
  destruct (discoverDevices_invariant generate PLUGIN_NAME PLATFORM_NAME p w c Hc)
    as [p1 [w1 [evs1 [Hrun1 [Hev1 [_ [Hcl1 [_ [_ [_ [_ [Hun1 Hcov1]]]]]]]]]]]].
  unfold events_of_second, events_of_run, after, held_devices.
  rewrite Hrun1. cbn [fst snd].
  destruct (discoverDevices_invariant generate PLUGIN_NAME PLATFORM_NAME p1 w1 _ Hcl1)
    as [p2 [w2 [evs2 [Hrun2 [Hev2 [_ [Hcl2 [Huu2 [_ [Hreg2 [_ [Hun2 _]]]]]]]]]]]].
  rewrite Hrun2. cbn [fst snd].
  rewrite Hcl1, Hcl2, Hev2, Hev1, !events_since_app.
  intros Hsame _.
  assert (Hnone : registered evs2 = []).
  { destruct (registered evs2) as [ | a rest] eqn:E; [ reflexivity | ].
    destruct (Hreg2 a (or_introl eq_refl)) as [Hnew [d [Hd [Hav ->]]]].
    exfalso. apply Hnew. rewrite accessory_for_UUID.
    apply Hcov1; [ rewrite <- Hsame; exact Hd | exact Hav ]. }
  rewrite Hnone in Huu2. cbn [map] in Huu2. rewrite app_nil_r in Huu2.
  split; [ exact Hnone | ]. split; [ exact Huu2 | ].
  intros Hquiet. split; [ reflexivity | ].
  assert (E : map Homebridge.UUID (unregistered evs2)
              = map Homebridge.UUID (unregistered evs1)).
  { rewrite Hun1, Hun2, Hsame. unfold unknown.
    match goal with
    | |- context [discovered_of generate ?ds] =>
        apply (map_UUID_filter
                 (fun u => negb (existsb (String.eqb u) (discovered_of generate ds))))
    end.
    exact Huu2. }
  rewrite Hquiet in E. exact (map_eq_nil _ _ E).
Qed.

Lemma token_requests_app (a b : list Event) :
  token_requests (a ++ b) = token_requests a ++ token_requests b.
Proof. apply filter_app. Qed.

Lemma scheduled_app (a b : list Event) :
  scheduled (a ++ b) = scheduled a ++ scheduled b.
Proof. apply flat_map_app. Qed.

Lemma logged_exceptions_app (a b : list Event) :
  logged_exceptions (a ++ b) = logged_exceptions a ++ logged_exceptions b.
Proof. apply flat_map_app. Qed.

(** With B restored by the host and B and C polled twice: the first run
    registers C and unregisters nothing, the second asks nothing of the
    host. *)
Lemma discoverDevices_second_run_on_the_same_devices_witness :
  let first := Platform.discoverDevices sample_generate "plugin" "platform"
                 (platform_with [] [accessory_for sample_generate device_B],
                  world_polls [[device_B'; device_C]; [device_B'; device_C]]) in
  let second := Platform.discoverDevices sample_generate "plugin" "platform"
                  (after first) in
  registered (events_of_second first second) = [] /\
  fst second = Returned tt /\
  unregistered (events_of_second first second) = [].
Proof.
  intros first second.
  assert (H : host_accepts (held_devices (fst (after first)))
                (platform_with [] [accessory_for sample_generate device_B])
                (world_polls [[device_B'; device_C]; [device_B'; device_C]])).
  { split; [ | split; [ | reflexivity ] ].
    - apply Forall_cons; [ discriminate | ].
      apply Forall_cons; [ discriminate | apply Forall_nil ].
    - apply NoDup_cons; [ intros [] | apply NoDup_nil ]. }
  destruct (discoverDevices_second_run_on_the_same_devices
              sample_generate "plugin" "platform"
              (platform_with [] [accessory_for sample_generate device_B])
              (world_polls [[device_B'; device_C]; [device_B'; device_C]])
              (client_holding []) eq_refl eq_refl H)
    as [Hreg [_ Hquiet]].
  split; [ exact Hreg | ]. apply Hquiet. reflexivity.
Defined.

(** [initialize] as a function of its first update. *)
Lemma initialize_run (p : Platform.t) (w : World) :
  let config := Platform.config p in
  let first :=
    Client.updateDevices
      (Client.new (Accessory.appKey config) (Accessory.appSecret config),
       record w (Log info (initialize_banner config))) in
  Platform.initialize (p, w)
  = (Returned tt,
     (Platform.set_client (Some (fst (snd first))) p,
      with_events (snd (snd first))
        match fst first with
        | Returned _ => [Log info "Initialized"; SetInterval (polling_period config)]
        | Thrown e => [LogExn error e; LogExn debug e]
        end)).
Proof.
  intros config first.
  unfold Platform.initialize.
  unfold bind at 1. unfold Platform.this at 1. cbn [fst snd].
  unfold try_catch.
  unfold bind at 1. unfold Platform.log at 1, on_snd at 1, emit, modify.
  cbn [fst snd].
  unfold bind at 1. unfold on_fst at 1, modify. cbn [fst snd].
  unfold bind at 1. unfold Platform.client_updateDevices at 1. cbn [fst snd].
  fold config. fold (initialize_banner config). fold first.
  destruct first as [[[] | e] [c1 w1]]; cbn [fst snd].
  - unfold bind, Platform.log, on_snd, emit, modify, record, with_events;
      cbn [fst snd events clock token_endpoint devices_endpoint].
    rewrite <- app_assoc. reflexivity.
  - unfold bind, on_snd, emit, modify, record, with_events;
      cbn [fst snd events clock token_endpoint devices_endpoint].
    rewrite <- app_assoc. reflexivity.
Qed.

(** X17.  [initialize] never throws, leaves the accessories alone and
    always leaves a client on the platform, the one its first update ran on.
    That first update always starts with a token request.  The polling
    timer is set, once and with the period [interval || 2000] (never 0),
    exactly when the first update returned; when it threw, no timer is set
    and the exception is logged at error and at debug level. *)
Theorem initialize_schedules_polling_only_after_a_first_update :
  forall (p : Platform.t) (w : World),
    let config := Platform.config p in
    let first :=
      Client.updateDevices
        (Client.new (Accessory.appKey config) (Accessory.appSecret config),
         record w (Log info (initialize_banner config))) in
    let run := Platform.initialize (p, w) in
    fst run = Returned tt /\
    Platform.accessories (fst (after run)) = Platform.accessories p /\
    Platform.client (fst (after run)) = Some (fst (snd first)) /\
    scheduled (events_of_run w run)
    = match fst first with
      | Returned _ => [polling_period config]
      | Thrown _ => []
      end /\
    logged_exceptions (events_of_run w run)
    = match fst first with
      | Returned _ => []
      | Thrown e => [(error, e); (debug, e)]
      end /\
    token_requests (events_of_run w run)
    = [HttpPost token_url (Accessory.appKey config) (Accessory.appSecret config)] /\
    polling_period config <> 0.
Proof.
  intros p w config first run. subst run.
  rewrite (initialize_run p w). cbv zeta. fold config. fold first.
  destruct (updateDevices_only_requests
              (Client.new (Accessory.appKey config) (Accessory.appSecret config))
              (record w (Log info (initialize_banner config))))
    as [upd [Hupd Hreq]].
  destruct (requests_are_silent upd Hreq) as [_ [_ [Ssch Slog]]].
  pose proof (updateDevices_token_requests
                (Client.new (Accessory.appKey config) (Accessory.appSecret config))
                (record w (Log info (initialize_banner config)))) as Htok.
  fold first in Hupd, Htok.
  rewrite Hupd in Htok. cbn [record events] in Htok, Hupd.
  rewrite !token_requests_app in Htok. cbn [token_requests filter] in Htok.
  rewrite app_nil_r in Htok. apply app_inv_head in Htok.
  unfold events_of_run, after, with_events. cbn [fst snd events].
  rewrite Hupd, <- !app_assoc, events_since_app.
  rewrite !scheduled_app, !logged_exceptions_app, !token_requests_app, Ssch, Slog, Htok.
  cbn [scheduled logged_exceptions token_requests flat_map filter app].
  split; [ reflexivity | ]. split; [ reflexivity | ]. split; [ reflexivity | ].
  split; [ destruct (fst first); reflexivity | ].
  split; [ destruct (fst first); reflexivity | ].
  split; [ destruct (fst first); reflexivity | ].
  unfold polling_period. destruct (Accessory.interval config) as [ms | ];
    [ destruct (Z.eqb_spec ms 0) | ]; lia.
Qed.

(** X18.  An accessory restored from the cache for an air monitor is put
    on the list with the constructor run on it, and the discovery that
    follows keeps its UUID on the list and registers no accessory with that
    UUID. *)
Theorem configureAccessory_then_discoverDevices_registers_no_twin :
  forall (generate : string -> string) (PLUGIN_NAME PLATFORM_NAME : string)
         (a : Homebridge.PlatformAccessory) (p : Platform.t) (w : World)
         (c : Client.t),
    Platform.client p = Some c ->
    is_air_monitor a = true ->
    let restored := Platform.configureAccessory a (p, w) in
    let run :=
      Platform.discoverDevices generate PLUGIN_NAME PLATFORM_NAME (after restored) in
    fst restored = Returned tt /\
    Platform.accessories (fst (after restored))
    = Platform.accessories p ++ [Accessory.new a] /\
    In (Homebridge.UUID a)
       (map Homebridge.UUID (Platform.accessories (fst (after run)))) /\
    forall r, In r (registered (events_of_run (snd (after restored)) run)) ->
              Homebridge.UUID r <> Homebridge.UUID a.
Proof.
  intros generate PLUGIN_NAME PLATFORM_NAME a p w c Hc Hair restored run.
  assert (Hres : restored
                 = (Returned tt,
                    (Platform.set_accessories
                       (Platform.accessories p ++ [Accessory.new a]) p,
                     record w (Log info ("Loading accessory from cache: "
                                         ++ Homebridge.displayName a))))).
  { subst restored. unfold Platform.configureAccessory.
    unfold is_air_monitor in Hair.
    unfold bind, Platform.log, on_snd, on_fst, emit, modify; cbn [fst snd].
    rewrite Hair. reflexivity. }
  subst run. rewrite Hres. unfold after. cbn [fst snd].
  set (p0 := Platform.set_accessories _ p).
  set (w0 := record w _).
  assert (Hc0 : Platform.client p0 = Some c) by exact Hc.
  destruct (discoverDevices_invariant generate PLUGIN_NAME PLATFORM_NAME p0 w0 c Hc0)
    as [q [w' [evs [Hrun [Hev [_ [_ [Huu [_ [Hreg _]]]]]]]]]].
  unfold events_of_run, after. rewrite Hrun. cbn [fst snd].
  rewrite Hev, events_since_app.
  assert (Hin : In (Homebridge.UUID a)
                   (map Homebridge.UUID (Platform.accessories p0))).
  { unfold p0. cbn [Platform.set_accessories Platform.accessories].
    rewrite map_app. apply in_or_app. right. left. apply Accessory_new_UUID. }
  split; [ reflexivity | ]. split; [ reflexivity | ]. split.
  - rewrite Huu. apply in_or_app. left. exact Hin.
  - intros r Hr E. destruct (Hreg r Hr) as [Hn _]. apply Hn. rewrite E. exact Hin.
Qed.

(** Accessory B restored, then B and C polled. *)
Lemma configureAccessory_then_discoverDevices_registers_no_twin_witness :
  In (Homebridge.UUID (accessory_for sample_generate device_B))
     (map Homebridge.UUID
        (Platform.accessories
           (fst (after
              (Platform.discoverDevices sample_generate "plugin" "platform"
                 (after
                    (Platform.configureAccessory
                       (accessory_for sample_generate device_B)
                       (platform_with [] [],
                        world_polls [[device_B'; device_C]])))))))).
Proof.
  apply (configureAccessory_then_discoverDevices_registers_no_twin
           sample_generate "plugin" "platform"
           (accessory_for sample_generate device_B)
           (platform_with [] []) (world_polls [[device_B'; device_C]])
           (client_holding []) eq_refl eq_refl).
Defined.

Lemma set_context_device_Forall (P : Homebridge.PlatformAccessory -> Prop)
  (uuid : string) (device : Qingping.Device)
  (l : list Homebridge.PlatformAccessory) :
  (forall a, P a ->
     P {| Homebridge.displayName := Homebridge.displayName a;
          Homebridge.UUID := Homebridge.UUID a;
          Homebridge.context_device := device;
          Homebridge.services := Homebridge.services a |}) ->
  Forall P l -> Forall P (Platform.set_context_device uuid device l).
Proof.
  intros Hupd. induction l as [ | a rest IH]; simpl; intros H; [ constructor | ].
  inversion H as [ | ? ? Ha Hrest]; subst.
  destruct (String.eqb (Homebridge.UUID a) uuid); constructor; auto.
Qed.

Lemma accessory_for_is_air_monitor (generate : string -> string)
  (device : Qingping.Device) :
  Platform.available device = true ->
  is_air_monitor (accessory_for generate device) = true.
Proof.
  intros Hav. unfold is_air_monitor, accessory_for.
  rewrite (proj2 (Accessory_new_fields _)). cbn [Homebridge.platformAccessory
    Homebridge.context_device].
  apply available_is_AirMonitor. exact Hav.
Qed.

Section AirMonitors.

Variable generate : string -> string.
Variables PLUGIN_NAME PLATFORM_NAME : string.

Local Abbreviation only_air_monitors :=
  (Forall (fun a => is_air_monitor a = true)).

Lemma for_of_discover_air_monitors (devices : list Qingping.Device) :
  forall (discovered : list string) (p : Platform.t) (w : World),
    Forall (fun d => Platform.available d = true) devices ->
    only_air_monitors (Platform.accessories p) ->
    only_air_monitors
      (Platform.accessories
         (fst (snd (Platform.for_of devices
                      (Platform.discover_device generate PLUGIN_NAME PLATFORM_NAME)
                      discovered (p, w))))).
Proof.
  induction devices as [ | device rest IH]; intros discovered p w Hav Hair.
  - exact Hair.
  - inversion Hav as [ | ? ? Hd Hrest]; subst.
    cbn [Platform.for_of]. unfold bind at 1.
    destruct (in_dec string_dec (uuid_of generate device)
                (map Homebridge.UUID (Platform.accessories p))) as [Hin | Hnot].
    + rewrite (discover_device_existing generate PLUGIN_NAME PLATFORM_NAME
                 discovered device p w Hin).
      apply IH; [ exact Hrest | ].
      cbn [Platform.set_accessories Platform.accessories].
      apply set_context_device_Forall; [ | exact Hair ].
      intros a _. unfold is_air_monitor. cbn [Homebridge.context_device].
      apply available_is_AirMonitor. exact Hd.
    + rewrite (discover_device_new generate PLUGIN_NAME PLATFORM_NAME
                 discovered device p w Hd Hnot).
      apply IH; [ exact Hrest | ].
      cbn [Platform.set_accessories Platform.accessories].
      apply Forall_app. split; [ exact Hair | ].
      constructor; [ | constructor ].
      apply accessory_for_is_air_monitor. exact Hd.
Qed.

Lemma reconcile_air_monitors (devices : list Qingping.Device)
  (p : Platform.t) (w : World) :
  only_air_monitors (Platform.accessories p) ->
  only_air_monitors
    (Platform.accessories
       (fst (snd (Platform.reconcile generate PLUGIN_NAME PLATFORM_NAME devices
                    (p, w))))).
Proof.
  intros Hair.
  unfold Platform.reconcile.
  unfold bind at 1. unfold Platform.log at 1, on_snd at 1, emit, modify. simpl.
  set (w0 := record w _).
  pose proof (for_of_discover_air_monitors (filter Platform.available devices) []
                p w0 (Forall_available_filter devices) Hair) as H1.
  destruct (for_of_discover_invariant generate PLUGIN_NAME PLATFORM_NAME
              (filter Platform.available devices) [] p w0
              (Forall_available_filter devices))
    as [p1 [evs1 [Hrun _]]].
  rewrite Hrun in H1. cbn [fst snd] in H1.
  unfold bind at 1. rewrite Hrun.
  unfold bind at 1. unfold Platform.this at 1.
  cbn [fst snd app].
  destruct (for_of_unregister_spec PLUGIN_NAME PLATFORM_NAME
              (discovered_of generate devices)
              (Platform.accessories p1) p1 (with_events w0 evs1))
    as [evs2 [Hrun2 _]].
  unfold discovered_of in Hrun2. rewrite Hrun2. exact H1.
Qed.

End AirMonitors.

(** X19.  The list of accessories only ever holds air monitors: an
    accessory restored from the cache is put on the list only when its
    product is the air monitor, and a run of [discoverDevices] on a list of
    air monitors leaves a list of air monitors and registers air monitors
    only, whatever products the device list contains. *)
Theorem accessories_are_air_monitors :
  forall (generate : string -> string) (PLUGIN_NAME PLATFORM_NAME : string)
         (p : Platform.t) (w : World),
    Forall (fun a => is_air_monitor a = true) (Platform.accessories p) ->
    (forall a,
       Forall (fun a => is_air_monitor a = true)
         (Platform.accessories
            (fst (after (Platform.configureAccessory a (p, w))))))
    /\
    (let run := Platform.discoverDevices generate PLUGIN_NAME PLATFORM_NAME (p, w) in
     Forall (fun a => is_air_monitor a = true)
       (Platform.accessories (fst (after run)))
     /\ Forall (fun a => is_air_monitor a = true)
          (registered (events_of_run w run))).
Proof.
  intros generate PLUGIN_NAME PLATFORM_NAME p w Hair. split.
  - intros a. unfold Platform.configureAccessory, after.
    unfold bind, Platform.log, on_snd, on_fst, emit, modify; cbn [fst snd].
    destruct (Qingping.id _ =? Qingping.DeviceProductId.AirMonitor) eqn:E;
      cbn [fst snd Platform.set_accessories Platform.accessories];
      [ | exact Hair ].
    apply Forall_app. split; [ exact Hair | ].
    constructor; [ | constructor ].
    unfold is_air_monitor. rewrite (proj2 (Accessory_new_fields a)). exact E.
  - cbv zeta. destruct (Platform.client p) as [c | ] eqn:Hc.
    + split.
      * unfold after.
        rewrite (discoverDevices_with_client generate PLUGIN_NAME PLATFORM_NAME
                   p w c Hc).
        apply reconcile_air_monitors. exact Hair.
      * destruct (discoverDevices_invariant generate PLUGIN_NAME PLATFORM_NAME
                    p w c Hc)
          as [q [w' [evs [Hrun [Hev [_ [_ [_ [_ [Hreg _]]]]]]]]]].
        unfold events_of_run, after. rewrite Hrun. cbn [fst snd].
        rewrite Hev, events_since_app.
        apply Forall_forall. intros a Ha.
        destruct (Hreg a Ha) as [_ [d [_ [Hav ->]]]].
        apply accessory_for_is_air_monitor. exact Hav.
    + rewrite (discoverDevices_without_client_run generate PLUGIN_NAME
                 PLATFORM_NAME p w Hc).
      unfold events_of_run, after, with_events. cbn [fst snd events].
      rewrite events_since_app. split; [ exact Hair | constructor ].
Qed.

(** From accessory A, a poll that lists an air monitor and another product. *)
Lemma accessories_are_air_monitors_witness :
  Forall (fun a => is_air_monitor a = true)
    (Platform.accessories
       (fst (after
          (Platform.discoverDevices sample_generate "plugin" "platform"
             (platform_with [] [accessory_for sample_generate device_A],
              world_polls [[device_C; other_product]]))))).
Proof.
  assert (H : Forall (fun a => is_air_monitor a = true)
                (Platform.accessories
                   (platform_with [] [accessory_for sample_generate device_A])))
    by (repeat constructor).
  exact (proj1 (proj2 (accessories_are_air_monitors
                         sample_generate "plugin" "platform"
                         (platform_with [] [accessory_for sample_generate device_A])
                         (world_polls [[device_C; other_product]]) H))).
Defined.

(** X20.  The callback of the polling timer catches nothing and logs
    nothing: its outcome is the outcome of the client's [updateDevices], its
    only events are that call's requests, and it leaves the accessories
    alone; without a client it does nothing at all. *)
Theorem interval_callback_is_a_bare_update :
  forall (p : Platform.t) (w : World),
    let run := Platform.interval_callback (p, w) in
    Platform.accessories (fst (after run)) = Platform.accessories p /\
    forallb is_request (events_of_run w run) = true /\
    logged_exceptions (events_of_run w run) = [] /\
    (Platform.client p = None -> run = (Returned tt, (p, w))) /\
    (forall c, Platform.client p = Some c ->
               fst run = fst (Client.updateDevices (c, w))).
Proof.
  intros p w run. subst run.
  unfold Platform.interval_callback, events_of_run, after.
  unfold bind at 1. unfold Platform.this at 1. cbn [fst snd].
  unfold bind at 1. unfold Platform.this at 1. cbn [fst snd].
  unfold bind at 1. unfold Platform.this at 1. cbn [fst snd].
  unfold bind at 1. unfold Platform.this at 1. cbn [fst snd].
  unfold bind at 1. unfold Platform.this at 1. cbn [fst snd].
  destruct (Platform.client p) as [c | ] eqn:Hc.
  - unfold Platform.client_updateDevices. cbn [fst snd].
    destruct (updateDevices_only_requests c w) as [upd [Hupd Hreq]].
    destruct (requests_are_silent upd Hreq) as [_ [_ [_ Slog]]].
    destruct (Client.updateDevices (c, w)) as [r [c1 w1]] eqn:Hrun.
    cbn [fst snd] in *.
    rewrite Hupd, events_since_app.
    split; [ reflexivity | ]. split; [ exact Hreq | ]. split; [ exact Slog | ].
    split; [ discriminate | ].
    intros c' E. injection E as <-. rewrite Hrun. reflexivity.
  - unfold ret. cbn [fst snd].
    assert (E0 : events_since (events w) (events w) = []).
    { rewrite <- (app_nil_r (events w)) at 2. apply events_since_app. }
    rewrite !E0.
    split; [ reflexivity | ]. split; [ reflexivity | ]. split; [ reflexivity | ].
    split; [ reflexivity | ]. intros c E. discriminate E.
Qed.

(** A tick with the network down throws the request's exception. *)
Lemma interval_callback_is_a_bare_update_witness :
  fst (Platform.interval_callback (platform_with [device_A] [], world_offline))
  = fst (Client.updateDevices (client_holding [device_A], world_offline)).
Proof.
  apply (proj2 (proj2 (proj2 (proj2 (interval_callback_is_a_bare_update
                                       (platform_with [device_A] [])
                                       world_offline))))).
  reflexivity.
Defined.

(* ================================================================== *)
(** * A failed update, in discovery and at start-up *)

(** The claim C5 read on concrete cycles, with the endpoints out of reach.
    In [discoverDevices] the plugin knows accessory A and its client holds
    device C in its cache: the update fails and the failure is logged, yet
    the cycle goes on, C is registered, A is unregistered and the list of
    accessories is no longer what it was.  In a tick of the polling timer
    the failure is neither caught nor logged: the promise the callback
    returns to the timer is rejected. *)
Lemma discoverDevices_failed_update_changes_accessories :
  let p := platform_with [device_C] [accessory_for sample_generate device_A] in
  let run := Platform.discoverDevices sample_generate "plugin" "platform"
               (p, world_offline) in
  let tick := Platform.interval_callback
                (platform_polling [device_C] [accessory_for sample_generate device_A],
                 world_offline) in
  (logged_exceptions (events (snd (after run))) = [(debug, RequestError token_url)] /\
   ~ (Platform.accessories (fst (after run)) = Platform.accessories p /\
      registered (events (snd (after run))) = [] /\
      unregistered (events (snd (after run))) = []))
  /\
  (fst tick = Thrown (RequestError token_url) /\
   logged_exceptions (events (snd (after tick))) = []).
Proof.
  vm_compute. split; [ split; [ reflexivity | ] | split; reflexivity ].
  intros [H _]. discriminate H.
Qed.

(** C5, as the code has it, on the two paths that catch a failed update.

    In [discoverDevices] the error is caught and logged (at debug level)
    and the client's device cache is what it was before the cycle, but the
    cycle is not cut short: what it does from there on is the reconciliation
    of the accessories against that cached device list, as after a
    successful update.  When the host carries out the calls of that
    reconciliation the cycle returns normally, so the error of the update is
    not raised out of it.

    In [initialize] the error is caught and logged (at error and at debug
    level), the accessories are left alone, nothing is registered or
    unregistered, the new client holds no device, nothing is raised, and no
    polling timer is set. *)
Theorem discoverDevices_failed_update_reconciles_cache :
  forall (generate : string -> string) (PLUGIN_NAME PLATFORM_NAME : string)
         (p : Platform.t) (w : World),
    (forall (c c1 : Client.t) (w1 : World) (e : Exn),
       Platform.client p = Some c ->
       Client.updateDevices (c, record w (Log info "Start discovering devices"))
       = (Thrown e, (c1, w1)) ->
       Client.devices c1 = Client.devices c /\
       Platform.discoverDevices generate PLUGIN_NAME PLATFORM_NAME (p, w)
       = Platform.reconcile generate PLUGIN_NAME PLATFORM_NAME (Client.devices c)
           (Platform.set_client (Some c1) p, record w1 (LogExn debug e)) /\
       (host_accepts (Client.devices c) p w ->
        exists p' w',
          Platform.discoverDevices generate PLUGIN_NAME PLATFORM_NAME (p, w)
          = (Returned tt, (p', w')) /\
          Platform.client p' = Some c1 /\
          In (LogExn debug e) (events w')))
    /\
    (forall (c1 : Client.t) (w1 : World) (e : Exn),
       Client.updateDevices
         (Client.new (Accessory.appKey (Platform.config p))
                     (Accessory.appSecret (Platform.config p)),
          record w (Log info (initialize_banner (Platform.config p))))
       = (Thrown e, (c1, w1)) ->
       let run := Platform.initialize (p, w) in
       fst run = Returned tt /\
       Platform.accessories (fst (after run)) = Platform.accessories p /\
       held_devices (fst (after run)) = [] /\
       logged_exceptions (events_of_run w run) = [(error, e); (debug, e)] /\
       registered (events_of_run w run) = [] /\
       unregistered (events_of_run w run) = [] /\
       scheduled (events_of_run w run) = []).
Proof.
  intros generate PLUGIN_NAME PLATFORM_NAME p w. split.
  - intros c c1 w1 e Hc Hup.
    assert (Hd : Client.devices c1 = Client.devices c).
    { exact (updateDevices_devices c _ _ _ _ Hup). }
    assert (Hrun :
      Platform.discoverDevices generate PLUGIN_NAME PLATFORM_NAME (p, w)
      = Platform.reconcile generate PLUGIN_NAME PLATFORM_NAME (Client.devices c)
          (Platform.set_client (Some c1) p, record w1 (LogExn debug e))).
    { unfold Platform.discoverDevices.
      unfold bind at 1. unfold Platform.log at 1, on_snd at 1, emit, modify. simpl.
      unfold bind at 1. unfold Platform.this at 1. simpl.
      rewrite Hc.
      unfold bind at 1, try_catch, bind at 1, Platform.client_updateDevices. simpl.
      rewrite Hup. simpl.
      unfold bind at 1. unfold Platform.this at 1. simpl.
      rewrite Hd. reflexivity. }
    split; [ exact Hd | ]. split; [ exact Hrun | ].
    intros _.
    destruct (reconcile_returns generate PLUGIN_NAME PLATFORM_NAME (Client.devices c)
                (Platform.set_client (Some c1) p, record w1 (LogExn debug e)))
      as [[p' w'] [Hrec [Hcl [_ [evs Hevs]]]]].
    exists p', w'. split; [ rewrite Hrun; exact Hrec | ].
    split; [ exact Hcl | ].
    simpl in Hevs. rewrite Hevs.
    apply in_or_app. left. apply in_or_app. right. left. reflexivity.
  - intros c1 w1 e Hfirst run. subst run.
    pose proof (initialize_run p w) as Hinit. cbv zeta in Hinit.
    rewrite Hfirst in Hinit. cbn [fst snd] in Hinit. rewrite Hinit.
    destruct (updateDevices_only_requests
                (Client.new (Accessory.appKey (Platform.config p))
                            (Accessory.appSecret (Platform.config p)))
                (record w (Log info (initialize_banner (Platform.config p)))))
      as [upd [Hupd Hreq]].
    rewrite Hfirst in Hupd. cbn [fst snd record events] in Hupd.
    destruct (requests_are_silent upd Hreq) as [Sreg [Sun [Ssch Slog]]].
    pose proof (updateDevices_devices _ _ _ _ _ Hfirst) as Hd. cbn in Hd.
    unfold events_of_run, after, held_devices, with_events.
    cbn [fst snd events Platform.client Platform.set_client Platform.accessories].
    rewrite Hupd, <- !app_assoc, events_since_app.
    rewrite !logged_exceptions_app, !registered_app, !unregistered_app,
      !scheduled_app, Sreg, Sun, Ssch, Slog.
    cbn [logged_exceptions registered unregistered scheduled flat_map app].
    repeat (split; [ first [ reflexivity | exact Hd ] | ]). reflexivity.
Qed.

(** Both paths with accessory A known, device C in the cache of the client
    and the endpoints out of reach: A was restored by the host and C has a
    name, so the host carries out what the reconciliation asks of it. *)
Lemma discoverDevices_failed_update_reconciles_cache_witness :
  let p := platform_with [device_C] [accessory_for sample_generate device_A] in
  (exists p' w',
     Platform.discoverDevices sample_generate "plugin" "platform" (p, world_offline)
     = (Returned tt, (p', w')) /\
     Platform.client p' = Some (client_holding [device_C]) /\
     In (LogExn debug (RequestError token_url)) (events w'))
  /\
  (fst (Platform.initialize (p, world_offline)) = Returned tt /\
   scheduled (events_of_run world_offline (Platform.initialize (p, world_offline)))
   = []).
Proof.
  intros p.
  destruct (discoverDevices_failed_update_reconciles_cache
              sample_generate "plugin" "platform" p world_offline) as [D I].
  split.
  - apply (D (client_holding [device_C]) (client_holding [device_C])
             (record (record world_offline (Log info "Start discovering devices"))
                     (HttpPost token_url "key" "secret"))
             (RequestError token_url) eq_refl eq_refl).
    split; [ | split; [ | reflexivity ] ].
    + apply Forall_cons; [ discriminate | apply Forall_nil ].
    + apply NoDup_cons; [ intros [] | apply NoDup_nil ].
  - destruct (I (client_holding [])
                (record (record world_offline
                           (Log info (initialize_banner (Platform.config p))))
                        (HttpPost token_url "key" "secret"))
                (RequestError token_url) eq_refl)
      as [H1 [_ [_ [_ [_ [_ H7]]]]]].
    split; [ exact H1 | exact H7 ].
Defined.
